(** * OOP Foundation: the e-commerce model and the encapsulated bank account

    A shallow embedding of the classes of [08_comprehensive_project.py]
    (Address, Money, Product, User, the payment strategies, CartItem,
    ShoppingCart, Order) and of [BankAccount] and [SecureBankAccount] from
    [03_encapsulation.py], followed by the properties of these classes.

    Conventions of the embedding:
    - a method that can raise returns a [result]; a method that mutates
      [self] returns the new [self] next to its result, equal to the old one
      on every path that raises before the first assignment;
    - Python numbers ([int] and [float] mixed freely by the source) are a
      type [num] with the operations of the class [PyNum].  The definitions
      and the general theorems are stated for every [PyNum]; two instances
      are given, exact decimals ([Dec], over [Q]) and IEEE binary64 ([F64],
      over the primitive floats), the second one to evaluate the code on
      the numbers CPython really computes with;
    - objects that are shared between containers (products, cart lines) live
      in a [Heap] and are referred to by identity;
    - values the runtime supplies ([uuid.uuid4()], [datetime.now()], the
      SHA-256 digest) are arguments of the functions that read them.

    Not modelled: the string renderings ([__str__], [__repr__]), [__hash__],
    the read-only properties that only return a field and the creation
    timestamps. *)

From Stdlib Require Import ZArith QArith Qround Floats String Ascii List Lia.
From stdpp Require Import base option list gmap strings pretty.

Close Scope Q_scope.
Local Open Scope string_scope.
Local Open Scope Z_scope.

(** ** Exceptions *)

Inductive exn : Type :=
  | ValueError (msg : string)
  | TypeError (msg : string)
  | NoSuchObject. (* model only: a reference no constructor has returned *)

Inductive result (A : Type) : Type :=
  | Ok (a : A)
  | Raise (e : exn).
Arguments Ok {A} a.
Arguments Raise {A} e.

#[global] Instance result_ret : MRet result := λ A a, Ok a.
#[global] Instance result_bind : MBind result := λ A B f r,
  match r with
  | Ok a => f a
  | Raise e => Raise e
  end.

Definition raises {A} (r : result A) : bool :=
  match r with Ok _ => false | Raise _ => true end.

(** ** Strings *)

(** [str.upper()] on the ASCII range, where currency codes live. *)
Definition upper_ascii (c : ascii) : ascii :=
  let n := nat_of_ascii c in
  if ((97 <=? n) && (n <=? 122))%nat then ascii_of_nat (n - 32) else c.

Fixpoint upper (s : string) : string :=
  match s with
  | EmptyString => EmptyString
  | String c s' => String (upper_ascii c) (upper s')
  end.

(** [str.isdigit()] on the ASCII range. *)
Definition is_digit (c : ascii) : bool :=
  let n := nat_of_ascii c in ((48 <=? n) && (n <=? 57))%nat.

Fixpoint isdigit_from (s : string) : bool :=
  match s with
  | EmptyString => true
  | String c s' => is_digit c && isdigit_from s'
  end.

Definition isdigit (s : string) : bool :=
  match s with
  | EmptyString => false
  | _ => isdigit_from s
  end.

(** ["@" in s], ["." in s] *)
Fixpoint contains_char (c : ascii) (s : string) : bool :=
  match s with
  | EmptyString => false
  | String c' s' => Ascii.eqb c c' || contains_char c s'
  end.

(** ** Numbers *)

(** The operations the source applies to numbers.  [lit m k] is the decimal
    literal [m / 10^k] ([5.99] is [lit 599 2]); [round2] is [round(x, 2)];
    [format_2f] is the format specification [:.2f]. *)
Class PyNum (num : Type) : Type := {
  of_int : Z → num;
  lit : Z → nat → num;
  add : num → num → num;
  sub : num → num → num;
  mul : num → num → num;
  div : num → num → num;
  opp : num → num;
  ltb : num → num → bool;
  leb : num → num → bool;
  eqb : num → num → bool;
  round2 : num → num;
  format_2f : num → string
}.

(** What the general theorems on amounts need from the arithmetic: sums,
    products and roundings of numbers that are not negative are not negative,
    neither are the literals and integers written without a sign, and
    rounding a rounded number changes nothing. *)
Class PyNumLaws (num : Type) `{PyNum num} : Prop := {
  of_int_not_neg : ∀ z, 0 ≤ z → ltb (of_int z) (of_int 0) = false;
  lit_not_neg : ∀ m k, 0 ≤ m → ltb (lit m k) (of_int 0) = false;
  add_not_neg : ∀ a b, ltb a (of_int 0) = false → ltb b (of_int 0) = false →
                       ltb (add a b) (of_int 0) = false;
  mul_not_neg : ∀ a b, ltb a (of_int 0) = false → ltb b (of_int 0) = false →
                       ltb (mul a b) (of_int 0) = false;
  round2_not_neg : ∀ a, ltb a (of_int 0) = false → ltb (round2 a) (of_int 0) = false;
  round2_idem : ∀ a, round2 (round2 a) = round2 a
}.

(** Digits of a number of hundredths: [cents_text false 12345 = "123.45"]. *)
Definition two_digits (n : Z) : string :=
  if n <? 10 then "0" +:+ pretty n else pretty n.

Definition cents_text (negative : bool) (n : Z) : string :=
  (if negative then "-" else "") +:+ pretty (Z.abs n / 100) +:+ "." +:+ two_digits (Z.abs n mod 100).

(** Round to the nearest integer, ties to the even one, the exact quotient
    [n / d] ([0 < d]). *)
Definition round_half_even (n d : Z) : Z :=
  let q := n / d in
  let r := n mod d in
  match 2 * r ?= d with
  | Lt => q
  | Gt => q + 1
  | Eq => if Z.even q then q else q + 1
  end.

(** *** Exact decimals *)

Module Dec.

Definition cents (a : Q) : Z :=
  round_half_even (Qnum a * 100) (Zpos (Qden a)).

Definition round_2 (a : Q) : Q := Qred (Qmake (cents a) 100).

Definition decimal (m : Z) (k : nat) : Q := Qred (Qmake m (Pos.pow 10 (Pos.of_nat k))).

Definition literal (m : Z) (k : nat) : Q :=
  match k with
  | O => inject_Z m
  | _ => decimal m k
  end.

Definition lt (a b : Q) : bool := negb (Qle_bool b a).

Definition format (a : Q) : string := cents_text (lt a 0%Q) (cents a).

#[global] Instance num : PyNum Q := {|
  of_int := inject_Z;
  lit := literal;
  add a b := Qred (Qplus a b);
  sub a b := Qred (Qminus a b);
  mul a b := Qred (Qmult a b);
  div a b := Qred (Qdiv a b);
  opp := Qopp;
  ltb := lt;
  leb := Qle_bool;
  eqb := Qeq_bool;
  round2 := round_2;
  format_2f := format
|}.

End Dec.

(** *** IEEE binary64, as CPython's [float] *)

Module F64.

(** The double nearest to [n / d] (ties to even), [0 < d]. *)
Definition of_ratio (n : Z) (d : positive) : float :=
  match n with
  | Z0 => PrimFloat.zero
  | Zpos p => SF2Prim (SFdiv prec emax (S754_finite false p 0) (S754_finite false d 0))
  | Zneg p => SF2Prim (SFdiv prec emax (S754_finite true p 0) (S754_finite false d 0))
  end.

Definition of_Z (z : Z) : float := of_ratio z 1.

Definition decimal (m : Z) (k : nat) : float := of_ratio m (Pos.pow 10 (Pos.of_nat k)).

Definition literal (m : Z) (k : nat) : float :=
  match k with
  | O => of_Z m
  | _ => decimal m k
  end.

(** The exact value of a finite double, in hundredths, rounded half-even:
  the digits [repr] and [:.2f] are made of. *)
Definition cents (x : float) : option Z :=
  match Prim2SF x with
  | S754_zero _ => Some 0
  | S754_finite s m e =>
      let n := match e with
               | Zneg p => round_half_even (Zpos m * 100) (Zpos (Pos.pow 2 p))
               | _ => Zpos m * 100 * 2 ^ e
               end in
      Some (if s then - n else n)
  | _ => None
  end.

(** [round(x, 2)]: the double nearest to the two-place decimal nearest to
  [x]; infinities and NaN round to themselves. *)
Definition round_2 (x : float) : float :=
  match cents x with
  | Some 0 => if get_sign x then PrimFloat.neg_zero else PrimFloat.zero
  | Some n => of_ratio n 100
  | None => x
  end.

Definition format (x : float) : string :=
  match cents x with
  | Some n => cents_text (get_sign x) n
  | None => if is_nan x then "nan" else if get_sign x then "-inf" else "inf"
  end.

#[global] Instance num : PyNum float := {|
  of_int := of_Z;
  lit := literal;
  add := PrimFloat.add;
  sub := PrimFloat.sub;
  mul := PrimFloat.mul;
  div := PrimFloat.div;
  opp := PrimFloat.opp;
  ltb := PrimFloat.ltb;
  leb := PrimFloat.leb;
  eqb := PrimFloat.eqb;
  round2 := round_2;
  format_2f := format
|}.

End F64.


(** ** The classes *)

Section Model.
Context {num : Type} `{PyNum num}.

(** *** Money (08_comprehensive_project.py, class Money)

    The [isinstance(other, Money)] tests of the operators are the types of
    the arguments here. *)

Record Money : Type := {
  Money_amount : num;
  Money_currency : string
}.

(** [Money.__init__]; the default currency is ["USD"]. *)
Definition Money_init (amount : num) (currency : string) : result Money :=
  if ltb amount (of_int 0) then Raise (ValueError "Amount cannot be negative")
  else Ok {| Money_amount := round2 amount; Money_currency := upper currency |}.

Definition Money_add (self other : Money) : result Money :=
  if negb (String.eqb (Money_currency self) (Money_currency other))
  then Raise (ValueError ("Cannot add " +:+ Money_currency self +:+ " and " +:+ Money_currency other))
  else Money_init (add (Money_amount self) (Money_amount other)) (Money_currency self).

Definition Money_sub (self other : Money) : result Money :=
  if negb (String.eqb (Money_currency self) (Money_currency other))
  then Raise (ValueError ("Cannot subtract " +:+ Money_currency other +:+ " from " +:+ Money_currency self))
  else
    let result := sub (Money_amount self) (Money_amount other) in
    if ltb result (of_int 0) then Raise (ValueError "Result would be negative")
    else Money_init result (Money_currency self).

(** [Money.__mul__] for an [int] scalar, the case [CartItem.total_price]
    uses. *)
Definition Money_mul (self : Money) (scalar : Z) : result Money :=
  if scalar <? 0 then Raise (ValueError "Cannot multiply by negative number")
  else Money_init (mul (Money_amount self) (of_int scalar)) (Money_currency self).

Definition Money_eq (self other : Money) : bool :=
  eqb (Money_amount self) (Money_amount other)
  && String.eqb (Money_currency self) (Money_currency other).

Definition Money_lt (self other : Money) : result bool :=
  if negb (String.eqb (Money_currency self) (Money_currency other))
  then Raise (ValueError ("Cannot compare " +:+ Money_currency self +:+ " with " +:+ Money_currency other))
  else Ok (ltb (Money_amount self) (Money_amount other)).

(** *** Address *)

Record Address : Type := {
  Address_street : string;
  Address_city : string;
  Address_state : string;
  Address_zip_code : string;
  Address_country : string
}.

Definition Address_eq (self other : Address) : bool :=
  String.eqb (Address_street self) (Address_street other)
  && String.eqb (Address_city self) (Address_city other)
  && String.eqb (Address_state self) (Address_state other)
  && String.eqb (Address_zip_code self) (Address_zip_code other).

(** *** User

    [hashlib.sha256(...).hexdigest()] is the digest function [sha256_hex];
    the identifier comes from [uuid.uuid4()]. *)

Record User : Type := {
  User_user_id : string;
  User_username : string;
  User_email : string;
  User_password_hash : string;
  User_addresses : list Address;
  User_is_active : bool
}.

Section Hashing.
Variable sha256_hex : string → string.

Definition User_hash_password (password : string) : string := sha256_hex password.

Definition User_init (uuid4 username email password : string) : User :=
  {| User_user_id := uuid4;
     User_username := username;
     User_email := email;
     User_password_hash := User_hash_password password;
     User_addresses := [];
     User_is_active := true |}.

Definition User_verify_password (self : User) (password : string) : bool :=
  String.eqb (User_hash_password password) (User_password_hash self).

Definition User_set_password_hash (self : User) (h : string) : User :=
  {| User_user_id := User_user_id self;
     User_username := User_username self;
     User_email := User_email self;
     User_password_hash := h;
     User_addresses := User_addresses self;
     User_is_active := User_is_active self |}.

Definition User_change_password (self : User) (old_password new_password : string)
  : result bool * User :=
  if negb (User_verify_password self old_password) then (Ok false, self)
  else if (String.length new_password <? 8)%nat
       then (Raise (ValueError "Password must be at least 8 characters"), self)
       else (Ok true, User_set_password_hash self (User_hash_password new_password)).

End Hashing.

Definition User_set_addresses (self : User) (l : list Address) : User :=
  {| User_user_id := User_user_id self;
     User_username := User_username self;
     User_email := User_email self;
     User_password_hash := User_password_hash self;
     User_addresses := l;
     User_is_active := User_is_active self |}.

(** [address in self._addresses]: some element compares equal. *)
Definition address_in (address : Address) (l : list Address) : bool :=
  existsb (λ e, Address_eq e address) l.

Definition User_add_address (self : User) (address : Address) : User :=
  if negb (address_in address (User_addresses self))
  then User_set_addresses self (User_addresses self ++ [address])
  else self.

(** [list.remove]: drops the first element that compares equal. *)
Fixpoint remove_first (address : Address) (l : list Address) : list Address :=
  match l with
  | [] => []
  | e :: l' => if Address_eq e address then l' else e :: remove_first address l'
  end.

Definition User_remove_address (self : User) (address : Address) : User :=
  if address_in address (User_addresses self)
  then User_set_addresses self (remove_first address (User_addresses self))
  else self.

(** *** BankAccount (03_encapsulation.py)

    Every method of the account answers with a message string.  A PIN
    argument is a Python object: [Some s] for a string, [None] for anything
    else. *)

Record Transaction : Type := {
  Transaction_type : string;
  Transaction_amount : num;
  Transaction_description : string;
  Transaction_timestamp : string
}.

Record BankAccount : Type := {
  BankAccount_owner_name : string;
  BankAccount_account_number : Z;
  BankAccount_balance : num;
  BankAccount_pin : option string;
  BankAccount_is_locked : bool;
  BankAccount_transaction_history : list Transaction
}.

(** [next] is the class counter [_next_account_number]; the constructor
    returns it incremented. *)
Definition BankAccount_init (next : Z) (owner_name : string) (initial_balance : num)
  : result (BankAccount * Z) :=
  if ltb initial_balance (of_int 0) then Raise (ValueError "Initial balance cannot be negative")
  else Ok ({| BankAccount_owner_name := owner_name;
              BankAccount_account_number := next;
              BankAccount_balance := initial_balance;
              BankAccount_pin := None;
              BankAccount_is_locked := false;
              BankAccount_transaction_history := [] |}, next + 1).

Definition BankAccount_add_transaction (self : BankAccount)
  (transaction_type : string) (amount : num) (description : string) : BankAccount :=
  {| BankAccount_owner_name := BankAccount_owner_name self;
     BankAccount_account_number := BankAccount_account_number self;
     BankAccount_balance := BankAccount_balance self;
     BankAccount_pin := BankAccount_pin self;
     BankAccount_is_locked := BankAccount_is_locked self;
     BankAccount_transaction_history :=
       BankAccount_transaction_history self ++
       [{| Transaction_type := transaction_type;
           Transaction_amount := amount;
           Transaction_description := description;
           Transaction_timestamp := "2024-01-01 12:00:00" |}] |}.

Definition BankAccount_set_balance (self : BankAccount) (b : num) : BankAccount :=
  {| BankAccount_owner_name := BankAccount_owner_name self;
     BankAccount_account_number := BankAccount_account_number self;
     BankAccount_balance := b;
     BankAccount_pin := BankAccount_pin self;
     BankAccount_is_locked := BankAccount_is_locked self;
     BankAccount_transaction_history := BankAccount_transaction_history self |}.

Definition BankAccount_store_pin (self : BankAccount) (p : string) : BankAccount :=
  {| BankAccount_owner_name := BankAccount_owner_name self;
     BankAccount_account_number := BankAccount_account_number self;
     BankAccount_balance := BankAccount_balance self;
     BankAccount_pin := Some p;
     BankAccount_is_locked := BankAccount_is_locked self;
     BankAccount_transaction_history := BankAccount_transaction_history self |}.

Definition BankAccount_set_pin (self : BankAccount) (new_pin : option string)
  : result string * BankAccount :=
  if BankAccount_is_locked self then (Ok "Account is locked. Cannot change PIN.", self)
  else match new_pin with
       | Some p =>
           if negb (String.length p =? 4)%nat || negb (isdigit p)
           then (Ok "PIN must be a 4-digit string.", self)
           else (Ok "PIN set successfully.",
                 BankAccount_add_transaction (BankAccount_store_pin self p)
                   "PIN_SET" (of_int 0) "PIN has been set")
       | None => (Ok "PIN must be a 4-digit string.", self)
       end.

Definition BankAccount_verify_pin (self : BankAccount) (entered_pin : option string) : bool :=
  match BankAccount_pin self with
  | None => false
  | Some p => match entered_pin with
              | Some e => String.eqb p e
              | None => false
              end
  end.

Definition BankAccount_deposit (self : BankAccount) (amount : num) (pin : option string)
  : result string * BankAccount :=
  if BankAccount_is_locked self
  then (Ok "Account is locked. Please contact customer service.", self)
  else if leb amount (of_int 0) then (Ok "Deposit amount must be positive.", self)
  else if ltb (of_int 10000) amount && negb (BankAccount_verify_pin self pin)
  then (Ok "PIN required for deposits over $10,000.", self)
  else
    let balance := add (BankAccount_balance self) amount in
    (Ok ("Successfully deposited $" +:+ format_2f amount +:+ ". New balance: $"
         +:+ format_2f balance),
     BankAccount_add_transaction (BankAccount_set_balance self balance)
       "DEPOSIT" amount ("Deposited $" +:+ format_2f amount)).

Definition BankAccount_withdraw (self : BankAccount) (amount : num) (pin : option string)
  : result string * BankAccount :=
  if BankAccount_is_locked self
  then (Ok "Account is locked. Please contact customer service.", self)
  else if negb (BankAccount_verify_pin self pin)
  then (Ok "Invalid PIN. Withdrawal denied.", self)
  else if leb amount (of_int 0) then (Ok "Withdrawal amount must be positive.", self)
  else if ltb (BankAccount_balance self) amount
  then (Ok ("Insufficient funds. Available balance: $" +:+ format_2f (BankAccount_balance self)),
        self)
  else
    let balance := sub (BankAccount_balance self) amount in
    (Ok ("Successfully withdrew $" +:+ format_2f amount +:+ ". New balance: $"
         +:+ format_2f balance),
     BankAccount_add_transaction (BankAccount_set_balance self balance)
       "WITHDRAWAL" (opp amount) ("Withdrew $" +:+ format_2f amount)).

Definition BankAccount_lock_account (self : BankAccount) : result string * BankAccount :=
  (Ok "Account has been locked for security.",
   BankAccount_add_transaction
     {| BankAccount_owner_name := BankAccount_owner_name self;
        BankAccount_account_number := BankAccount_account_number self;
        BankAccount_balance := BankAccount_balance self;
        BankAccount_pin := BankAccount_pin self;
        BankAccount_is_locked := true;
        BankAccount_transaction_history := BankAccount_transaction_history self |}
     "LOCK" (of_int 0) "Account has been locked").

(** *** Products

    A product object is identified by its [_id], which [Product.__init__]
    draws from the class counter [_next_id] and nothing reassigns:
    [Product.__eq__] compares these identifiers.  References to products are
    identifiers into the heap. *)

Inductive ProductKind : Type :=
  | Book (author isbn : string) (pages : Z)
  | Electronics (brand model : string) (weight : num) (warranty_months : Z)
  | Clothing (brand size color material : string).

Record Product : Type := {
  Product_id : Z;
  Product_name : string;
  Product_price : Money;
  Product_description : string;
  Product_in_stock : bool;
  Product_kind : ProductKind
}.

Definition Product_set_price (self : Product) (price : Money) : Product :=
  {| Product_id := Product_id self;
     Product_name := Product_name self;
     Product_price := price;
     Product_description := Product_description self;
     Product_in_stock := Product_in_stock self;
     Product_kind := Product_kind self |}.

Definition Product_set_in_stock (self : Product) (value : bool) : Product :=
  {| Product_id := Product_id self;
     Product_name := Product_name self;
     Product_price := Product_price self;
     Product_description := Product_description self;
     Product_in_stock := value;
     Product_kind := Product_kind self |}.

Definition Product_get_category (self : Product) : string :=
  match Product_kind self with
  | Book _ _ _ => "Books"
  | Electronics _ _ _ _ => "Electronics"
  | Clothing _ _ _ _ => "Clothing"
  end.

(** [max(a, b)] keeps [a] unless [b > a]. *)
Definition py_max (a b : num) : num := if ltb a b then b else a.

Definition Product_get_shipping_weight (self : Product) : num :=
  match Product_kind self with
  | Book _ _ pages => py_max (lit 5 1) (mul (of_int pages) (lit 5 3))
  | Electronics _ _ weight _ => weight
  | Clothing _ _ _ _ => lit 8 1
  end.

Definition Product_apply_discount (self : Product) (percentage : num) : result num :=
  if negb (leb (of_int 0) percentage && leb percentage (of_int 100))
  then Raise (ValueError "Discount percentage must be between 0 and 100")
  else
    let discount_amount :=
      mul (Money_amount (Product_price self)) (div percentage (of_int 100)) in
    Ok (sub (Money_amount (Product_price self)) discount_amount).

(** *** Protocol classes

    [isinstance] against a [typing.Protocol] class is answered structurally
    only when the class is decorated with [@runtime_checkable]; against any
    other protocol class the call raises [TypeError].  [Discountable] is
    declared [class Discountable(Protocol)] with no decorator. *)

Record ProtocolClass : Type := {
  runtime_checkable : bool;
  protocol_members : list string
}.

Definition Discountable : ProtocolClass :=
  {| runtime_checkable := false;
     protocol_members := ["apply_discount"; "get_original_price"] |}.

Definition isinstance_protocol (attributes : list string) (P : ProtocolClass) : result bool :=
  if runtime_checkable P
  then Ok (forallb (λ m, existsb (String.eqb m) attributes) (protocol_members P))
  else Raise (TypeError
         "Instance and class checks can only be used with @runtime_checkable protocols").

(** The methods and properties every [Product] has. *)
Definition Product_attributes : list string :=
  ["id"; "name"; "price"; "description"; "in_stock"; "get_category";
   "get_shipping_weight"; "apply_discount"; "get_original_price"].

(** *** The heap

    Products and cart lines are mutable objects reachable from several
    places: a cart and the orders made from it refer to the same products.
    Cart lines are addressed by location; a new line takes a location that
    is not in use. *)

Definition loc : Type := positive.

Record CartItem : Type := {
  CartItem_product : Z;
  CartItem_quantity : Z
}.

Record Heap : Type := {
  Heap_next_id : Z;
  Heap_products : gmap Z Product;
  Heap_cart_items : gmap loc CartItem
}.

Definition Heap_empty : Heap :=
  {| Heap_next_id := 1; Heap_products := ∅; Heap_cart_items := ∅ |}.

Definition Heap_set_products (h : Heap) (ps : gmap Z Product) : Heap :=
  {| Heap_next_id := Heap_next_id h;
     Heap_products := ps;
     Heap_cart_items := Heap_cart_items h |}.

Definition Heap_set_cart_items (h : Heap) (cs : gmap loc CartItem) : Heap :=
  {| Heap_next_id := Heap_next_id h;
     Heap_products := Heap_products h;
     Heap_cart_items := cs |}.

(** [Product.__init__], reached through the constructors of the subclasses. *)
Definition Product_init (h : Heap) (name : string) (price : Money)
  (description : string) (kind : ProductKind) : Z * Heap :=
  let id := Heap_next_id h in
  (id,
   {| Heap_next_id := id + 1;
      Heap_products :=
        <[id := {| Product_id := id;
                   Product_name := name;
                   Product_price := price;
                   Product_description := description;
                   Product_in_stock := true;
                   Product_kind := kind |}]> (Heap_products h);
      Heap_cart_items := Heap_cart_items h |}).

Definition Book_init (h : Heap) (title author isbn : string) (price : Money) (pages : Z)
  : Z * Heap :=
  Product_init h title price ("By " +:+ author) (Book author isbn pages).

Definition Electronics_init (h : Heap) (name brand model : string) (price : Money)
  (weight : num) (warranty_months : Z) : Z * Heap :=
  Product_init h name price (brand +:+ " " +:+ model)
    (Electronics brand model weight warranty_months).

Definition Clothing_SIZES : list string := ["XS"; "S"; "M"; "L"; "XL"; "XXL"].

Definition Clothing_init (h : Heap) (name brand size color : string) (price : Money)
  (material : string) : result (Z * Heap) :=
  if negb (existsb (String.eqb size) Clothing_SIZES)
  then Raise (ValueError "Size must be one of: ['XS', 'S', 'M', 'L', 'XL', 'XXL']")
  else Ok (Product_init h name price (brand +:+ " " +:+ color +:+ " " +:+ material)
             (Clothing brand size color material)).

(** *** CartItem *)

Definition CartItem_init (h : Heap) (product : Z) (quantity : Z) : result CartItem :=
  if quantity <=? 0 then Raise (ValueError "Quantity must be positive")
  else match Heap_products h !! product with
       | None => Raise NoSuchObject
       | Some p =>
           if negb (Product_in_stock p) then Raise (ValueError "Product is out of stock")
           else Ok {| CartItem_product := product; CartItem_quantity := quantity |}
       end.

Definition CartItem_total_price (h : Heap) (self : CartItem) : result Money :=
  match Heap_products h !! CartItem_product self with
  | None => Raise NoSuchObject
  | Some p => Money_mul (Product_price p) (CartItem_quantity self)
  end.

(** Allocation of a new cart line. *)
Definition new_CartItem (h : Heap) (item : CartItem) : loc * Heap :=
  let l := fresh (dom (Heap_cart_items h)) in
  (l, Heap_set_cart_items h (<[l := item]> (Heap_cart_items h))).

(** *** ShoppingCart

    The cart keeps the user it belongs to (by identifier) and the list of
    its lines.  Each method returns its result with the heap and the cart
    after the call. *)

Record ShoppingCart : Type := {
  ShoppingCart_user : string;
  ShoppingCart_items : list loc
}.

Definition ShoppingCart_init (user : string) : ShoppingCart :=
  {| ShoppingCart_user := user; ShoppingCart_items := [] |}.

Definition ShoppingCart_set_items (self : ShoppingCart) (items : list loc) : ShoppingCart :=
  {| ShoppingCart_user := ShoppingCart_user self; ShoppingCart_items := items |}.

(** [item.product == product] for the line at [l]. *)
Definition line_has_product (h : Heap) (product : Z) (l : loc) : bool :=
  match Heap_cart_items h !! l with
  | Some item => CartItem_product item =? product
  | None => false
  end.

(** The loop [for item in self._items: if item.product == product: ...]
    acts on the first line of the product and returns. *)
Fixpoint find_line (h : Heap) (items : list loc) (product : Z) : option loc :=
  match items with
  | [] => None
  | l :: rest => if line_has_product h product l then Some l else find_line h rest product
  end.

Definition CartItem_set_quantity (self : CartItem) (quantity : Z) : CartItem :=
  {| CartItem_product := CartItem_product self; CartItem_quantity := quantity |}.

Definition ShoppingCart_add_item (h : Heap) (self : ShoppingCart) (product : Z) (quantity : Z)
  : result unit * (Heap * ShoppingCart) :=
  match Heap_products h !! product with
  | None => (Raise NoSuchObject, (h, self))
  | Some p =>
      if negb (Product_in_stock p)
      then (Raise (ValueError (Product_name p +:+ " is out of stock")), (h, self))
      else
        match find_line h (ShoppingCart_items self) product with
        | Some l =>
            (Ok (),
             (Heap_set_cart_items h
                (alter (λ item, CartItem_set_quantity item (CartItem_quantity item + quantity))
                   l (Heap_cart_items h)),
              self))
        | None =>
            match CartItem_init h product quantity with
            | Raise e => (Raise e, (h, self))
            | Ok item =>
                let '(l, h') := new_CartItem h item in
                (Ok (), (h', ShoppingCart_set_items self (ShoppingCart_items self ++ [l])))
            end
        end
  end.

Definition ShoppingCart_remove_item (h : Heap) (self : ShoppingCart) (product : Z)
  : result unit * (Heap * ShoppingCart) :=
  (Ok (),
   (h, ShoppingCart_set_items self
         (List.filter (λ l, negb (line_has_product h product l)) (ShoppingCart_items self)))).

Definition ShoppingCart_update_quantity (h : Heap) (self : ShoppingCart)
  (product : Z) (new_quantity : Z) : result unit * (Heap * ShoppingCart) :=
  if new_quantity <=? 0 then ShoppingCart_remove_item h self product
  else
    match find_line h (ShoppingCart_items self) product with
    | Some l =>
        (Ok (),
         (Heap_set_cart_items h
            (alter (λ item, CartItem_set_quantity item new_quantity) l (Heap_cart_items h)),
          self))
    | None => (Raise (ValueError "Product not in cart"), (h, self))
    end.

Definition ShoppingCart_clear (h : Heap) (self : ShoppingCart)
  : result unit * (Heap * ShoppingCart) :=
  (Ok (), (h, ShoppingCart_set_items self [])).

(** The body of [if isinstance(item.product, Discountable): ...] once the
    test has answered. *)
Definition discount_product (h : Heap) (p : Product) (percentage : num) : result Heap :=
  discounted_price ← Product_apply_discount p percentage;
  price ← Money_init discounted_price (Money_currency (Product_price p));
  Ok (Heap_set_products h (<[Product_id p := Product_set_price p price]> (Heap_products h))).

Definition ShoppingCart_apply_discount_to_item (h : Heap) (self : ShoppingCart)
  (product : Z) (percentage : num) : result unit * (Heap * ShoppingCart) :=
  match find_line h (ShoppingCart_items self) product with
  | Some l =>
      match Heap_products h !! product with
      | None => (Raise NoSuchObject, (h, self))
      | Some p =>
          match isinstance_protocol Product_attributes Discountable with
          | Raise e => (Raise e, (h, self))
          | Ok true =>
              match discount_product h p percentage with
              | Raise e => (Raise e, (h, self))
              | Ok h' => (Ok (), (h', self))
              end
          | Ok false => (Ok (), (h, self))
          end
      end
  | None => (Raise (ValueError "Product not in cart"), (h, self))
  end.

(** The line objects behind a list of locations. *)
Definition lines (h : Heap) (items : list loc) : list (option CartItem) :=
  map (λ l, Heap_cart_items h !! l) items.

Definition ShoppingCart_item_count (h : Heap) (self : ShoppingCart) : Z :=
  fold_left (λ acc item, acc + from_option CartItem_quantity 0 item)
    (lines h (ShoppingCart_items self)) 0.

Definition line_total_price (h : Heap) (item : option CartItem) : result Money :=
  match item with
  | Some item => CartItem_total_price h item
  | None => Raise NoSuchObject
  end.

Definition add_line_total (h : Heap) (total : result Money) (item : option CartItem)
  : result Money :=
  total ← total;
  price ← line_total_price h item;
  Money_add total price.

Definition ShoppingCart_total_amount (h : Heap) (self : ShoppingCart) : result Money :=
  match lines h (ShoppingCart_items self) with
  | [] => Money_init (of_int 0) "USD"
  | first :: rest => fold_left (add_line_total h) rest (line_total_price h first)
  end.

Definition ShoppingCart_len (self : ShoppingCart) : nat := length (ShoppingCart_items self).

Definition ShoppingCart_contains (h : Heap) (self : ShoppingCart) (product : Z) : bool :=
  existsb (line_has_product h product) (ShoppingCart_items self).

(** *** Payment strategies

    [datetime.now()] and [uuid.uuid4()] are read from the environment of the
    call. *)

Record Env : Type := {
  Env_year : Z;
  Env_month : Z;
  Env_uuid4 : string
}.

Inductive Payable : Type :=
  | CreditCard (card_number cardholder_name : string) (expiry_month expiry_year : Z)
      (cvv : string)
  | PayPal (email password_hash : string) (is_verified : bool).

Record PaymentResult : Type := {
  PaymentResult_success : bool;
  PaymentResult_transaction_id : option string;
  PaymentResult_error : option string;
  PaymentResult_amount : option num;
  PaymentResult_method : option string;
  PaymentResult_source : option string
}.

(** [card_number[-4:]] *)
Definition last4 (s : string) : string :=
  substring (String.length s - 4) 4 s.

Definition CreditCard_init (card_number cardholder_name : string)
  (expiry_month expiry_year : Z) (cvv : string) : Payable :=
  CreditCard ("**** **** **** " +:+ last4 card_number) cardholder_name
    expiry_month expiry_year cvv.

Definition Payable_validate_payment_info (env : Env) (self : Payable) : bool :=
  match self with
  | CreditCard _ _ expiry_month expiry_year cvv =>
      if expiry_year <? Env_year env then false
      else if (expiry_year =? Env_year env) && (expiry_month <? Env_month env) then false
      else if negb ((String.length cvv =? 3)%nat || (String.length cvv =? 4)%nat) then false
      else true
  | PayPal email _ is_verified => contains_char "@" email && is_verified
  end.

Definition Payable_process_payment (env : Env) (self : Payable) (amount : num)
  : PaymentResult :=
  if negb (Payable_validate_payment_info env self)
  then {| PaymentResult_success := false;
          PaymentResult_transaction_id := None;
          PaymentResult_error :=
            Some match self with
                 | CreditCard _ _ _ _ _ => "Invalid payment information"
                 | PayPal _ _ _ => "Invalid PayPal account"
                 end;
          PaymentResult_amount := None;
          PaymentResult_method := None;
          PaymentResult_source := None |}
  else match self with
       | CreditCard card_number _ _ _ _ =>
           {| PaymentResult_success := true;
              PaymentResult_transaction_id := Some (Env_uuid4 env);
              PaymentResult_error := None;
              PaymentResult_amount := Some amount;
              PaymentResult_method := Some "Credit Card";
              PaymentResult_source := Some card_number |}
       | PayPal email _ _ =>
           {| PaymentResult_success := true;
              PaymentResult_transaction_id := Some ("PP_" +:+ substring 0 8 (Env_uuid4 env));
              PaymentResult_error := None;
              PaymentResult_amount := Some amount;
              PaymentResult_method := Some "PayPal";
              PaymentResult_source := Some email |}
       end.

(** *** Order

    The status is one of the six strings the methods assign. *)

Inductive OrderStatus : Type :=
  | Pending | Paid | PaymentFailed | Shipped | Delivered | Cancelled.

Definition OrderStatus_text (s : OrderStatus) : string :=
  match s with
  | Pending => "Pending"
  | Paid => "Paid"
  | PaymentFailed => "Payment Failed"
  | Shipped => "Shipped"
  | Delivered => "Delivered"
  | Cancelled => "Cancelled"
  end.

Record Order : Type := {
  Order_order_id : string;
  Order_user : string;
  Order_items : list loc;
  Order_shipping_address : Address;
  Order_status : OrderStatus;
  Order_payment_method : option Payable;
  Order_transaction_id : option string
}.

Definition Order_set_status (self : Order) (status : OrderStatus) : Order :=
  {| Order_order_id := Order_order_id self;
     Order_user := Order_user self;
     Order_items := Order_items self;
     Order_shipping_address := Order_shipping_address self;
     Order_status := status;
     Order_payment_method := Order_payment_method self;
     Order_transaction_id := Order_transaction_id self |}.

Definition Order_set_transaction_id (self : Order) (transaction_id : option string) : Order :=
  {| Order_order_id := Order_order_id self;
     Order_user := Order_user self;
     Order_items := Order_items self;
     Order_shipping_address := Order_shipping_address self;
     Order_status := Order_status self;
     Order_payment_method := Order_payment_method self;
     Order_transaction_id := transaction_id |}.

(** [[CartItem(item.product, item.quantity) for item in cart._items]]: one
    new line object per line of the cart, on the same product. *)
Fixpoint copy_lines (h : Heap) (items : list loc) : result (list loc * Heap) :=
  match items with
  | [] => Ok ([], h)
  | l :: rest =>
      match Heap_cart_items h !! l with
      | None => Raise NoSuchObject
      | Some item =>
          copy ← CartItem_init h (CartItem_product item) (CartItem_quantity item);
          let '(l', h') := new_CartItem h copy in
          '(ls, h'') ← copy_lines h' rest;
          Ok (l' :: ls, h'')
      end
  end.

Definition Order_init (h : Heap) (uuid4 : string) (user : string) (cart : ShoppingCart)
  (shipping_address : Address) : result (Order * Heap) :=
  match ShoppingCart_items cart with
  | [] => Raise (ValueError "Cannot create order with empty cart")
  | _ =>
      '(items, h') ← copy_lines h (ShoppingCart_items cart);
      Ok ({| Order_order_id := uuid4;
             Order_user := user;
             Order_items := items;
             Order_shipping_address := shipping_address;
             Order_status := Pending;
             Order_payment_method := None;
             Order_transaction_id := None |}, h')
  end.

(** [sum((item.total_price for item in self._items), Money(0))] *)
Definition Order_subtotal (h : Heap) (self : Order) : result Money :=
  fold_left (add_line_total h) (lines h (Order_items self)) (Money_init (of_int 0) "USD").

Definition line_weight (h : Heap) (item : option CartItem) : result num :=
  match item with
  | None => Raise NoSuchObject
  | Some item =>
      match Heap_products h !! CartItem_product item with
      | None => Raise NoSuchObject
      | Some p => Ok (mul (Product_get_shipping_weight p) (of_int (CartItem_quantity item)))
      end
  end.

Definition add_line_weight (h : Heap) (total : result num) (item : option CartItem)
  : result num :=
  total ← total;
  weight ← line_weight h item;
  Ok (add total weight).

Definition Order_total_weight (h : Heap) (self : Order) : result num :=
  fold_left (add_line_weight h) (lines h (Order_items self)) (Ok (of_int 0)).

Definition Order_calculate_shipping (h : Heap) (self : Order) : result Money :=
  total_weight ← Order_total_weight h self;
  let shipping_cost :=
    if leb total_weight (of_int 1) then lit 599 2
    else if leb total_weight (of_int 5) then lit 999 2
    else lit 1599 2 in
  Money_init shipping_cost "USD".

Definition Order_calculate_tax (subtotal : Money) : result Money :=
  let tax_rate := lit 85 3 in
  Money_init (mul (Money_amount subtotal) tax_rate) "USD".

Definition Order_total_amount (h : Heap) (self : Order) : result Money :=
  subtotal ← Order_subtotal h self;
  shipping ← Order_calculate_shipping h self;
  tax ← Order_calculate_tax subtotal;
  with_shipping ← Money_add subtotal shipping;
  Money_add with_shipping tax.

Definition Order_set_payment_method (self : Order) (payment_method : Payable) : Order :=
  {| Order_order_id := Order_order_id self;
     Order_user := Order_user self;
     Order_items := Order_items self;
     Order_shipping_address := Order_shipping_address self;
     Order_status := Order_status self;
     Order_payment_method := Some payment_method;
     Order_transaction_id := Order_transaction_id self |}.

Definition Order_process_payment (env : Env) (h : Heap) (self : Order)
  : result bool * Order :=
  match Order_payment_method self with
  | None => (Raise (ValueError "Payment method not set"), self)
  | Some payment_method =>
      match Order_total_amount h self with
      | Raise e => (Raise e, self)
      | Ok total =>
          let result := Payable_process_payment env payment_method (Money_amount total) in
          if PaymentResult_success result
          then (Ok true,
                Order_set_status
                  (Order_set_transaction_id self (PaymentResult_transaction_id result)) Paid)
          else (Ok false, Order_set_status self PaymentFailed)
      end
  end.

Definition Order_ship_order (self : Order) : result unit * Order :=
  match Order_status self with
  | Paid => (Ok (), Order_set_status self Shipped)
  | _ => (Raise (ValueError "Cannot ship unpaid order"), self)
  end.

Definition Order_deliver_order (self : Order) : result unit * Order :=
  match Order_status self with
  | Shipped => (Ok (), Order_set_status self Delivered)
  | _ => (Raise (ValueError "Cannot deliver unshipped order"), self)
  end.

Definition Order_cancel_order (self : Order) : result unit * Order :=
  match Order_status self with
  | Shipped | Delivered =>
      (Raise (ValueError "Cannot cancel shipped or delivered order"), self)
  | _ => (Ok (), Order_set_status self Cancelled)
  end.

(** ** Callers and the properties stated of them *)

(** The answer of [withdraw] when the amount exceeds the balance. *)
Definition refusal (self : BankAccount) (amount : num) (pin : option string) : string :=
  if BankAccount_is_locked self then "Account is locked. Please contact customer service."
  else if negb (BankAccount_verify_pin self pin) then "Invalid PIN. Withdrawal denied."
  else if leb amount (of_int 0) then "Withdrawal amount must be positive."
  else "Insufficient funds. Available balance: $" +:+ format_2f (BankAccount_balance self).

(** What a caller can do with a cart; a call that raises leaves heap and
    cart to the next call as they are. *)
Inductive CartCall : Type :=
  | CallAddItem (product quantity : Z)
  | CallRemoveItem (product : Z)
  | CallUpdateQuantity (product new_quantity : Z)
  | CallClear
  | CallApplyDiscountToItem (product : Z) (percentage : num).

Definition ShoppingCart_call (state : Heap * ShoppingCart) (call : CartCall)
  : Heap * ShoppingCart :=
  match call with
  | CallAddItem product quantity =>
      snd (ShoppingCart_add_item (fst state) (snd state) product quantity)
  | CallRemoveItem product =>
      snd (ShoppingCart_remove_item (fst state) (snd state) product)
  | CallUpdateQuantity product new_quantity =>
      snd (ShoppingCart_update_quantity (fst state) (snd state) product new_quantity)
  | CallClear => snd (ShoppingCart_clear (fst state) (snd state))
  | CallApplyDiscountToItem product percentage =>
      snd (ShoppingCart_apply_discount_to_item (fst state) (snd state) product percentage)
  end.

(** Every line of the cart is a line object with a positive quantity. *)
Definition quantities_positive (h : Heap) (self : ShoppingCart) : Prop :=
  Forall (λ l, ∃ item, Heap_cart_items h !! l = Some item ∧ 0 < CartItem_quantity item)
    (ShoppingCart_items self).

(** What a caller can do with an order; a call that raises leaves the order
    to the next call as it is.  [process_payment] reads the clock, the
    identifier generator and the heap of the moment. *)
Inductive OrderCall : Type :=
  | CallSetPaymentMethod (payment_method : Payable)
  | CallProcessPayment (env : Env) (h : Heap)
  | CallShipOrder
  | CallDeliverOrder
  | CallCancelOrder.

Definition Order_call (self : Order) (call : OrderCall) : Order :=
  match call with
  | CallSetPaymentMethod payment_method => Order_set_payment_method self payment_method
  | CallProcessPayment env h => snd (Order_process_payment env h self)
  | CallShipOrder => snd (Order_ship_order self)
  | CallDeliverOrder => snd (Order_deliver_order self)
  | CallCancelOrder => snd (Order_cancel_order self)
  end.

Definition sets_payment_method (call : OrderCall) : bool :=
  match call with CallSetPaymentMethod _ => true | _ => false end.

Definition cancels (call : OrderCall) : bool :=
  match call with CallCancelOrder => true | _ => false end.

(** What the calls on the cart keep of the heap [h1] an order was made
    in: the products, the lines of the order, and that no line of the cart
    is a line of the order. *)
Definition apart (h1 : Heap) (made : Order) (state : Heap * ShoppingCart) : Prop :=
  Heap_products (fst state) = Heap_products h1
  ∧ Forall (λ l, Heap_cart_items (fst state) !! l = Heap_cart_items h1 !! l
                 ∧ is_Some (Heap_cart_items h1 !! l)) (Order_items made)
  ∧ Forall (λ l, l ∉ Order_items made) (ShoppingCart_items (snd state)).

(** The three shipping bands, by total weight in pounds. *)
Definition shipping_band (total_weight : num) : num :=
  if leb total_weight (of_int 1) then lit 599 2
  else if leb total_weight (of_int 5) then lit 999 2
  else lit 1599 2.

(** The sum of Money values from a first one, with [+]. *)
Definition Money_sum (start : result Money) (l : list (result Money)) : result Money :=
  fold_left (λ total price, total ← total; price ← price; Money_add total price) l start.


End Model.

(** ** A sample session, after the demonstration of the source

    Two products at 29.99 and 1299.99 USD, a cart with two books and one
    laptop, and the order made from it. *)

Section Samples.
Context {num : Type} `{PyNum num}.

Definition sample_address : Address :=
  {| Address_street := "123 Main St"; Address_city := "Anytown";
     Address_state := "CA"; Address_zip_code := "12345"; Address_country := "USA" |}.

Definition sample_address_abroad : Address :=
  {| Address_street := "123 Main St"; Address_city := "Anytown";
     Address_state := "CA"; Address_zip_code := "12345"; Address_country := "Canada" |}.

(** A stand-in for the digest, to build sample users. *)
Definition sample_digest (s : string) : string := "sha256:" +:+ s.

Definition sample_user : User :=
  User_add_address
    (User_init sample_digest "u-1" "john_smith" "john@example.com" "securepass123")
    sample_address.

Definition sample_money (amount : num) : Money :=
  {| Money_amount := round2 amount; Money_currency := "USD" |}.

Definition sample_catalogue : Heap :=
  let '(_, h) := Book_init Heap_empty "Python OOP Guide" "John Doe" "978-1234567890"
                   (sample_money (lit 2999 2)) 350 in
  let '(_, h) := Electronics_init h "Gaming Laptop" "TechBrand" "GX-3000"
                   (sample_money (lit 129999 2)) (lit 55 1) 24 in
  h.

Definition sample_book : Z := 1.
Definition sample_laptop : Z := 2.

Definition sample_cart_one_line : Heap * ShoppingCart :=
  snd (ShoppingCart_add_item sample_catalogue (ShoppingCart_init "u-1") sample_book 2).

Definition sample_cart : Heap * ShoppingCart :=
  snd (ShoppingCart_add_item (fst sample_cart_one_line) (snd sample_cart_one_line)
         sample_laptop 1).

Definition sample_order_made : result (Order * Heap) :=
  Order_init (fst sample_cart) "o-1" "u-1" (snd sample_cart) sample_address.

Definition sample_order : Order :=
  {| Order_order_id := "o-1";
     Order_user := "u-1";
     Order_items := [3; 4]%positive;
     Order_shipping_address := sample_address;
     Order_status := Pending;
     Order_payment_method := None;
     Order_transaction_id := None |}.

Definition sample_heap : Heap :=
  match sample_order_made with
  | Ok (_, h) => h
  | Raise _ => fst sample_cart
  end.

(** The total of the sample order once the price of the book is replaced
    by its price less ten percent, as the body of [apply_discount_to_item]
    would do. *)
Definition sample_total_after_discount : result Money :=
  match Heap_products sample_heap !! sample_book with
  | Some p =>
      h ← discount_product sample_heap p (of_int 10);
      Order_total_amount h sample_order
  | None => Raise NoSuchObject
  end.

Definition sample_env : Env :=
  {| Env_year := 2025; Env_month := 6; Env_uuid4 := "0f8fad5b-d9cb-469f-a165-70867728950e" |}.

Definition sample_card : Payable :=
  CreditCard_init "4532123456789012" "John Smith" 12 2025 "123".

Definition sample_account : BankAccount :=
  snd (BankAccount_set_pin
         {| BankAccount_owner_name := "Alice";
            BankAccount_account_number := 1000;
            BankAccount_balance := of_int 100;
            BankAccount_pin := None;
            BankAccount_is_locked := false;
            BankAccount_transaction_history := [] |}
         (Some "1234")).

End Samples.

(** ** The classes, continued *)

(** *** Rounding to two decimal places, as a specification

    [n] hundredths is the number [v] rounded to two decimal places when
    [n / 100] is a nearest multiple of a hundredth to [v] and, where [v] lies
    half-way between two of them, the one with [n] even.  This is what
    [round(v, 2)] is to return; it is stated on the numbers themselves, and
    not by the function [round_half_even] that the embedding computes with. *)
Definition rounds_to_cents (v : Q) (n : Z) : Prop :=
  (inject_Z n - (1 # 2) <= v * 100)%Q
  ∧ (v * 100 <= inject_Z n + (1 # 2))%Q
  ∧ ((v * 100 == inject_Z n - (1 # 2))%Q ∨ (v * 100 == inject_Z n + (1 # 2))%Q →
     Z.even n = true).

(** The number a finite double stands for: [(-1)^s * m * 2^e]. *)
Definition float_value (x : float) : option Q :=
  match Prim2SF x with
  | S754_zero _ => Some 0%Q
  | S754_finite s m e =>
      let magnitude :=
        match e with
        | Zneg p => Qmake (Zpos m) (Pos.pow 2 p)
        | _ => inject_Z (Zpos m * 2 ^ e)
        end in
      Some (if s then Qopp magnitude else magnitude)
  | _ => None
  end.

(** [str.lower()] on the ASCII range. *)
Definition lower_ascii (c : ascii) : ascii :=
  let n := nat_of_ascii c in
  if ((65 <=? n) && (n <=? 90))%nat then ascii_of_nat (n + 32) else c.

Fixpoint lower (s : string) : string :=
  match s with
  | EmptyString => EmptyString
  | String c s' => String (lower_ascii c) (lower s')
  end.

(** [needle in s] for strings. *)
Fixpoint contains_string (needle s : string) : bool :=
  String.prefix needle s
  || match s with
     | EmptyString => false
     | String _ s' => contains_string needle s'
     end.

(** [s.split(sep)] for a separator of one character. *)
Fixpoint split_on (sep : ascii) (s : string) : list string :=
  match s with
  | EmptyString => [EmptyString]
  | String c s' =>
      if Ascii.eqb c sep then EmptyString :: split_on sep s'
      else match split_on sep s' with
           | first :: rest => String c first :: rest
           | [] => [String c EmptyString]
           end
  end.

(** The truth value of an argument that is a string or [None]. *)
Definition truthy (o : option string) : bool :=
  match o with
  | Some s => negb (String.eqb s "")
  | None => false
  end.

(** Order laws of the arithmetic, for the properties that compare amounts:
    [<] is irreflexive and asymmetric, [<=] and [==] are read off [<], a
    difference is negative exactly when the first number is the smaller, and
    adding the rounded zero to a rounded number changes nothing. *)
Class PyNumOrder (num : Type) `{PyNum num} : Prop := {
  ltb_irrefl : ∀ a, ltb a a = false;
  ltb_asym : ∀ a b, ltb a b = true → ltb b a = false;
  leb_ltb : ∀ a b, leb a b = negb (ltb b a);
  eqb_ltb : ∀ a b, eqb a b = negb (ltb a b) && negb (ltb b a);
  sub_ltb : ∀ a b, ltb (sub a b) (of_int 0) = ltb a b;
  add_zero_round2 : ∀ a, add (round2 (of_int 0)) (round2 a) = round2 a
}.

Section ModelContinued.
Context {num : Type} `{PyNum num}.

(** *** Money: the derived comparisons

    [__le__] is [self < other or self == other], [__gt__] is
    [not self <= other], [__ge__] is [not self < other]. *)

Definition Money_le (self other : Money) : result bool :=
  less ← Money_lt self other;
  Ok (less || Money_eq self other).

Definition Money_gt (self other : Money) : result bool :=
  le ← Money_le self other;
  Ok (negb le).

Definition Money_ge (self other : Money) : result bool :=
  less ← Money_lt self other;
  Ok (negb less).

(** *** User: the email setter and the active flag *)

Definition User_set_email_field (self : User) (email : string) : User :=
  {| User_user_id := User_user_id self;
     User_username := User_username self;
     User_email := email;
     User_password_hash := User_password_hash self;
     User_addresses := User_addresses self;
     User_is_active := User_is_active self |}.

(** [if "@" not in new_email or "." not in new_email.split("@")[1]]: the
    second test is evaluated only when the first is false, and then the
    split has a second segment. *)
Definition User_set_email (self : User) (new_email : string) : result unit * User :=
  if negb (contains_char "@" new_email)
  then (Raise (ValueError "Invalid email format"), self)
  else match split_on "@" new_email with
       | _ :: domain :: _ =>
           if negb (contains_char "." domain)
           then (Raise (ValueError "Invalid email format"), self)
           else (Ok (), User_set_email_field self new_email)
       | _ => (Raise (ValueError "Invalid email format"), self)
       end.

Definition User_set_is_active (self : User) (value : bool) : User :=
  {| User_user_id := User_user_id self;
     User_username := User_username self;
     User_email := User_email self;
     User_password_hash := User_password_hash self;
     User_addresses := User_addresses self;
     User_is_active := value |}.

Definition User_deactivate (self : User) : User := User_set_is_active self false.
Definition User_activate (self : User) : User := User_set_is_active self true.

(** *** BankAccount: reading the balance *)

Definition BankAccount_get_balance (self : BankAccount) (pin : option string) : string :=
  if BankAccount_is_locked self then "Account is locked. Please contact customer service."
  else if negb (BankAccount_verify_pin self pin) then "Invalid PIN. Access denied."
  else "Current balance: $" +:+ format_2f (BankAccount_balance self).

(** *** SecureBankAccount (03_encapsulation.py)

    The attributes of the parent class are the record [BankAccount]; the
    inherited methods act on it. *)

Record SecureBankAccount : Type := {
  SecureBankAccount_account : @BankAccount num;
  SecureBankAccount_security_question : option string;
  SecureBankAccount_security_answer : option string;
  SecureBankAccount_failed_attempts : Z;
  SecureBankAccount_max_attempts : Z
}.

Definition SecureBankAccount_init (next : Z) (owner_name : string) (initial_balance : num)
  (security_question security_answer : option string) : result (SecureBankAccount * Z) :=
  '(account, next') ← BankAccount_init next owner_name initial_balance;
  Ok ({| SecureBankAccount_account := account;
         SecureBankAccount_security_question := security_question;
         SecureBankAccount_security_answer :=
           if truthy security_answer then lower <$> security_answer else None;
         SecureBankAccount_failed_attempts := 0;
         SecureBankAccount_max_attempts := 3 |}, next').

Definition SecureBankAccount_set_account (self : SecureBankAccount) (account : @BankAccount num)
  : SecureBankAccount :=
  {| SecureBankAccount_account := account;
     SecureBankAccount_security_question := SecureBankAccount_security_question self;
     SecureBankAccount_security_answer := SecureBankAccount_security_answer self;
     SecureBankAccount_failed_attempts := SecureBankAccount_failed_attempts self;
     SecureBankAccount_max_attempts := SecureBankAccount_max_attempts self |}.

Definition SecureBankAccount_set_failed_attempts (self : SecureBankAccount) (n : Z)
  : SecureBankAccount :=
  {| SecureBankAccount_account := SecureBankAccount_account self;
     SecureBankAccount_security_question := SecureBankAccount_security_question self;
     SecureBankAccount_security_answer := SecureBankAccount_security_answer self;
     SecureBankAccount_failed_attempts := n;
     SecureBankAccount_max_attempts := SecureBankAccount_max_attempts self |}.

Definition SecureBankAccount_set_security_question (self : SecureBankAccount)
  (question answer pin : option string) : string * SecureBankAccount :=
  if negb (BankAccount_verify_pin (SecureBankAccount_account self) pin)
  then ("Invalid PIN. Cannot set security question.", self)
  else if negb (truthy question) || negb (truthy answer)
  then ("Both question and answer are required.", self)
  else ("Security question set successfully.",
        {| SecureBankAccount_account := SecureBankAccount_account self;
           SecureBankAccount_security_question := question;
           SecureBankAccount_security_answer := lower <$> answer;
           SecureBankAccount_failed_attempts := SecureBankAccount_failed_attempts self;
           SecureBankAccount_max_attempts := SecureBankAccount_max_attempts self |}).

Definition SecureBankAccount_reset_pin_with_security (self : SecureBankAccount)
  (new_pin : option string) (security_answer : string) : string * SecureBankAccount :=
  if SecureBankAccount_max_attempts self <=? SecureBankAccount_failed_attempts self
  then ("Too many failed attempts. Account locked.",
        SecureBankAccount_set_account self
          (snd (BankAccount_lock_account (SecureBankAccount_account self))))
  else if negb (truthy (SecureBankAccount_security_question self))
          || negb (truthy (SecureBankAccount_security_answer self))
  then ("No security question set for this account.", self)
  else if negb (bool_decide
                  (Some (lower security_answer) = SecureBankAccount_security_answer self))
  then
    let failed := SecureBankAccount_failed_attempts self + 1 in
    let remaining := SecureBankAccount_max_attempts self - failed in
    ("Incorrect security answer. " +:+ pretty remaining +:+ " attempts remaining.",
     SecureBankAccount_set_failed_attempts self failed)
  else
    let self := SecureBankAccount_set_failed_attempts self 0 in
    match new_pin with
    | Some p =>
        if negb (String.length p =? 4)%nat || negb (isdigit p)
        then ("PIN must be a 4-digit string.", self)
        else
          match BankAccount_set_pin (SecureBankAccount_account self) new_pin with
          | (Ok result, account) =>
              (if contains_string "successfully" result
               then "PIN reset successfully using security question."
               else result,
               SecureBankAccount_set_account self account)
          | (Raise _, account) => ("", SecureBankAccount_set_account self account)
          end
    | None => ("PIN must be a 4-digit string.", self)
    end.

Definition SecureBankAccount_get_security_question (self : SecureBankAccount) : string :=
  match SecureBankAccount_security_question self with
  | Some q => if String.eqb q "" then "No security question set for this account."
              else "Security Question: " +:+ q
  | None => "No security question set for this account."
  end.

(** *** Conditions stated of heaps and carts *)

(** Every product sits under its own identifier, below the class counter. *)
Definition ids_below_counter (h : @Heap num) : Prop :=
  ∀ id p, Heap_products h !! id = Some p → Product_id p = id ∧ id < Heap_next_id h.

(** No two addresses of the list compare equal. *)
Fixpoint addresses_distinct (l : list Address) : bool :=
  match l with
  | [] => true
  | a :: l' => negb (address_in a l') && addresses_distinct l'
  end.

(** An order that is anything but Pending or Cancelled has a payment
    method, and one that is Paid, Shipped or Delivered a transaction
    identifier. *)
Definition Order_payment_on_record (self : Order) : Prop :=
  match Order_status self with
  | Pending | Cancelled => True
  | PaymentFailed => is_Some (Order_payment_method self)
  | Paid | Shipped | Delivered =>
      is_Some (Order_payment_method self) ∧ is_Some (Order_transaction_id self)
  end.

Definition processes_payment (call : @OrderCall num) : bool :=
  match call with CallProcessPayment _ _ => true | _ => false end.

(** A line an order can copy: a line object with a positive quantity on a
    product of the heap that is in stock. *)
Definition orderable (h : @Heap num) (l : loc) : Prop :=
  ∃ item p,
    Heap_cart_items h !! l = Some item
    ∧ 0 < CartItem_quantity item
    ∧ Heap_products h !! CartItem_product item = Some p
    ∧ Product_in_stock p = true.

(** The product each line of a list is on, and the condition that no two
    lines of a cart are on the same product. *)
Definition product_of (h : @Heap num) (l : loc) : option Z :=
  CartItem_product <$> Heap_cart_items h !! l.

Definition line_products (h : @Heap num) (items : list loc) : list (option Z) :=
  map (product_of h) items.

Definition one_line_per_product (h : @Heap num) (self : ShoppingCart) : Prop :=
  NoDup (line_products h (ShoppingCart_items self))
  ∧ Forall (λ l, is_Some (Heap_cart_items h !! l)) (ShoppingCart_items self).


(** *** Callers of the account

    A call of one of the methods that assign to the account, with its
    arguments; the message returned is dropped. *)

Inductive BankCall : Type :=
  | CallSetPin (new_pin : option string)
  | CallDeposit (amount : num) (pin : option string)
  | CallWithdraw (amount : num) (pin : option string)
  | CallLockAccount.

Definition BankAccount_call (self : @BankAccount num) (call : BankCall) : @BankAccount num :=
  match call with
  | CallSetPin new_pin => snd (BankAccount_set_pin self new_pin)
  | CallDeposit amount pin => snd (BankAccount_deposit self amount pin)
  | CallWithdraw amount pin => snd (BankAccount_withdraw self amount pin)
  | CallLockAccount => snd (BankAccount_lock_account self)
  end.

(** [isinstance(pin, str) and len(pin) == 4 and pin.isdigit()]. *)
Definition four_digits (pin : option string) : bool :=
  match pin with
  | Some p => (String.length p =? 4)%nat && isdigit p
  | None => false
  end.


(** A sequence of [reset_pin_with_security] calls, each with its PIN and
    its answer. *)
Definition SecureBankAccount_reset_call (self : SecureBankAccount)
  (try : option string * string) : SecureBankAccount :=
  snd (SecureBankAccount_reset_pin_with_security self (fst try) (snd try)).


(** *** The total of an order, as a specification

    What the total of an order is to be, written on the pairs of a product
    and a quantity that its lines stand for, and on numbers: the line total
    is the price times the quantity, the total shipping weight is the sum of
    the shipping weights times the quantities.  None of these goes through
    the methods of [Order] or of [CartItem]. *)

Definition priced_line (h : @Heap num) (l : loc) : option (@Product num * Z) :=
  item ← Heap_cart_items h !! l;
  p ← Heap_products h !! CartItem_product item;
  Some (p, CartItem_quantity item).

Definition priced_lines (h : @Heap num) (self : Order) : option (list (@Product num * Z)) :=
  mapM (priced_line h) (Order_items self).

(** A line total as Money: price times quantity. *)
Definition line_total_of (line : @Product num * Z) : result Money :=
  Money_mul (Product_price (fst line)) (snd line).

(** The total shipping weight, summed from 0. *)
Definition total_shipping_weight (ls : list (@Product num * Z)) : num :=
  fold_left
    (λ weight line, add weight (mul (Product_get_shipping_weight (fst line))
                                  (of_int (snd line))))
    ls (of_int 0).

(** The amount of the subtotal: the line amounts, each rounded to two
    places, added one by one to zero, the sum rounded each time. *)
Definition sum_of_line_totals (ls : list (@Product num * Z)) : num :=
  fold_left
    (λ total line,
       round2 (add total (round2 (mul (Money_amount (Product_price (fst line)))
                                    (of_int (snd line))))))
    ls (round2 (of_int 0)).

(** A line with a quantity and a price that are not negative, priced in
    USD. *)
Definition billable (line : @Product num * Z) : Prop :=
  0 ≤ snd line
  ∧ Money_currency (Product_price (fst line)) = "USD"
  ∧ ltb (Money_amount (Product_price (fst line))) (of_int 0) = false.

End ModelContinued.

(** ** More sample values *)

Section SamplesContinued.

Definition sample_price_low : @Money Q :=
  {| Money_amount := lit 1550 2; Money_currency := "USD" |}.

Definition sample_price_high : @Money Q :=
  {| Money_amount := lit 2599 2; Money_currency := "USD" |}.

Definition sample_price_euro : @Money Q :=
  {| Money_amount := lit 2599 2; Money_currency := "EUR" |}.

Definition sample_product : @Product Q :=
  {| Product_id := 1;
     Product_name := "Python OOP Guide";
     Product_price := {| Money_amount := lit 2999 2; Money_currency := "USD" |};
     Product_description := "By John Doe";
     Product_in_stock := true;
     Product_kind := Book "John Doe" "978-1234567890" 350 |}.

Definition sample_address_other : Address :=
  {| Address_street := "9 Side Rd"; Address_city := "Anytown";
     Address_state := "CA"; Address_zip_code := "12345"; Address_country := "USA" |}.

Section EuroSamples.
Context {num : Type} `{PyNum num}.

(** A cart and an order on one book priced in EUR. *)
Definition sample_euro_catalogue : Heap :=
  snd (Book_init Heap_empty "Le Petit Prince" "Saint-Exupery" "978-2070408504"
         {| Money_amount := round2 (lit 1000 2); Money_currency := "EUR" |} 96).

Definition sample_euro_cart : Heap * ShoppingCart :=
  snd (ShoppingCart_add_item sample_euro_catalogue (ShoppingCart_init "u-2") 1 3).

Definition sample_euro_order : Order :=
  {| Order_order_id := "o-2";
     Order_user := "u-2";
     Order_items := [2%positive];
     Order_shipping_address := sample_address;
     Order_status := Pending;
     Order_payment_method := None;
     Order_transaction_id := None |}.

Definition sample_euro_heap : Heap :=
  match Order_init (fst sample_euro_cart) "o-2" "u-2" (snd sample_euro_cart) sample_address with
  | Ok (_, h) => h
  | Raise _ => fst sample_euro_cart
  end.

End EuroSamples.


(** A secure account as [SecureBankAccount("Bob", 100, "Pet?", "Rex")]
    leaves it, and the same account with the PIN 4321. *)
Definition sample_secure_account : @SecureBankAccount Q :=
  {| SecureBankAccount_account :=
       {| BankAccount_owner_name := "Bob";
          BankAccount_account_number := 1000;
          BankAccount_balance := of_int 100;
          BankAccount_pin := None;
          BankAccount_is_locked := false;
          BankAccount_transaction_history := [] |};
     SecureBankAccount_security_question := Some "Pet?";
     SecureBankAccount_security_answer := Some "rex";
     SecureBankAccount_failed_attempts := 0;
     SecureBankAccount_max_attempts := 3 |}.

Definition sample_locked_account : @BankAccount Q :=
  snd (BankAccount_lock_account sample_account).

End SamplesContinued.

(** * Properties *)

(** ** The arithmetic of exact decimals *)

Lemma round_half_even_exact (c d : Z) : 0 < d → round_half_even (c * d) d = c.
Proof.
  intros Hd. unfold round_half_even.
  rewrite Z.div_mul, Z.mod_mul by lia.
  rewrite Z.mul_0_r. destruct (Z.compare_spec 0 d); [lia | done | lia].
Qed.

Lemma round_half_even_not_neg (n d : Z) : 0 ≤ n → 0 < d → 0 ≤ round_half_even n d.
Proof.
  intros Hn Hd. unfold round_half_even.
  assert (0 ≤ n / d) by (apply Z.div_pos; lia).
  destruct (2 * (n mod d) ?= d); [destruct (Z.even (n / d))| |]; lia.
Qed.

Lemma Dec_cents_hundredths (c : Z) : Dec.cents (Qred (Qmake c 100)) = c.
Proof.
  unfold Dec.cents.
  pose proof (Qred_correct (Qmake c 100)) as Heq.
  unfold Qeq in Heq. cbn [Qnum Qden] in Heq.
  rewrite Heq. apply round_half_even_exact. done.
Qed.

Lemma Dec_not_neg (a : Q) : Dec.lt a (inject_Z 0) = false ↔ 0 ≤ Qnum a.
Proof.
  unfold Dec.lt, Qle_bool. cbn [Qnum Qden inject_Z].
  rewrite negb_false_iff, Z.leb_le. lia.
Qed.

Lemma Qred_not_neg (a : Q) : 0 ≤ Qnum a → 0 ≤ Qnum (Qred a).
Proof.
  intros Ha. pose proof (Qred_correct a) as Heq. unfold Qeq in Heq.
  assert (0 ≤ Qnum (Qred a) * Zpos (Qden a)) by (rewrite Heq; nia).
  nia.
Qed.

#[global] Instance Dec_laws : PyNumLaws Q.
Proof.
  split.
  - intros z Hz. cbn [ltb of_int Dec.num]. by apply Dec_not_neg.
  - intros m k Hm. cbn [ltb of_int lit Dec.num]. apply Dec_not_neg.
    destruct k; [done|]. by apply Qred_not_neg.
  - intros a b. cbn [ltb of_int add Dec.num]. rewrite !Dec_not_neg. intros Ha Hb.
    apply Qred_not_neg. cbn [Qnum Qplus]. nia.
  - intros a b. cbn [ltb of_int mul Dec.num]. rewrite !Dec_not_neg. intros Ha Hb.
    apply Qred_not_neg. cbn [Qnum Qmult]. nia.
  - intros a. cbn [ltb of_int round2 Dec.num]. rewrite !Dec_not_neg. intros Ha.
    unfold Dec.round_2. apply Qred_not_neg. cbn [Qnum].
    apply round_half_even_not_neg; [lia | done].
  - intros a. cbn [round2 Dec.num]. unfold Dec.round_2.
    by rewrite Dec_cents_hundredths.
Qed.

(** ** Strings *)

Lemma upper_ascii_idem (c : ascii) : upper_ascii (upper_ascii c) = upper_ascii c.
Proof. destruct c as [[] [] [] [] [] [] [] []]; reflexivity. Qed.

Lemma upper_idem (s : string) : upper (upper s) = upper s.
Proof.
  induction s as [|c s IH]; [done|].
  cbn [upper]. by rewrite upper_ascii_idem, IH.
Qed.

Lemma String_eqb_refl (s : string) : String.eqb s s = true.
Proof. by apply String.eqb_eq. Qed.

Lemma upper_USD : upper "USD" = "USD".
Proof. reflexivity. Qed.

(** ** Money *)

Section MoneyProperties.
Context {num : Type} `{PyNumLaws num}.

Lemma Money_init_accepts (a : num) (c : string) :
  ltb a (of_int 0) = false →
  Money_init a c = Ok {| Money_amount := round2 a; Money_currency := upper c |}.
Proof. intros Ha. unfold Money_init. by rewrite Ha. Qed.

(** C3, as the code has it. For amounts [a] and [b] the constructor accepts
    and currencies that agree, [Money(a) + Money(b)] is a Money whose amount
    is [round(round(a, 2) + round(b, 2), 2)]: the sum of the two stored
    amounts, each already rounded to two places, rounded again. *)
Theorem Money_add_amount (a b : num) (c1 c2 : string) :
  ltb a (of_int 0) = false →
  ltb b (of_int 0) = false →
  upper c1 = upper c2 →
  (x ← Money_init a c1; y ← Money_init b c2; Money_add x y)
  = Ok {| Money_amount := round2 (add (round2 a) (round2 b));
          Money_currency := upper c1 |}.
Proof.
  intros Ha Hb Hc.
  rewrite (Money_init_accepts a), (Money_init_accepts b) by done.
  cbn [mbind result_bind]. unfold Money_add. cbn [Money_amount Money_currency].
  rewrite Hc, String_eqb_refl. cbn [negb].
  rewrite Money_init_accepts, upper_idem.
  - done.
  - apply add_not_neg; by apply round2_not_neg.
Qed.

End MoneyProperties.

(** ** Money: the rounding of the constructor

    [round_half_even] against the specification [rounds_to_cents]. *)

Lemma round_half_even_nearest (N d : Z) :
  0 < d →
  (2 * round_half_even N d - 1) * d ≤ 2 * N
  ∧ 2 * N ≤ (2 * round_half_even N d + 1) * d
  ∧ (2 * N = (2 * round_half_even N d - 1) * d
     ∨ 2 * N = (2 * round_half_even N d + 1) * d →
     Z.even (round_half_even N d) = true).
Proof.
  intros Hd. unfold round_half_even.
  pose proof (Z.div_mod N d ltac:(lia)) as Hdiv.
  pose proof (Z.mod_pos_bound N d Hd) as Hmod.
  destruct (Z.compare_spec (2 * (N mod d)) d) as [Heq|Hlt|Hgt].
  - destruct (Z.even (N / d)) eqn:Heven.
    + split; [nia|]. split; [nia|]. done.
    + split; [nia|]. split; [nia|]. intros _.
      rewrite Z.even_add, Heven. done.
  - split; [nia|]. split; [nia|]. intros [Htie|Htie]; nia.
  - split; [nia|]. split; [nia|]. intros [Htie|Htie]; nia.
Qed.

Lemma rounds_to_cents_ratio (a : Z) (b : positive) (n : Z) :
  rounds_to_cents (a # b) n
  ↔ (2 * n - 1) * Zpos b ≤ 2 * (a * 100)
    ∧ 2 * (a * 100) ≤ (2 * n + 1) * Zpos b
    ∧ (2 * (a * 100) = (2 * n - 1) * Zpos b ∨ 2 * (a * 100) = (2 * n + 1) * Zpos b →
       Z.even n = true).
Proof.
  unfold rounds_to_cents, Qle, Qeq, Qminus, Qplus, Qopp, Qmult, inject_Z. cbn.
  rewrite !Pos.mul_1_r.
  split; intros (Hlow & Hhigh & Htie); (split; [lia|]; split; [lia|]);
    intros [H|H]; apply Htie; lia.
Qed.

(** The specification determines the hundredths. *)
Lemma rounds_to_cents_unique (v : Q) (n n' : Z) :
  rounds_to_cents v n → rounds_to_cents v n' → n = n'.
Proof.
  destruct v as [a b]. rewrite !rounds_to_cents_ratio.
  intros (Hlow & Hhigh & Htie) (Hlow' & Hhigh' & Htie').
  assert (n' - 1 ≤ n ≤ n' + 1) as Hnear by nia.
  destruct (decide (n = n')) as [|Hne]; [done|].
  assert (Z.even n = true ∧ Z.even n' = true) as [Heven Heven'].
  { split; [apply Htie | apply Htie']; nia. }
  assert (n' = n + 1 ∨ n = n' + 1) as [-> | ->] by lia;
    rewrite Z.even_add in *; destruct (Z.even _); done.
Qed.

Lemma rounds_to_cents_opp (v : Q) (n : Z) :
  rounds_to_cents v n → rounds_to_cents (Qopp v) (- n).
Proof.
  destruct v as [a b]. unfold Qopp. cbn [Qnum Qden]. rewrite !rounds_to_cents_ratio.
  intros (Hlow & Hhigh & Htie). rewrite Z.even_opp.
  split; [lia|]. split; [lia|]. intros [H|H]; apply Htie; lia.
Qed.

Lemma Dec_cents_rounds (a : Q) : rounds_to_cents a (Dec.cents a).
Proof.
  destruct a as [p q]. apply rounds_to_cents_ratio. unfold Dec.cents. cbn [Qnum Qden].
  by apply round_half_even_nearest.
Qed.

Lemma F64_cents_rounds (x : float) (v : Q) :
  float_value x = Some v →
  ∃ n, F64.cents x = Some n ∧ rounds_to_cents v n.
Proof.
  unfold float_value, F64.cents.
  destruct (Prim2SF x) as [s| | |s m e]; [|done|done|].
  - intros [= <-]. exists 0. split; [done|]. by apply (rounds_to_cents_ratio 0 1 0).
  - intros [= <-]. eexists. split; [done|].
    assert (∀ (w : Q) (k : Z), rounds_to_cents w k →
              rounds_to_cents (if s then Qopp w else w) (if s then - k else k)) as Hsign
      by (intros w k Hw; destruct s; [by apply rounds_to_cents_opp | done]).
    apply Hsign. destruct e as [|e|e].
    + apply (rounds_to_cents_ratio _ 1). split; [lia|]. split; [lia|]. intros [?|?]; lia.
    + apply (rounds_to_cents_ratio _ 1). split; [lia|]. split; [lia|]. intros [?|?]; lia.
    + apply rounds_to_cents_ratio. by apply round_half_even_nearest.
Qed.

(** C8. [Money(a).amount] is [a] rounded to two decimal places, for every
    amount the constructor accepts.  On exact decimals: for [a] not below
    zero the stored amount is [n / 100], with [n / 100] the multiple of a
    hundredth nearest to [a] (the even [n] of two nearest), and rounding it
    again changes nothing.  On binary64 floats: for a finite [x] that is not
    below zero, standing for the number [v], the stored amount is the double
    nearest to [n / 100], with [n / 100] nearest to [v] in the same sense (a
    negative zero is kept as it is).  No digit beyond the second decimal
    place is kept. *)
Theorem Money_init_rounds_to_two_places :
  (∀ (a : Q) (c : string),
     (0 <= a)%Q →
     ∃ m n, Money_init a c = Ok m
            ∧ Money_amount m = Qred (n # 100)
            ∧ rounds_to_cents a n
            ∧ round2 (Money_amount m) = Money_amount m)
  ∧ (∀ (x : float) (c : string) (v : Q),
       ltb x (of_int 0) = false →
       float_value x = Some v →
       ∃ m n, Money_init x c = Ok m
              ∧ rounds_to_cents v n
              ∧ (Money_amount m = F64.of_ratio n 100
                 ∨ n = 0 ∧ Money_amount m = PrimFloat.neg_zero)).
Proof.
  split.
  - intros a c Ha. exists {| Money_amount := round2 a; Money_currency := upper c |}.
    exists (Dec.cents a). split.
    { unfold Money_init. cbn [ltb Dec.num]. unfold Dec.lt.
      apply Qle_bool_iff in Ha. change (@of_int Q _ 0) with 0%Q. by rewrite Ha. }
    cbn [Money_amount]. split; [done|]. split; [apply Dec_cents_rounds|].
    apply round2_idem.
  - intros x c v Hx Hv.
    exists {| Money_amount := round2 x; Money_currency := upper c |}.
    destruct (F64_cents_rounds x v Hv) as (n & Hcents & Hn). exists n.
    split; [unfold Money_init; by rewrite Hx|]. split; [done|].
    cbn [Money_amount round2 F64.num]. unfold F64.round_2. rewrite Hcents.
    destruct n as [|n|n]; [|by left|by left].
    destruct (get_sign x); [by right | by left].
Qed.

(** C8 at [1.239], a decimal and a double: the stored amount is [1.24]. *)
Lemma Money_init_rounds_to_two_places_witness :
  (∃ m, Money_init (lit 1239 3 : Q) "usd" = Ok m ∧ Money_amount m = lit 124 2)
  ∧ (∃ m, Money_init (lit 1239 3 : float) "usd" = Ok m ∧ Money_amount m = lit 124 2).
Proof.
  destruct Money_init_rounds_to_two_places as [Hdecimal Hfloat]. split.
  - assert (0 <= lit 1239 3)%Q as Ha by (vm_compute; discriminate).
    destruct (Hdecimal (lit 1239 3) "usd" Ha) as (m & n & Hm & Hamount & Hn & _).
    assert (rounds_to_cents (lit 1239 3) 124) as H124.
    { apply (rounds_to_cents_ratio 1239 1000 124). split; [lia|]. split; [lia|]. done. }
    rewrite (rounds_to_cents_unique _ _ _ Hn H124) in Hamount.
    exists m. split; [exact Hm | exact Hamount].
  - assert (@ltb float _ (lit 1239 3) (of_int 0) = false) as Hx by reflexivity.
    assert (∃ v, float_value (lit 1239 3) = Some v ∧ rounds_to_cents v 124)
      as (v & Hv & H124).
    { eexists. split; [vm_compute; reflexivity|].
      apply rounds_to_cents_ratio. split; [lia|]. split; [lia|]. done. }
    destruct (Hfloat (lit 1239 3) "usd" v Hx Hv) as (m & n & Hm & Hn & Hamount).
    rewrite (rounds_to_cents_unique _ _ _ Hn H124) in Hamount.
    exists m. split; [exact Hm|]. by destruct Hamount as [-> | [? _]].
Defined.

Example Money_init_1239_binary64 :
  @Money_init float _ (lit 1239 3) "usd"
  = Ok {| Money_amount := lit 124 2; Money_currency := "USD" |}
  ∧ @eqb float _ (lit 124 2) (lit 1239 3) = false.
Proof. split; vm_compute; reflexivity. Qed.

(** C3 at [19.99 + 0.01]. *)
Lemma Money_add_amount_witness :
  (x ← @Money_init Q _ (lit 1999 2) "usd"; y ← Money_init (lit 1 2) "USD"; Money_add x y)
  = Ok {| Money_amount := round2 (add (round2 (lit 1999 2)) (round2 (lit 1 2)));
          Money_currency := upper "usd" |}.
Proof. apply Money_add_amount; reflexivity. Defined.

(** C3 as stated fails: with [a = b = 0.001], both accepted, the two stored
    amounts are [0.0], so is their sum, and [0.0 == 0.001 + 0.001] is false.
    Evaluated on binary64 floats. *)
Lemma Money_add_thousandths :
  @ltb float _ (lit 1 3) (of_int 0) = false
  ∧ (x ← @Money_init float _ (lit 1 3) "USD"; y ← Money_init (lit 1 3) "USD"; Money_add x y)
    = Ok {| Money_amount := of_int 0; Money_currency := "USD" |}
  ∧ @eqb float _ (of_int 0) (add (lit 1 3) (lit 1 3)) = false.
Proof. repeat split; vm_compute; reflexivity. Qed.

(** The same inputs on exact decimals. *)
Example Money_add_thousandths_decimal :
  (x ← @Money_init Q _ (lit 1 3) "USD"; y ← Money_init (lit 1 3) "USD"; Money_add x y)
  = Ok {| Money_amount := of_int 0; Money_currency := "USD" |}
  ∧ @eqb Q _ (of_int 0) (add (lit 1 3) (lit 1 3)) = false.
Proof. split; vm_compute; reflexivity. Qed.

(** On binary64 the sum of two two-place amounts is rounded as well:
    [Money(0.1) + Money(0.2)] holds [0.3], and [0.1 + 0.2] is another
    float. *)
Example Money_add_tenths_binary64 :
  (x ← @Money_init float _ (lit 1 1) "USD"; y ← Money_init (lit 2 1) "USD"; Money_add x y)
  = Ok {| Money_amount := lit 3 1; Money_currency := "USD" |}
  ∧ @eqb float _ (lit 3 1) (add (lit 1 1) (lit 2 1)) = false.
Proof. split; vm_compute; reflexivity. Qed.

(** ** Address and User *)

Lemma Address_eq_iff (a b : Address) :
  Address_eq a b = true ↔
  Address_street a = Address_street b ∧ Address_city a = Address_city b
  ∧ Address_state a = Address_state b ∧ Address_zip_code a = Address_zip_code b.
Proof.
  unfold Address_eq. rewrite !andb_true_iff, !String.eqb_eq. tauto.
Qed.

Lemma address_in_true (a : Address) (l : list Address) :
  address_in a l = true ↔ ∃ e, In e l ∧ Address_eq e a = true.
Proof. unfold address_in. apply existsb_exists. Qed.

(** C10. [Address.__eq__] holds exactly when street, city, state and zip
    code agree, whatever the countries; and [add_address] leaves the user as
    it is when a stored address agrees with the new one on these four
    fields. *)
Theorem User_add_address_ignores_country (self : User) (stored address : Address) :
  (Address_eq stored address = true ↔
     Address_street stored = Address_street address
     ∧ Address_city stored = Address_city address
     ∧ Address_state stored = Address_state address
     ∧ Address_zip_code stored = Address_zip_code address)
  ∧ (In stored (User_addresses self) → Address_eq stored address = true →
     User_add_address self address = self).
Proof.
  split; [apply Address_eq_iff|].
  intros Hin Heq. unfold User_add_address.
  replace (address_in address (User_addresses self)) with true; [done|].
  symmetry. apply address_in_true. eauto.
Qed.

(** C10 at two addresses that differ in the country only. *)
Lemma User_add_address_ignores_country_witness :
  Address_country sample_address ≠ Address_country sample_address_abroad
  ∧ Address_eq sample_address sample_address_abroad = true
  ∧ User_add_address sample_user sample_address_abroad = sample_user.
Proof.
  split; [discriminate|].
  pose proof (User_add_address_ignores_country sample_user sample_address
                sample_address_abroad) as [Heq Hadd].
  split; [reflexivity|].
  apply Hadd; [left; reflexivity | reflexivity].
Defined.

(** C6. When the old credential does not verify against the stored hash,
    [change_password] returns [False] (no assignment is reached, whatever the
    new password is) and the user, stored hash included, is unchanged. *)
Theorem User_change_password_wrong_old (sha256_hex : string → string)
  (self : User) (old_password new_password : string) :
  User_verify_password sha256_hex self old_password = false →
  User_change_password sha256_hex self old_password new_password = (Ok false, self)
  ∧ User_password_hash
      (snd (User_change_password sha256_hex self old_password new_password))
    = User_password_hash self.
Proof.
  intros Hwrong. unfold User_change_password. by rewrite Hwrong.
Qed.

(** C6 on the sample user, with a new password that is also too short. *)
Lemma User_change_password_wrong_old_witness :
  User_verify_password sample_digest sample_user "guess" = false
  ∧ User_change_password sample_digest sample_user "guess" "short" = (Ok false, sample_user).
Proof.
  split; [reflexivity|].
  apply (User_change_password_wrong_old sample_digest sample_user "guess" "short").
  reflexivity.
Defined.

(** ** BankAccount *)

Section BankAccountProperties.
Context {num : Type} `{PyNum num}.

(** C7, as the code has it. A withdrawal of more than the balance raises
    nothing: [withdraw] returns a message to its caller, and the account,
    balance and history included, is unchanged.  With the account unlocked,
    the PIN correct and the amount positive the message is the one on
    insufficient funds. *)
Theorem BankAccount_withdraw_over_balance (self : BankAccount) (amount : num)
  (pin : option string) :
  ltb (BankAccount_balance self) amount = true →
  BankAccount_withdraw self amount pin = (Ok (refusal self amount pin), self)
  ∧ (BankAccount_is_locked self = false →
     BankAccount_verify_pin self pin = true →
     leb amount (of_int 0) = false →
     refusal self amount pin
     = "Insufficient funds. Available balance: $" +:+ format_2f (BankAccount_balance self)).
Proof.
  intros Hover. unfold BankAccount_withdraw, refusal. split.
  - destruct (BankAccount_is_locked self); [done|].
    destruct (BankAccount_verify_pin self pin); [|done]. cbn [negb].
    destruct (leb amount (of_int 0)); [done|]. by rewrite Hover.
  - intros -> -> ->. done.
Qed.

End BankAccountProperties.

(** ** Order: the status machine *)

Section OrderProperties.
Context {num : Type} `{PyNum num}.

(** C1, as the code has it. [cancel_order] succeeds exactly when the status
    is neither Shipped nor Delivered, that is Pending, Paid, Payment Failed
    or already Cancelled; it then leaves the status Cancelled.  From Shipped
    and from Delivered it raises [ValueError] and the order is unchanged. *)
Theorem Order_cancel_order_by_status (self : Order) :
  (fst (Order_cancel_order self) = Ok () ↔
     In (Order_status self) [Pending; Paid; PaymentFailed; Cancelled])
  ∧ (In (Order_status self) [Pending; Paid; PaymentFailed; Cancelled] →
     Order_cancel_order self = (Ok (), Order_set_status self Cancelled))
  ∧ (In (Order_status self) [Shipped; Delivered] →
     Order_cancel_order self
     = (Raise (ValueError "Cannot cancel shipped or delivered order"), self)).
Proof.
  unfold Order_cancel_order.
  destruct (Order_status self); cbn [fst In]; intuition congruence.
Qed.

Lemma Order_call_without_method (self : Order) (call : OrderCall) :
  Order_payment_method self = None →
  sets_payment_method call = false →
  Order_payment_method (Order_call self call) = None
  ∧ (Order_status self = Pending →
     Order_status (Order_call self call) = (if cancels call then Cancelled else Pending))
  ∧ (Order_status self = Cancelled → Order_status (Order_call self call) = Cancelled).
Proof.
  intros Hnone Hcall.
  destruct call as [pm|env h| | |]; try discriminate; cbn [Order_call cancels].
  - unfold Order_process_payment. rewrite Hnone. done.
  - unfold Order_ship_order.
    destruct (Order_status self) eqn:Hst; cbn; rewrite ?Hst; by intuition.
  - unfold Order_deliver_order.
    destruct (Order_status self) eqn:Hst; cbn; rewrite ?Hst; by intuition.
  - unfold Order_cancel_order.
    destruct (Order_status self) eqn:Hst; cbn; rewrite ?Hst; by intuition.
Qed.

Lemma Order_calls_without_method (calls : list OrderCall) (self : Order) :
  Order_payment_method self = None →
  Order_status self = Pending ∨ Order_status self = Cancelled →
  forallb (λ call, negb (sets_payment_method call)) calls = true →
  let after := fold_left Order_call calls self in
  Order_payment_method after = None
  ∧ (Order_status after = Pending ∨ Order_status after = Cancelled)
  ∧ (Order_status self = Pending → existsb cancels calls = false →
     Order_status after = Pending).
Proof.
  revert self. induction calls as [|call calls IH]; intros self Hnone Hst Hcalls.
  - cbn. tauto.
  - cbn [forallb] in Hcalls. apply andb_true_iff in Hcalls as [Hcall Hcalls].
    apply negb_true_iff in Hcall.
    destruct (Order_call_without_method self call Hnone Hcall) as (Hnone' & Hp & Hc).
    cbn [fold_left existsb].
    assert (Order_status (Order_call self call) = Pending
            ∨ Order_status (Order_call self call) = Cancelled) as Hst'.
    { destruct Hst as [Hst|Hst]; [|right; auto].
      rewrite (Hp Hst). destruct (cancels call); auto. }
    destruct (IH _ Hnone' Hst' Hcalls) as (IH1 & IH2 & IH3).
    split; [done|]. split; [done|].
    intros Hpend Hnocancel. apply orb_false_iff in Hnocancel as [Hc1 Hc2].
    apply IH3; [|done]. rewrite (Hp Hpend), Hc1. done.
Qed.

Lemma Order_init_fresh (h : @Heap num) (uuid4 user : string) (cart : ShoppingCart)
  (address : Address) (made : Order) (h1 : @Heap num) :
  Order_init h uuid4 user cart address = Ok (made, h1) →
  Order_status made = Pending ∧ Order_payment_method made = None.
Proof.
  unfold Order_init. destruct (ShoppingCart_items cart); [done|].
  destruct (copy_lines h _) as [[items h']|]; [|done].
  cbn. intros [= <- <-]. done.
Qed.

(** C9, as the code has it. On an order on which [set_payment_method] was
    never called, whatever else was called since its construction,
    [process_payment] raises [ValueError] and leaves the order as it was: the
    status stays what it was, Pending, or Cancelled when [cancel_order] was
    called before. *)
Theorem Order_process_payment_without_method (h : @Heap num) (uuid4 user : string)
  (cart : ShoppingCart) (address : Address) (made : Order) (h1 : @Heap num)
  (calls : list OrderCall) (env : Env) (h2 : @Heap num) :
  Order_init h uuid4 user cart address = Ok (made, h1) →
  forallb (λ call, negb (sets_payment_method call)) calls = true →
  let self := fold_left Order_call calls made in
  Order_process_payment env h2 self = (Raise (ValueError "Payment method not set"), self)
  ∧ (Order_status self = Pending ∨ Order_status self = Cancelled)
  ∧ (existsb cancels calls = false → Order_status self = Pending).
Proof.
  intros Hmade Hcalls self.
  destruct (Order_init_fresh _ _ _ _ _ _ _ Hmade) as [Hpend Hnone].
  destruct (Order_calls_without_method calls made Hnone (or_introl Hpend) Hcalls)
    as (Hnone' & Hst & Hkeep).
  fold self in Hnone', Hst, Hkeep.
  split; [|split; [done | by apply Hkeep]].
  unfold Order_process_payment. by rewrite Hnone'.
Qed.

(** ** Order: the total *)

Lemma priced_lines_subtotal (h : @Heap num) (items : list loc)
  (ls : list (Product * Z)) (start : result Money) :
  mapM (priced_line h) items = Some ls →
  fold_left (add_line_total h) (lines h items) start
  = Money_sum start (map line_total_of ls).
Proof.
  intros Hls%mapM_Some. revert start.
  induction Hls as [|l [p q] items ls Hl Hls IH]; intros start; [done|].
  cbn [lines map fold_left]. unfold Money_sum in *. cbn [fold_left].
  rewrite <- IH. f_equal.
  unfold priced_line in Hl.
  destruct (Heap_cart_items h !! l) as [item|]; [|done]. cbn in Hl.
  destruct (Heap_products h !! CartItem_product item) as [p'|] eqn:Hp; [|done].
  cbn in Hl. injection Hl as -> <-.
  unfold add_line_total, line_total_price, CartItem_total_price, line_total_of.
  by rewrite Hp.
Qed.

Lemma priced_lines_weight (h : @Heap num) (items : list loc)
  (ls : list (Product * Z)) (start : num) :
  mapM (priced_line h) items = Some ls →
  fold_left (add_line_weight h) (lines h items) (Ok start)
  = Ok (fold_left
          (λ weight line, add weight (mul (Product_get_shipping_weight (fst line))
                                        (of_int (snd line))))
          ls start).
Proof.
  intros Hls%mapM_Some. revert start.
  induction Hls as [|l [p q] items ls Hl Hls IH]; intros start; [done|].
  cbn [lines map fold_left fst snd]. rewrite <- IH. f_equal.
  unfold priced_line in Hl.
  destruct (Heap_cart_items h !! l) as [item|]; [|done]. cbn in Hl.
  destruct (Heap_products h !! CartItem_product item) as [p'|] eqn:Hp; [|done].
  cbn in Hl. injection Hl as -> <-.
  unfold add_line_weight, line_weight. cbn [mbind result_bind]. by rewrite Hp.
Qed.

Section Returns.
Context `{!PyNumLaws num}.

Lemma Money_init_USD (a : num) :
  ltb a (of_int 0) = false →
  Money_init a "USD" = Ok {| Money_amount := round2 a; Money_currency := "USD" |}.
Proof. intros Ha. by rewrite Money_init_accepts, upper_USD. Qed.

Lemma Money_add_USD (x y : Money) :
  Money_currency x = "USD" → Money_currency y = "USD" →
  ltb (Money_amount x) (of_int 0) = false → ltb (Money_amount y) (of_int 0) = false →
  Money_add x y
  = Ok {| Money_amount := round2 (add (Money_amount x) (Money_amount y));
          Money_currency := "USD" |}.
Proof.
  intros Hx Hy Hxpos Hypos. unfold Money_add.
  rewrite Hx, Hy, String_eqb_refl. cbn [negb].
  by apply Money_init_USD, add_not_neg.
Qed.

Lemma Money_mul_USD (x : Money) (scalar : Z) :
  Money_currency x = "USD" → ltb (Money_amount x) (of_int 0) = false → 0 ≤ scalar →
  Money_mul x scalar
  = Ok {| Money_amount := round2 (mul (Money_amount x) (of_int scalar));
          Money_currency := "USD" |}.
Proof.
  intros Hx Hxpos Hscalar. unfold Money_mul.
  replace (scalar <? 0) with false by (symmetry; apply Z.ltb_ge; lia).
  rewrite Hx. apply Money_init_USD, mul_not_neg; [done | by apply of_int_not_neg].
Qed.

Lemma shipping_band_not_neg (total_weight : num) :
  ltb (shipping_band total_weight) (of_int 0) = false.
Proof.
  unfold shipping_band.
  destruct (leb total_weight (of_int 1)); [by apply lit_not_neg|].
  destruct (leb total_weight (of_int 5)); by apply lit_not_neg.
Qed.

Lemma Money_sum_billable (ls : list (Product * Z)) (start : Money) :
  Forall billable ls →
  Money_currency start = "USD" →
  ltb (Money_amount start) (of_int 0) = false →
  Money_sum (Ok start) (map line_total_of ls)
  = Ok {| Money_amount :=
            fold_left
              (λ total line,
                 round2 (add total
                           (round2 (mul (Money_amount (Product_price (fst line)))
                                      (of_int (snd line))))))
              ls (Money_amount start);
          Money_currency := "USD" |}
  ∧ ltb (fold_left
           (λ total line,
              round2 (add total
                        (round2 (mul (Money_amount (Product_price (fst line)))
                                   (of_int (snd line))))))
           ls (Money_amount start)) (of_int 0) = false.
Proof.
  intros Hls. revert start.
  induction Hls as [|[p q] ls (Hq & Hcur & Hpos) Hls IH]; intros start Hstart Hnot_neg.
  - cbn. split; [|done]. destruct start. cbn in *. by subst.
  - cbn [map fold_left fst snd] in *. unfold Money_sum in *. cbn [fold_left].
    unfold line_total_of at 2. cbn [fst snd mbind result_bind].
    rewrite Money_mul_USD by done. cbn [mbind result_bind].
    rewrite Money_add_USD; cbn [Money_amount Money_currency];
      [| done | done | done
       | apply round2_not_neg, mul_not_neg; [done | by apply of_int_not_neg]].
    apply (IH {| Money_amount := _; Money_currency := "USD" |}); [done|].
    cbn [Money_amount]. apply round2_not_neg, add_not_neg; [done|].
    apply round2_not_neg, mul_not_neg; [done | by apply of_int_not_neg].
Qed.

(** C4. The total of an order is its subtotal plus the shipping cost plus
    the tax, added as Money.  For an order whose lines stand for the
    products and quantities [ls]: the subtotal is the sum from [Money(0)] of
    the line totals, each the price times the quantity; the shipping cost is
    5.99 up to one pound of total shipping weight (the sum of the shipping
    weights times the quantities), 9.99 up to five pounds and 15.99 above;
    the tax is 8.5 percent of the subtotal; and when one of the parts
    raises, so does the total, with the same exception.  For lines priced in
    USD with prices and quantities that are not negative, nothing raises and
    the amount is, with every Money rounded to two places where it is made,
    [round(round(subtotal + shipping, 2) + tax, 2)]. *)
Theorem Order_total_amount_parts (h : @Heap num) (self : Order)
  (ls : list (Product * Z)) :
  priced_lines h self = Some ls →
  Order_total_amount h self
  = (subtotal ← Money_sum (Money_init (of_int 0) "USD") (map line_total_of ls);
     shipping ← Money_init (shipping_band (total_shipping_weight ls)) "USD";
     tax ← Money_init (mul (Money_amount subtotal) (lit 85 3)) "USD";
     with_shipping ← Money_add subtotal shipping;
     Money_add with_shipping tax)
  ∧ (Forall billable ls →
     let subtotal := sum_of_line_totals ls in
     let shipping := round2 (shipping_band (total_shipping_weight ls)) in
     let tax := round2 (mul subtotal (lit 85 3)) in
     Order_subtotal h self = Ok {| Money_amount := subtotal; Money_currency := "USD" |}
     ∧ Order_calculate_shipping h self
       = Ok {| Money_amount := shipping; Money_currency := "USD" |}
     ∧ Order_calculate_tax {| Money_amount := subtotal; Money_currency := "USD" |}
       = Ok {| Money_amount := tax; Money_currency := "USD" |}
     ∧ Order_total_amount h self
       = Ok {| Money_amount := round2 (add (round2 (add subtotal shipping)) tax);
               Money_currency := "USD" |}).
Proof.
  intros Hls. unfold priced_lines in Hls.
  assert (Order_subtotal h self
          = Money_sum (Money_init (of_int 0) "USD") (map line_total_of ls)) as Hsubtotal
    by (unfold Order_subtotal; by apply priced_lines_subtotal).
  assert (Order_calculate_shipping h self
          = Money_init (shipping_band (total_shipping_weight ls)) "USD") as Hshipping.
  { unfold Order_calculate_shipping, Order_total_weight.
    by rewrite (priced_lines_weight h _ ls). }
  assert (Order_total_amount h self
          = (subtotal ← Money_sum (Money_init (of_int 0) "USD") (map line_total_of ls);
             shipping ← Money_init (shipping_band (total_shipping_weight ls)) "USD";
             tax ← Money_init (mul (Money_amount subtotal) (lit 85 3)) "USD";
             with_shipping ← Money_add subtotal shipping;
             Money_add with_shipping tax)) as Htotal.
  { unfold Order_total_amount. rewrite Hsubtotal, Hshipping. done. }
  split; [exact Htotal|]. intros Hbillable. cbn zeta.
  assert (ltb (round2 (of_int 0)) (of_int 0) = false) as Hzero
    by by apply round2_not_neg, of_int_not_neg.
  destruct (Money_sum_billable ls
              {| Money_amount := round2 (of_int 0); Money_currency := "USD" |}
              Hbillable eq_refl Hzero) as [Hsum Hnot_neg].
  cbn [Money_amount] in Hsum, Hnot_neg. fold (sum_of_line_totals ls) in Hsum, Hnot_neg.
  rewrite (Money_init_USD (of_int 0)) in Hsubtotal, Htotal by by apply of_int_not_neg.
  rewrite Hsum in Hsubtotal, Htotal.
  rewrite (Money_init_USD (shipping_band _)) in Hshipping, Htotal
    by apply shipping_band_not_neg.
  assert (Order_calculate_tax
            {| Money_amount := sum_of_line_totals ls; Money_currency := "USD" |}
          = Ok {| Money_amount := round2 (mul (sum_of_line_totals ls) (lit 85 3));
                  Money_currency := "USD" |}) as Htax.
  { unfold Order_calculate_tax. cbn [Money_amount].
    apply Money_init_USD, mul_not_neg; [done | by apply lit_not_neg]. }
  split; [exact Hsubtotal|]. split; [exact Hshipping|]. split; [exact Htax|].
  rewrite Htotal. cbn [mbind result_bind Money_amount].
  unfold Order_calculate_tax in Htax. cbn [Money_amount] in Htax. rewrite Htax.
  cbn [mbind result_bind].
  rewrite Money_add_USD; cbn [Money_amount Money_currency];
    [| done | done | done | apply round2_not_neg, shipping_band_not_neg].
  cbn [mbind result_bind].
  rewrite Money_add_USD; cbn [Money_amount Money_currency]; [done | done | done | |].
  - apply round2_not_neg, add_not_neg; [done|].
    apply round2_not_neg, shipping_band_not_neg.
  - apply round2_not_neg, mul_not_neg; [done | by apply lit_not_neg].
Qed.

End Returns.

End OrderProperties.

(** ** The cart and the orders made from it *)

Section CartProperties.
Context {num : Type} `{PyNum num}.

Lemma find_line_Some (h : @Heap num) (items : list loc) (product : Z) (l : loc) :
  find_line h items product = Some l → l ∈ items ∧ line_has_product h product l = true.
Proof.
  induction items as [|l' items IH]; [done|]. cbn [find_line].
  destruct (line_has_product h product l') eqn:Hl'.
  - intros [= <-]. split; [left | done].
  - intros Hfind. destruct (IH Hfind). split; [by right | done].
Qed.

(** The discount never reaches the product: the protocol test raises. *)
Lemma ShoppingCart_apply_discount_to_item_raises (h : @Heap num) (self : ShoppingCart)
  (product : Z) (percentage : num) :
  raises (fst (ShoppingCart_apply_discount_to_item h self product percentage)) = true
  ∧ snd (ShoppingCart_apply_discount_to_item h self product percentage) = (h, self).
Proof.
  unfold ShoppingCart_apply_discount_to_item.
  destruct (find_line h _ product); [|done].
  destruct (Heap_products h !! product); done.
Qed.

(** A call changes no product, keeps every line object that is not a line
    of the cart, and gives the cart lines of its own or new ones only. *)
Lemma ShoppingCart_call_frame (h : @Heap num) (self : ShoppingCart) (call : CartCall) :
  let after := ShoppingCart_call (h, self) call in
  Heap_products (fst after) = Heap_products h
  ∧ (∀ l, l ∉ ShoppingCart_items self → is_Some (Heap_cart_items h !! l) →
          Heap_cart_items (fst after) !! l = Heap_cart_items h !! l)
  ∧ (∀ l, l ∈ ShoppingCart_items (snd after) →
          l ∈ ShoppingCart_items self ∨ Heap_cart_items h !! l = None).
Proof.
  destruct call as [product quantity|product|product new_quantity| |product percentage];
    cbn [ShoppingCart_call fst snd].
  - unfold ShoppingCart_add_item.
    destruct (Heap_products h !! product) as [p|]; [|by auto].
    destruct (Product_in_stock p); cbn [negb]; [|by auto].
    destruct (find_line h _ product) as [l0|] eqn:Hfind.
    + apply find_line_Some in Hfind as [Hin _]. cbn.
      split; [done|]. split; [|by auto].
      intros l Hl _. apply lookup_alter_ne. by intros ->.
    + destruct (CartItem_init h product quantity) as [item|e]; [|by cbn; auto].
      cbn. split; [done|]. split.
      * intros l _ [x Hx]. apply lookup_insert_ne. intros <-.
        pose proof (is_fresh (dom (Heap_cart_items h))) as Hfresh.
        apply Hfresh, elem_of_dom. eauto.
      * intros l [Hl|Hl]%elem_of_app; [by left|]. right.
        apply list_elem_of_singleton in Hl as ->.
        apply not_elem_of_dom, is_fresh.
  - cbn. split; [done|]. split; [done|].
    intros l Hl%list_elem_of_In%filter_In. left. apply list_elem_of_In. tauto.
  - unfold ShoppingCart_update_quantity.
    destruct (new_quantity <=? 0).
    + cbn. split; [done|]. split; [done|].
      intros l Hl%list_elem_of_In%filter_In. left. apply list_elem_of_In. tauto.
    + destruct (find_line h _ product) as [l0|] eqn:Hfind; [|by cbn; auto].
      apply find_line_Some in Hfind as [Hin _]. cbn.
      split; [done|]. split; [|by auto].
      intros l Hl _. apply lookup_alter_ne. by intros ->.
  - cbn. split; [done|]. split; [done|]. intros l Hl. by apply elem_of_nil in Hl.
  - destruct (ShoppingCart_apply_discount_to_item_raises h self product percentage)
      as [_ ->]. cbn. auto.
Qed.

Lemma CartItem_init_Ok (h : @Heap num) (product quantity : Z) (item : CartItem) :
  CartItem_init h product quantity = Ok item →
  0 < quantity ∧ item = {| CartItem_product := product; CartItem_quantity := quantity |}.
Proof.
  unfold CartItem_init. destruct (quantity <=? 0) eqn:Hq; [done|].
  apply Z.leb_gt in Hq.
  destruct (Heap_products h !! product) as [p|]; [|done].
  destruct (Product_in_stock p); [|done]. cbn. intros [= <-]. done.
Qed.

Lemma quantities_positive_filter (h : @Heap num) (self : ShoppingCart) (keep : loc → bool) :
  quantities_positive h self →
  quantities_positive h
    (ShoppingCart_set_items self (List.filter keep (ShoppingCart_items self))).
Proof.
  unfold quantities_positive. cbn. rewrite !Forall_forall.
  intros Hpos l Hl%list_elem_of_In%filter_In. apply Hpos, list_elem_of_In. tauto.
Qed.

Lemma quantities_positive_alter (h : @Heap num) (self : ShoppingCart) (l0 : loc)
  (f : CartItem → CartItem) :
  quantities_positive h self →
  (∀ item, Heap_cart_items h !! l0 = Some item → 0 < CartItem_quantity item →
           0 < CartItem_quantity (f item)) →
  quantities_positive (Heap_set_cart_items h (alter f l0 (Heap_cart_items h))) self.
Proof.
  unfold quantities_positive. rewrite !Forall_forall. cbn.
  intros Hpos Hf l Hl. destruct (Hpos l Hl) as (item & Hitem & Hq).
  destruct (decide (l = l0)) as [->|Hne].
  - exists (f item). rewrite lookup_alter_eq, Hitem. split; [done | by apply Hf].
  - exists item. by rewrite lookup_alter_ne.
Qed.

(** The calls that keep every quantity positive: all of them, but for
    [add_item] with a negative quantity. *)
Lemma ShoppingCart_call_quantities_positive (h : @Heap num) (self : ShoppingCart)
  (call : CartCall) :
  quantities_positive h self →
  match call with CallAddItem _ quantity => 0 ≤ quantity | _ => True end →
  quantities_positive (fst (ShoppingCart_call (h, self) call))
    (snd (ShoppingCart_call (h, self) call)).
Proof.
  intros Hpos Hcall.
  destruct call as [product quantity|product|product new_quantity| |product percentage];
    cbn [ShoppingCart_call fst snd].
  - unfold ShoppingCart_add_item.
    destruct (Heap_products h !! product) as [p|]; [|done].
    destruct (Product_in_stock p); cbn [negb]; [|done].
    destruct (find_line h _ product) as [l0|].
    + cbn. apply quantities_positive_alter; [done|]. cbn. lia.
    + destruct (CartItem_init h product quantity) as [item|e] eqn:Hitem; [|done].
      apply CartItem_init_Ok in Hitem as [Hq ->]. cbn.
      unfold quantities_positive in *. cbn. apply Forall_app. split.
      * rewrite Forall_forall in *. intros l Hl.
        destruct (Hpos l Hl) as (item & Hitem & Hqi). exists item. split; [|done].
        rewrite lookup_insert_ne; [done|]. intros <-.
        apply (is_fresh (dom (Heap_cart_items h))), elem_of_dom. eauto.
      * apply Forall_singleton. eexists. rewrite lookup_insert_eq. split; done.
  - by apply quantities_positive_filter.
  - unfold ShoppingCart_update_quantity.
    destruct (new_quantity <=? 0) eqn:Hq.
    + by apply quantities_positive_filter.
    + apply Z.leb_gt in Hq.
      destruct (find_line h _ product) as [l0|]; [|done].
      cbn. apply quantities_positive_alter; [done|]. cbn. lia.
  - by apply Forall_nil.
  - by destruct (ShoppingCart_apply_discount_to_item_raises h self product percentage)
      as [_ ->].
Qed.

(** The copies an order makes of the lines of a cart. *)
Lemma copy_lines_Ok (items : list loc) (h : @Heap num) (copies : list loc) (h' : Heap) :
  copy_lines h items = Ok (copies, h') →
  Heap_products h' = Heap_products h
  ∧ (∀ l, is_Some (Heap_cart_items h !! l) →
          Heap_cart_items h' !! l = Heap_cart_items h !! l)
  ∧ Forall (λ l, Heap_cart_items h !! l = None ∧ is_Some (Heap_cart_items h' !! l)) copies.
Proof.
  revert h copies h'. induction items as [|l items IH]; intros h copies h'.
  - cbn. intros [= <- <-]. auto.
  - cbn [copy_lines]. destruct (Heap_cart_items h !! l) as [item|]; [|done].
    destruct (CartItem_init h _ _) as [copy|e]; [|done].
    cbn [mbind result_bind new_CartItem].
    set (l' := fresh (dom (Heap_cart_items h))).
    set (h1 := Heap_set_cart_items h (<[l' := copy]> (Heap_cart_items h))).
    destruct (copy_lines h1 items) as [[ls h'']|e] eqn:Hrest; [|done].
    cbn. intros [= <- <-].
    destruct (IH _ _ _ Hrest) as (Hprod & Hkeep & Hnew).
    assert (Heap_cart_items h !! l' = None) as Hfresh
      by apply not_elem_of_dom, is_fresh.
    assert (∀ l0, is_Some (Heap_cart_items h !! l0) →
                  Heap_cart_items h1 !! l0 = Heap_cart_items h !! l0) as Hstep.
    { intros l0 [x Hx]. cbn. apply lookup_insert_ne. intros <-. congruence. }
    split; [done|]. split.
    + intros l0 Hl0. rewrite <- (Hstep l0 Hl0). apply Hkeep.
      rewrite (Hstep l0 Hl0). done.
    + apply Forall_cons. split.
      * split; [done|]. rewrite Hkeep; cbn; rewrite lookup_insert_eq; eauto.
      * eapply Forall_impl; [exact Hnew|]. cbn. intros l0 [Hnone Hsome].
        split; [|done]. destruct (decide (l' = l0)) as [<-|Hne]; [done|].
        by rewrite lookup_insert_ne in Hnone.
Qed.

Lemma fold_left_pointwise {A B : Type} (f g : A → B → A) (l : list B) (a : A) :
  (∀ a b, f a b = g a b) → fold_left f l a = fold_left g l a.
Proof.
  intros Hfg. revert a. induction l as [|b l IH]; intros a; [done|].
  cbn. rewrite Hfg. apply IH.
Qed.

(** The total of an order reads the heap through the products and the
    lines of the order only. *)
Lemma Order_total_amount_reads (h h' : @Heap num) (self : Order) :
  Heap_products h' = Heap_products h →
  lines h' (Order_items self) = lines h (Order_items self) →
  Order_total_amount h' self = Order_total_amount h self.
Proof.
  intros Hprod Hlines.
  assert (∀ item, line_total_price h' item = line_total_price h item) as Hprice.
  { intros [item|]; [|done]. unfold line_total_price, CartItem_total_price.
    by rewrite Hprod. }
  assert (∀ item, line_weight h' item = line_weight h item) as Hweight.
  { intros [item|]; [|done]. unfold line_weight. by rewrite Hprod. }
  unfold Order_total_amount, Order_calculate_shipping, Order_subtotal, Order_total_weight.
  rewrite Hlines.
  rewrite (fold_left_pointwise (add_line_total h') (add_line_total h)).
  - rewrite (fold_left_pointwise (add_line_weight h') (add_line_weight h)); [done|].
    intros a b. unfold add_line_weight. by rewrite Hweight.
  - intros a b. unfold add_line_total. by rewrite Hprice.
Qed.

Lemma apart_call (h1 : @Heap num) (made : Order) (state : Heap * ShoppingCart)
  (call : CartCall) :
  apart h1 made state → apart h1 made (ShoppingCart_call state call).
Proof.
  destruct state as [h self]. intros (Hprod & Hlines & Hcart).
  destruct (ShoppingCart_call_frame h self call) as (Hprod' & Hkeep & Hnew).
  cbn [fst snd] in *. rewrite Forall_forall in Hlines, Hcart.
  split; [congruence|]. split; apply Forall_forall.
  - intros l Hl. destruct (Hlines l Hl) as [Heq Hsome]. split; [|done].
    rewrite <- Heq. apply Hkeep.
    + intros Hin. by apply (Hcart l Hin).
    + by rewrite Heq.
  - intros l Hl Hin. destruct (Hnew l Hl) as [Hold|Hnone].
    + by apply (Hcart l Hold).
    + destruct (Hlines l Hin) as [Heq [x Hx]]. congruence.
Qed.

Lemma apart_calls (h1 : @Heap num) (made : Order) (calls : list CartCall)
  (state : Heap * ShoppingCart) :
  apart h1 made state → apart h1 made (fold_left ShoppingCart_call calls state).
Proof.
  revert state. induction calls as [|call calls IH]; intros state Hstate; [done|].
  cbn [fold_left]. by apply IH, apart_call.
Qed.

(** C2. An order made from a cart keeps its line items and its total
    through every later call on the cart: [add_item], [remove_item],
    [update_quantity], [clear] and [apply_discount_to_item], in any number
    and order, with any arguments, raising or not.  The lines of the order
    are objects of its own, and none of the calls assigns to a product
    ([apply_discount_to_item] raises before it does). *)
Theorem Order_unchanged_by_cart_calls (h : @Heap num) (uuid4 user : string)
  (cart : ShoppingCart) (address : Address) (made : Order) (h1 : @Heap num)
  (calls : list CartCall) :
  Forall (λ l, is_Some (Heap_cart_items h !! l)) (ShoppingCart_items cart) →
  Order_init h uuid4 user cart address = Ok (made, h1) →
  let after := fold_left ShoppingCart_call calls (h1, cart) in
  lines (fst after) (Order_items made) = lines h1 (Order_items made)
  ∧ Order_total_amount (fst after) made = Order_total_amount h1 made.
Proof.
  intros Hcart Hmade after.
  assert (apart h1 made (h1, cart)) as Hstart.
  { unfold Order_init in Hmade.
    destruct (ShoppingCart_items cart) as [|l0 items] eqn:Hitems; [done|].
    rewrite <- Hitems in Hmade.
    destruct (copy_lines h _) as [[copies h']|e] eqn:Hcopy; [|done].
    cbn in Hmade. injection Hmade as <- <-.
    destruct (copy_lines_Ok _ _ _ _ Hcopy) as (_ & _ & Hnew).
    rewrite Forall_forall in Hnew, Hcart.
    split; [done|]. cbn [fst snd Order_items]. split; apply Forall_forall.
    - intros l Hl. split; [done | by apply Hnew].
    - intros l Hl Hin. destruct (Hnew l Hin) as [Hnone _].
      rewrite Hitems in Hl. destruct (Hcart l Hl) as [x Hx]. congruence. }
  destruct (apart_calls h1 made calls _ Hstart) as (Hprod & Hlines & _).
  fold after in Hprod, Hlines.
  assert (lines (fst after) (Order_items made) = lines h1 (Order_items made)) as Heq.
  { unfold lines. apply map_ext_in. intros l Hl%list_elem_of_In.
    rewrite Forall_forall in Hlines. by destruct (Hlines l Hl). }
  split; [done|]. by apply Order_total_amount_reads.
Qed.

End CartProperties.

(** ** The sample session, on binary64 floats *)

Example sample_order_is_made :
  @sample_order_made float _ = Ok (sample_order, sample_heap).
Proof. vm_compute. reflexivity. Qed.

(** C4 on the sample order: 1359.97 + 15.99 + 115.60. *)
Example Order_total_amount_sample :
  Order_subtotal sample_heap sample_order
  = Ok {| Money_amount := (lit 135997 2 : float); Money_currency := "USD" |}
  ∧ Order_total_weight sample_heap sample_order = Ok (of_int 9 : float)
  ∧ Order_calculate_shipping sample_heap sample_order
    = Ok {| Money_amount := (lit 1599 2 : float); Money_currency := "USD" |}
  ∧ Order_calculate_tax {| Money_amount := (lit 135997 2 : float); Money_currency := "USD" |}
    = Ok {| Money_amount := (lit 1156 1 : float); Money_currency := "USD" |}
  ∧ Order_total_amount sample_heap sample_order
    = Ok {| Money_amount := (lit 149156 2 : float); Money_currency := "USD" |}.
Proof. repeat split; vm_compute; reflexivity. Qed.

(** C4 on the sample order, on exact decimals: two books at 29.99 and a
    laptop at 1299.99 weigh 9 pounds, so the total is
    1359.97 + 15.99 + 115.60 = 1491.56. *)
Lemma Order_total_amount_parts_witness :
  Order_subtotal (@sample_heap Q _) sample_order
  = Ok {| Money_amount := lit 135997 2; Money_currency := "USD" |}
  ∧ total_shipping_weight
      [(sample_product, 2);
       ({| Product_id := 2;
           Product_name := "Gaming Laptop";
           Product_price := sample_money (lit 129999 2);
           Product_description := "TechBrand GX-3000";
           Product_in_stock := true;
           Product_kind := Electronics "TechBrand" "GX-3000" (lit 55 1) 24 |}, 1)]
    = of_int 9
  ∧ Order_calculate_shipping (@sample_heap Q _) sample_order
    = Ok {| Money_amount := lit 1599 2; Money_currency := "USD" |}
  ∧ Order_calculate_tax {| Money_amount := (lit 135997 2 : Q); Money_currency := "USD" |}
    = Ok {| Money_amount := lit 11560 2; Money_currency := "USD" |}
  ∧ Order_total_amount (@sample_heap Q _) sample_order
    = Ok {| Money_amount := lit 149156 2; Money_currency := "USD" |}.
Proof.
  assert (priced_lines (@sample_heap Q _) sample_order
          = Some [(sample_product, 2);
                  ({| Product_id := 2;
                      Product_name := "Gaming Laptop";
                      Product_price := sample_money (lit 129999 2);
                      Product_description := "TechBrand GX-3000";
                      Product_in_stock := true;
                      Product_kind := Electronics "TechBrand" "GX-3000" (lit 55 1) 24 |},
                   1)]) as Hls by (vm_compute; reflexivity).
  destruct (Order_total_amount_parts _ _ _ Hls) as [_ Hvalue].
  destruct Hvalue as (Hsubtotal & Hshipping & Htax & Htotal).
  { repeat (apply Forall_cons; split;
              [unfold billable; cbn [fst snd]; split; [lia | split; reflexivity]|]).
    by apply Forall_nil. }
  split; [exact Hsubtotal|]. split; [vm_compute; reflexivity|].
  split; [exact Hshipping|]. split; [exact Htax | exact Htotal].
Defined.

(** The same order on exact decimals: 1491.56. *)
Example Order_total_amount_sample_decimal :
  eqb (lit 149156 2 : Q) (lit 149156 2) = true
  ∧ Order_total_amount sample_heap sample_order
    = Ok {| Money_amount := (lit 149156 2 : Q); Money_currency := "USD" |}.
Proof. split; vm_compute; reflexivity. Qed.

(** The order refers to the products of the cart, not to copies of them:
    were the price of the book replaced on the heap, as the body of
    [apply_discount_to_item] would do after its protocol test, the total of
    the order made before would follow, from 1491.56 to 1485.05. *)
Example Order_total_follows_product_price :
  Order_total_amount sample_heap sample_order
  = Ok {| Money_amount := (lit 149156 2 : float); Money_currency := "USD" |}
  ∧ sample_total_after_discount
    = Ok {| Money_amount := (lit 148505 2 : float); Money_currency := "USD" |}.
Proof. split; vm_compute; reflexivity. Qed.

(** The scenario of the demonstration: the sample order is paid by card,
    shipped, and can then no longer be cancelled. *)
Example Order_paid_shipped_not_cancelled :
  let paid :=
    Order_process_payment sample_env (@sample_heap float _)
      (Order_set_payment_method sample_order sample_card) in
  let shipped := Order_ship_order (snd paid) in
  let cancelled := Order_cancel_order (snd shipped) in
  fst paid = Ok true
  ∧ Order_status (snd paid) = Paid
  ∧ fst shipped = Ok ()
  ∧ Order_status (snd shipped) = Shipped
  ∧ cancelled
    = (Raise (ValueError "Cannot cancel shipped or delivered order"), snd shipped).
Proof. repeat split; vm_compute; reflexivity. Qed.

(** C1 as stated fails: the order of the sample session, cancelled once, has
    status Cancelled, which is none of Pending, Paid and Payment Failed, and
    [cancel_order] succeeds on it again. *)
Lemma Order_cancel_order_cancelled :
  @sample_order_made float _ = Ok (sample_order, sample_heap)
  ∧ Order_cancel_order sample_order = (Ok (), Order_set_status sample_order Cancelled)
  ∧ Order_status (Order_set_status sample_order Cancelled) = Cancelled
  ∧ Order_cancel_order (Order_set_status sample_order Cancelled)
    = (Ok (), Order_set_status sample_order Cancelled).
Proof. repeat split; vm_compute; reflexivity. Qed.

(** C9 as stated fails: on the sample order, cancelled and never given a
    payment method, [process_payment] raises and the status is, and stays,
    Cancelled. *)
Lemma Order_process_payment_cancelled :
  @sample_order_made float _ = Ok (sample_order, sample_heap)
  ∧ forallb (λ call, negb (sets_payment_method call)) [@CallCancelOrder float] = true
  ∧ Order_process_payment sample_env (@sample_heap float _)
      (fold_left Order_call [CallCancelOrder] sample_order)
    = (Raise (ValueError "Payment method not set"),
       Order_set_status sample_order Cancelled)
  ∧ OrderStatus_text
      (Order_status
         (snd (Order_process_payment sample_env (@sample_heap float _)
                 (fold_left Order_call [CallCancelOrder] sample_order))))
    = "Cancelled".
Proof. repeat split; vm_compute; reflexivity. Qed.

(** C9 on the sample order after a refused shipment, a refused payment and
    a cancellation. *)
Lemma Order_process_payment_without_method_witness :
  let calls := [CallShipOrder; CallProcessPayment sample_env (@sample_heap float _);
                CallCancelOrder] in
  let self := fold_left Order_call calls sample_order in
  Order_process_payment sample_env (@sample_heap float _) self
  = (Raise (ValueError "Payment method not set"), self)
  ∧ (Order_status self = Pending ∨ Order_status self = Cancelled)
  ∧ (existsb cancels calls = false → Order_status self = Pending).
Proof.
  apply (Order_process_payment_without_method (fst sample_cart) "o-1" "u-1"
           (snd sample_cart) sample_address sample_order sample_heap).
  - vm_compute. reflexivity.
  - reflexivity.
Defined.

(** C7 as stated fails: the withdrawal of 500 from a balance of 100, with
    the PIN of the account, raises nothing; the caller receives a string. *)
Lemma BankAccount_withdraw_returns_message :
  BankAccount_verify_pin (@sample_account float _) (Some "1234") = true
  ∧ ltb (BankAccount_balance (@sample_account float _)) (of_int 500) = true
  ∧ BankAccount_withdraw (@sample_account float _) (of_int 500) (Some "1234")
    = (Ok "Insufficient funds. Available balance: $100.00", sample_account)
  ∧ raises (fst (BankAccount_withdraw (@sample_account float _) (of_int 500) (Some "1234")))
    = false.
Proof. repeat split; vm_compute; reflexivity. Qed.

(** C7 on the sample account. *)
Lemma BankAccount_withdraw_over_balance_witness :
  BankAccount_withdraw (@sample_account float _) (of_int 500) (Some "1234")
  = (Ok (refusal sample_account (of_int 500) (Some "1234")), sample_account)
  ∧ (BankAccount_is_locked (@sample_account float _) = false →
     BankAccount_verify_pin (@sample_account float _) (Some "1234") = true →
     leb (of_int 500 : float) (of_int 0) = false →
     refusal (@sample_account float _) (of_int 500) (Some "1234")
     = "Insufficient funds. Available balance: $"
       +:+ format_2f (BankAccount_balance (@sample_account float _))).
Proof.
  apply (BankAccount_withdraw_over_balance (@sample_account float _)).
  vm_compute. reflexivity.
Defined.

(** C5 fails on the code: [add_item] on a product that is already in the
    cart adds the quantity to the line without looking at it.  In the sample
    cart with two books, [add_item(book, -5)] returns normally and leaves the
    line with quantity -3. *)
Lemma ShoppingCart_add_item_negative :
  quantities_positive (fst (@sample_cart_one_line float _)) (snd sample_cart_one_line)
  ∧ fst (ShoppingCart_add_item (fst (@sample_cart_one_line float _))
           (snd sample_cart_one_line) sample_book (-5)) = Ok ()
  ∧ lines
      (fst (ShoppingCart_call (@sample_cart_one_line float _) (CallAddItem sample_book (-5))))
      (ShoppingCart_items
         (snd (ShoppingCart_call (@sample_cart_one_line float _)
                 (CallAddItem sample_book (-5)))))
    = [Some {| CartItem_product := sample_book; CartItem_quantity := -3 |}]
  ∧ ¬ quantities_positive
        (fst (ShoppingCart_call (@sample_cart_one_line float _)
                (CallAddItem sample_book (-5))))
        (snd (ShoppingCart_call (@sample_cart_one_line float _)
                (CallAddItem sample_book (-5)))).
Proof.
  split; [|split; [|split]].
  - apply Forall_cons. split; [|by apply Forall_nil].
    eexists. split; [vm_compute; reflexivity | cbn; lia].
  - vm_compute. reflexivity.
  - vm_compute. reflexivity.
  - intros Hpos. apply Forall_cons in Hpos as [(item & Hitem & Hq) _].
    vm_compute in Hitem. injection Hitem as <-. cbn in Hq. lia.
Qed.

(** C2 on the sample session: after the order is made the cart takes three
    more books, a discount request, a new quantity for the laptop, the
    removal of the books and a clear. *)
Lemma Order_unchanged_by_cart_calls_witness :
  let calls := [CallAddItem sample_book 3;
                CallApplyDiscountToItem sample_book (of_int 10 : float);
                CallUpdateQuantity sample_laptop 7;
                CallRemoveItem sample_book;
                CallClear] in
  let after := fold_left ShoppingCart_call calls (sample_heap, snd sample_cart) in
  lines (fst after) (Order_items sample_order) = lines sample_heap (Order_items sample_order)
  ∧ Order_total_amount (fst after) sample_order
    = Order_total_amount sample_heap sample_order.
Proof.
  apply (Order_unchanged_by_cart_calls (fst sample_cart) "o-1" "u-1" (snd sample_cart)
           sample_address sample_order sample_heap).
  - apply Forall_cons. split; [eexists; vm_compute; reflexivity|].
    apply Forall_cons. split; [eexists; vm_compute; reflexivity|].
    by apply Forall_nil.
  - vm_compute. reflexivity.
Defined.

(** * Further properties *)

(** ** Order laws of the exact decimals *)

Lemma Dec_lt_Z (a b : Q) :
  Dec.lt a b = negb (Qnum b * Zpos (Qden a) <=? Qnum a * Zpos (Qden b)).
Proof. reflexivity. Qed.

Lemma Qred_sign (a : Q) : (Qnum (Qred a) <? 0) = (Qnum a <? 0).
Proof.
  pose proof (Qred_correct a) as Heq. unfold Qeq in Heq.
  destruct (Z.ltb_spec (Qnum (Qred a)) 0), (Z.ltb_spec (Qnum a) 0); try done; nia.
Qed.

Lemma Dec_lt_zero (a : Q) : Dec.lt a (inject_Z 0) = (Qnum a <? 0).
Proof.
  rewrite Dec_lt_Z. cbn [Qnum Qden inject_Z].
  destruct (Z.leb_spec (0 * Zpos (Qden a)) (Qnum a * 1)), (Z.ltb_spec (Qnum a) 0);
    cbn; try done; lia.
Qed.

#[global] Instance Dec_order : PyNumOrder Q.
Proof.
  split.
  - intros a. cbn [ltb Dec.num]. rewrite Dec_lt_Z.
    by rewrite Z.leb_refl.
  - intros a b. cbn [ltb Dec.num]. rewrite !Dec_lt_Z, negb_true_iff, negb_false_iff.
    rewrite Z.leb_gt, Z.leb_le. lia.
  - intros a b. cbn [ltb leb Dec.num]. unfold Dec.lt. by rewrite negb_involutive.
  - intros a b. cbn [ltb eqb Dec.num]. rewrite !Dec_lt_Z, !negb_involutive.
    unfold Qeq_bool.
    destruct (Z.eqb_spec (Qnum a * Zpos (Qden b)) (Qnum b * Zpos (Qden a))),
      (Z.leb_spec (Qnum b * Zpos (Qden a)) (Qnum a * Zpos (Qden b))),
      (Z.leb_spec (Qnum a * Zpos (Qden b)) (Qnum b * Zpos (Qden a))); cbn; try done; lia.
  - intros a b. cbn [ltb sub of_int Dec.num]. rewrite Dec_lt_zero, Qred_sign, Dec_lt_Z.
    cbn [Qnum Qminus Qplus Qopp Qden].
    destruct (Z.ltb_spec (Qnum a * Zpos (Qden b) + - Qnum b * Zpos (Qden a)) 0),
      (Z.leb_spec (Qnum b * Zpos (Qden a)) (Qnum a * Zpos (Qden b))); cbn; try done; lia.
  - intros a. cbn [add round2 of_int Dec.num]. unfold Dec.round_2 at 3.
    apply Qred_complete.
    replace (Dec.round_2 (inject_Z 0)) with (0 # 1)%Q by reflexivity.
    rewrite Qplus_0_l. unfold Dec.round_2. apply Qred_correct.
Qed.

(** ** Money: what the operators return *)

Section MoneyOperators.
Context {num : Type} `{PyNumLaws num} `{!PyNumOrder num}.

Lemma Money_init_Ok (a : num) (c : string) (m : Money) :
  Money_init a c = Ok m →
  ltb a (of_int 0) = false
  ∧ m = {| Money_amount := round2 a; Money_currency := upper c |}.
Proof.
  unfold Money_init. destruct (ltb a (of_int 0)); [done|]. by intros [= <-].
Qed.

(** X1. Whatever Money the constructor or an operator returns is well
    formed: its amount is not negative and is a fixed point of [round(·, 2)],
    and its currency is in upper case.  No operation produces a negative
    Money. *)
Theorem Money_results_well_formed (x y : Money) (a : num) (c : string) (k : Z) (m : Money) :
  Money_init a c = Ok m ∨ Money_add x y = Ok m ∨ Money_sub x y = Ok m
  ∨ Money_mul x k = Ok m →
  ltb (Money_amount m) (of_int 0) = false
  ∧ round2 (Money_amount m) = Money_amount m
  ∧ upper (Money_currency m) = Money_currency m.
Proof.
  assert (∀ a c, Money_init a c = Ok m →
                 ltb (Money_amount m) (of_int 0) = false
                 ∧ round2 (Money_amount m) = Money_amount m
                 ∧ upper (Money_currency m) = Money_currency m) as Hinit.
  { intros a' c' [Ha ->]%Money_init_Ok. cbn.
    split; [by apply round2_not_neg|]. split; [apply round2_idem | apply upper_idem]. }
  intros [Hm|[Hm|[Hm|Hm]]].
  - by eapply Hinit.
  - unfold Money_add in Hm. destruct (negb _); [done | by eapply Hinit].
  - unfold Money_sub in Hm. destruct (negb _); [done|].
    destruct (ltb (sub _ _) _); [done | by eapply Hinit].
  - unfold Money_mul in Hm. destruct (k <? 0); [done | by eapply Hinit].
Qed.


(** X3. Across currencies every ordering operator raises [ValueError],
    while [==] answers [False] without raising. *)
Theorem Money_compare_currencies (x y : Money) :
  Money_currency x ≠ Money_currency y →
  let e := ValueError ("Cannot compare " +:+ Money_currency x +:+ " with "
                       +:+ Money_currency y) in
  Money_lt x y = Raise e ∧ Money_le x y = Raise e
  ∧ Money_gt x y = Raise e ∧ Money_ge x y = Raise e
  ∧ Money_eq x y = false.
Proof.
  intros Hcur e.
  assert (String.eqb (Money_currency x) (Money_currency y) = false) as Hneq
    by by apply String.eqb_neq.
  assert (Money_lt x y = Raise e) as Hlt by (unfold Money_lt; by rewrite Hneq).
  unfold Money_gt, Money_le, Money_ge, Money_eq. rewrite Hlt, Hneq.
  by rewrite andb_false_r.
Qed.


End MoneyOperators.

Lemma Money_results_well_formed_witness :
  Money_sub sample_price_high sample_price_low
  = Ok {| Money_amount := lit 1049 2; Money_currency := "USD" |}
  ∧ ltb (lit 1049 2 : Q) (of_int 0) = false
  ∧ round2 (lit 1049 2 : Q) = lit 1049 2
  ∧ upper "USD" = "USD".
Proof.
  split; [reflexivity|].
  apply (Money_results_well_formed sample_price_high sample_price_low (of_int 0) "" 0
           {| Money_amount := lit 1049 2; Money_currency := "USD" |}).
  right. right. left. reflexivity.
Defined.


Lemma Money_compare_currencies_witness :
  Money_ge sample_price_high sample_price_euro
  = Raise (ValueError "Cannot compare USD with EUR")
  ∧ Money_eq sample_price_high sample_price_euro = false.
Proof.
  pose proof (Money_compare_currencies sample_price_high sample_price_euro) as Hcmp.
  cbn zeta in Hcmp. split; apply Hcmp; discriminate.
Defined.


(** ** Products *)

Section ProductProperties.
Context {num : Type} `{PyNum num}.

(** X5. [Product.__init__] hands out an identifier no product of the heap
    has, leaves every product that was there as it is, and keeps all
    identifiers below the counter, so that the next product differs again.
    The new product is in stock. *)
Theorem Product_init_fresh_id (h : @Heap num) (name : string) (price : Money)
  (description : string) (kind : ProductKind) :
  ids_below_counter h →
  let id := fst (Product_init h name price description kind) in
  let h' := snd (Product_init h name price description kind) in
  Heap_products h !! id = None
  ∧ (∃ p, Heap_products h' !! id = Some p ∧ Product_id p = id
          ∧ Product_in_stock p = true ∧ Product_price p = price)
  ∧ (∀ id' p, Heap_products h !! id' = Some p →
              id' ≠ id ∧ Heap_products h' !! id' = Some p)
  ∧ Heap_cart_items h' = Heap_cart_items h
  ∧ ids_below_counter h'.
Proof.
  intros Hbelow. cbn.
  assert (Heap_products h !! Heap_next_id h = None) as Hnone.
  { destruct (Heap_products h !! Heap_next_id h) as [p|] eqn:Hp; [|done].
    destruct (Hbelow _ _ Hp). lia. }
  split; [done|]. split; [|split; [|split; [done|]]].
  - eexists. rewrite lookup_insert_eq. done.
  - intros id' p Hp. destruct (Hbelow _ _ Hp) as [_ Hlt].
    split; [lia|]. rewrite lookup_insert_ne; [done | lia].
  - intros id' p. cbn.
    destruct (decide (Heap_next_id h = id')) as [<-|Hne].
    + rewrite lookup_insert_eq. intros [= <-]. cbn. lia.
    + rewrite lookup_insert_ne by done. intros Hp.
      destruct (Hbelow _ _ Hp). lia.
Qed.

End ProductProperties.

(** X5 on the catalogue of the sample session: the third product takes
    identifier 3. *)
Lemma Product_init_fresh_id_witness :
  let made := Book_init (@sample_catalogue Q _) "Rare Book" "Unknown" "123"
                (sample_money (lit 9999 2)) 100 in
  fst made = 3
  ∧ Heap_products (@sample_catalogue Q _) !! fst made = None
  ∧ ids_below_counter (snd made).
Proof.
  assert (ids_below_counter (@sample_catalogue Q _)) as Hbelow.
  { intros id p. vm_compute. intros Hp.
    destruct id as [|[[|[]|]|[|[]|]|]|]; try discriminate; injection Hp as <-; done. }
  pose proof (Product_init_fresh_id sample_catalogue "Rare Book" (sample_money (lit 9999 2))
                "By Unknown" (Book "Unknown" "123" 100) Hbelow) as Hfresh.
  cbn zeta in *. destruct Hfresh as (Hnone & _ & _ & _ & Hbelow').
  split; [reflexivity|]. split; [exact Hnone | exact Hbelow'].
Defined.

(** X6. On exact decimals: for a price that is not negative,
    [apply_discount] raises [ValueError] for a percentage outside [0, 100],
    and for a percentage inside returns a price between zero and the
    original price. *)
Theorem Product_apply_discount_range (p : @Product Q) (percentage : Q) :
  ltb (Money_amount (Product_price p)) (of_int 0) = false →
  if leb (of_int 0) percentage && leb percentage (of_int 100)
  then ∃ v, Product_apply_discount p percentage = Ok v
            ∧ leb (of_int 0) v = true
            ∧ leb v (Money_amount (Product_price p)) = true
  else Product_apply_discount p percentage
       = Raise (ValueError "Discount percentage must be between 0 and 100").
Proof.
  intros Hprice. unfold Product_apply_discount.
  destruct (leb (of_int 0) percentage && leb percentage (of_int 100)) eqn:Hpct; [|done].
  cbn [negb]. eexists. split; [done|].
  apply andb_true_iff in Hpct as [Hlo Hhi].
  apply Dec_not_neg in Hprice.
  cbn [leb of_int sub mul div Dec.num] in *.
  apply Qle_bool_iff in Hlo, Hhi.
  set (price := Money_amount (Product_price p)) in *.
  assert (0 <= price)%Q as Hp by (unfold Qle; cbn; lia).
  assert (Qeq (Qred (price - Qred (price * Qred (percentage / inject_Z 100))))
              (price * ((inject_Z 100 - percentage) / inject_Z 100))) as Heq.
  { rewrite !Qred_correct. field. }
  assert (0 * inject_Z 100 <= inject_Z 100 - percentage)%Q as Hrest
    by (unfold Qle, Qminus, Qplus, Qopp in *; cbn in *; lia).
  assert (inject_Z 100 - percentage <= 1 * inject_Z 100)%Q as Hpart
    by (unfold Qle, Qminus, Qplus, Qopp in *; cbn in *; lia).
  rewrite !Qle_bool_iff, Heq. split.
  - apply Qmult_le_0_compat; [done|]. by apply Qle_shift_div_l.
  - rewrite Qmult_comm. apply Qle_trans with (1 * price)%Q.
    + apply Qmult_le_compat_r; [|done]. by apply Qle_shift_div_r.
    + rewrite Qmult_1_l. apply Qle_refl.
Qed.

(** X6 at ten percent off 29.99. *)
Lemma Product_apply_discount_range_witness :
  ∃ v, Product_apply_discount sample_product (of_int 10) = Ok v
       ∧ leb (of_int 0) v = true
       ∧ leb v (Money_amount (Product_price sample_product)) = true.
Proof. exact (Product_apply_discount_range sample_product (of_int 10) eq_refl). Defined.

(** ** User *)

Section UserProperties.
Variable sha256_hex : string → string.

(** X7. The credential round trip: a new user verifies the password it was
    created with; and [change_password] with the right old password either
    raises [ValueError] for a new password shorter than 8 characters,
    leaving the user unchanged, or returns [True], after which the new
    password verifies and no other field has changed. *)
Theorem User_password_round_trip (uuid4 username email password : string)
  (self : User) (old_password new_password : string) :
  User_verify_password sha256_hex self old_password = true →
  User_verify_password sha256_hex
    (User_init sha256_hex uuid4 username email password) password = true
  ∧ if (String.length new_password <? 8)%nat
    then User_change_password sha256_hex self old_password new_password
         = (Raise (ValueError "Password must be at least 8 characters"), self)
    else ∃ changed,
           User_change_password sha256_hex self old_password new_password
           = (Ok true, changed)
           ∧ User_verify_password sha256_hex changed new_password = true
           ∧ User_set_password_hash changed (User_password_hash self) = self.
Proof.
  intros Hold. split.
  - unfold User_verify_password, User_init. cbn. apply String_eqb_refl.
  - unfold User_change_password. rewrite Hold. cbn [negb].
    destruct (String.length new_password <? 8)%nat; [done|].
    eexists. split; [done|]. split.
    + unfold User_verify_password. cbn. apply String_eqb_refl.
    + by destruct self.
Qed.

End UserProperties.

Lemma User_password_round_trip_witness :
  User_verify_password sample_digest sample_user "securepass123" = true
  ∧ ∃ changed,
      User_change_password sample_digest sample_user "securepass123" "newsecurepass456"
      = (Ok true, changed)
      ∧ User_verify_password sample_digest changed "newsecurepass456" = true
      ∧ User_set_password_hash changed (User_password_hash sample_user) = sample_user.
Proof.
  split; [reflexivity|].
  exact (proj2 (User_password_round_trip sample_digest "" "" "" "" sample_user
                  "securepass123" "newsecurepass456" eq_refl)).
Defined.

Lemma Address_eq_sym (a b : Address) : Address_eq a b = Address_eq b a.
Proof.
  unfold Address_eq.
  by rewrite (String.eqb_sym (Address_street a)), (String.eqb_sym (Address_city a)),
    (String.eqb_sym (Address_state a)), (String.eqb_sym (Address_zip_code a)).
Qed.

Lemma Address_eq_refl (a : Address) : Address_eq a a = true.
Proof. apply Address_eq_iff. done. Qed.

Lemma Address_eq_trans (a b c : Address) :
  Address_eq a b = true → Address_eq b c = true → Address_eq a c = true.
Proof. rewrite !Address_eq_iff. intuition congruence. Qed.

Lemma address_in_app (a : Address) (l1 l2 : list Address) :
  address_in a (l1 ++ l2) = address_in a l1 || address_in a l2.
Proof. unfold address_in. apply existsb_app. Qed.

Lemma address_in_eq (a b : Address) (l : list Address) :
  Address_eq a b = true → address_in a l = address_in b l.
Proof.
  intros Hab. unfold address_in. induction l as [|e l IH]; [done|].
  cbn. rewrite IH. f_equal.
  destruct (Address_eq e a) eqn:Hea, (Address_eq e b) eqn:Heb; try done.
  - rewrite <- Heb. symmetry. by apply (Address_eq_trans e a b).
  - rewrite <- Hea. apply (Address_eq_trans e b a); [done|].
    by rewrite Address_eq_sym.
Qed.

Lemma addresses_distinct_snoc (a : Address) (l : list Address) :
  addresses_distinct l = true → address_in a l = false →
  addresses_distinct (l ++ [a]) = true.
Proof.
  induction l as [|e l IH]; [done|]. cbn [addresses_distinct app].
  intros [He Hl]%andb_true_iff Ha. unfold address_in in Ha. cbn in Ha.
  apply orb_false_iff in Ha as [Hea Ha].
  apply andb_true_iff. split; [|by apply IH].
  apply negb_true_iff in He. apply negb_true_iff.
  rewrite address_in_app, He. unfold address_in. cbn.
  by rewrite Address_eq_sym, Hea.
Qed.

Lemma remove_first_absent (a : Address) (l : list Address) :
  address_in a l = false → remove_first a l = l.
Proof.
  induction l as [|e l IH]; [done|]. unfold address_in. cbn.
  intros [Hea Ha]%orb_false_iff. rewrite Hea. f_equal. by apply IH.
Qed.

Lemma remove_first_distinct (a : Address) (l : list Address) :
  addresses_distinct l = true →
  addresses_distinct (remove_first a l) = true
  ∧ address_in a (remove_first a l) = false
  ∧ (∀ b, address_in b (remove_first a l) = true → address_in b l = true).
Proof.
  induction l as [|e l IH]; [done|]. cbn [addresses_distinct remove_first].
  intros [He Hl]%andb_true_iff. apply negb_true_iff in He.
  destruct (Address_eq e a) eqn:Hea.
  - split; [done|]. split.
    + by rewrite <- (address_in_eq e a).
    + intros b Hb. unfold address_in in *. cbn. by rewrite Hb, orb_true_r.
  - destruct (IH Hl) as (IH1 & IH2 & IH3). split; [|split].
    + cbn. rewrite IH1, andb_true_r. apply negb_true_iff.
      destruct (address_in e (remove_first a l)) eqn:Hin; [|done].
      by rewrite (IH3 e Hin) in He.
    + unfold address_in in *. cbn. by rewrite Hea, IH2.
    + intros b. unfold address_in in *. cbn.
      intros [Hb|Hb]%orb_true_iff; [by rewrite Hb|].
      by rewrite (IH3 b Hb), orb_true_r.
Qed.

(** X8. The address list of a user stays free of duplicates (no two
    entries compare equal) under [add_address] and [remove_address]; after
    [add_address] the address is in the list, after [remove_address] it is
    not, and removing what was just added to a list that did not have it
    gives the list back. *)
Theorem User_addresses_distinct (self : User) (address : Address) :
  addresses_distinct (User_addresses self) = true →
  let added := User_add_address self address in
  let removed := User_remove_address self address in
  addresses_distinct (User_addresses added) = true
  ∧ address_in address (User_addresses added) = true
  ∧ addresses_distinct (User_addresses removed) = true
  ∧ address_in address (User_addresses removed) = false
  ∧ (address_in address (User_addresses self) = false →
     User_remove_address added address = self).
Proof.
  intros Hdistinct. cbn zeta. unfold User_add_address, User_remove_address.
  destruct (address_in address (User_addresses self)) eqn:Hin; cbn [negb].
  - destruct (remove_first_distinct address _ Hdistinct) as (H1 & H2 & _).
    rewrite Hin. cbn. done.
  - cbn [User_addresses User_set_addresses]. rewrite Hin.
    split; [by apply addresses_distinct_snoc|].
    assert (address_in address (User_addresses self ++ [address]) = true) as Hadded.
    { rewrite address_in_app. unfold address_in at 2. cbn.
      by rewrite Address_eq_refl, orb_true_r. }
    split; [done|]. split; [done|]. split; [done|]. intros _.
    rewrite Hadded. unfold User_set_addresses. cbn.
    assert (remove_first address (User_addresses self ++ [address]) = User_addresses self)
      as ->; [|by destruct self].
    clear Hdistinct Hadded. induction (User_addresses self) as [|e l IH].
    + cbn. by rewrite Address_eq_refl.
    + unfold address_in in Hin. cbn in Hin. apply orb_false_iff in Hin as [He Hl].
      cbn. rewrite He. f_equal. by apply IH.
Qed.

Lemma User_addresses_distinct_witness :
  address_in sample_address_other (User_addresses sample_user) = false
  ∧ address_in sample_address_other
      (User_addresses (User_add_address sample_user sample_address_other)) = true
  ∧ User_remove_address (User_add_address sample_user sample_address_other)
      sample_address_other = sample_user.
Proof.
  pose proof (User_addresses_distinct sample_user sample_address_other eq_refl) as Hd.
  cbn zeta in Hd. destruct Hd as (_ & Hin & _ & _ & Hback).
  split; [reflexivity|]. split; [exact Hin | apply Hback; reflexivity].
Defined.

Lemma Ascii_eqb_sym (a b : ascii) : Ascii.eqb a b = Ascii.eqb b a.
Proof.
  destruct (Ascii.eqb_spec a b) as [->|Hne]; [by rewrite Ascii.eqb_refl|].
  symmetry. apply Ascii.eqb_neq. congruence.
Qed.

Lemma append_empty_r (s : string) : s +:+ "" = s.
Proof.
  induction s as [|c s IH]; [done|].
  change (String c (s +:+ "") = String c s). by rewrite IH.
Qed.

Lemma contains_char_app (c : ascii) (s t : string) :
  contains_char c (s +:+ t) = contains_char c s || contains_char c t.
Proof.
  induction s as [|c' s IH]; [done|]. simpl. by rewrite IH, orb_assoc.
Qed.

Lemma split_on_shape (sep : ascii) (s : string) :
  ∃ first rest,
    split_on sep s = first :: rest
    ∧ contains_char sep first = false
    ∧ ((rest = [] ∧ s = first)
       ∨ ∃ t, s = first +:+ String sep t ∧ rest = split_on sep t).
Proof.
  induction s as [|c s (first & rest & Hsplit & Hfirst & Hshape)].
  - exists "", []. cbn. auto.
  - cbn [split_on]. destruct (Ascii.eqb c sep) eqn:Hc.
    + apply Ascii.eqb_eq in Hc as ->. exists "", (split_on sep s).
      split; [done|]. split; [done|]. right. by exists s.
    + rewrite Hsplit. exists (String c first), rest.
      split; [done|]. split; [cbn; by rewrite Ascii_eqb_sym, Hc|].
      destruct Hshape as [[-> ->]|(t & -> & ->)]; [by left|].
      right. by exists t.
Qed.

Lemma split_on_whole (sep : ascii) (s : string) :
  contains_char sep s = false → split_on sep s = [s].
Proof.
  induction s as [|c s IH]; [done|]. cbn.
  intros [Hc Hs]%orb_false_iff. rewrite Ascii_eqb_sym, Hc, IH; done.
Qed.

Lemma split_on_app (sep : ascii) (s t : string) :
  contains_char sep s = false →
  split_on sep (s +:+ String sep t) = s :: split_on sep t.
Proof.
  induction s as [|c s IH]; simpl.
  - by rewrite Ascii.eqb_refl.
  - intros [Hc Hs]%orb_false_iff. by rewrite Ascii_eqb_sym, Hc, IH.
Qed.

(** X9. The email setter accepts exactly the strings of the form
    [local@domain] or [local@domain@...] in which neither [local] nor
    [domain] holds an ["@"] and [domain] holds a ["."]: only the segment
    between the first and the second ["@"] is looked at.  An accepted email
    is stored as given; a rejected one raises [ValueError] and leaves the
    user unchanged. *)
Theorem User_set_email_accepts (self : User) (new_email : string) :
  (fst (User_set_email self new_email) = Ok () ↔
     ∃ local domain rest,
       new_email = local +:+ String "@" (domain +:+ rest)
       ∧ contains_char "@" local = false
       ∧ contains_char "@" domain = false
       ∧ contains_char "." domain = true
       ∧ (rest = "" ∨ ∃ r, rest = String "@" r))
  ∧ User_set_email self new_email
    ∈ [(Ok (), User_set_email_field self new_email);
       (Raise (ValueError "Invalid email format"), self)].
Proof.
  unfold User_set_email. split.
  - split.
    + destruct (contains_char "@" new_email) eqn:Hat; cbn [negb]; [|done].
      destruct (split_on_shape "@" new_email)
        as (local & rest & Hsplit & Hlocal & [[-> ->]|(t & -> & ->)]);
        [congruence|].
      destruct (split_on_shape "@" t)
        as (domain & rest' & Hsplit' & Hdomain & Hshape).
      rewrite Hsplit, Hsplit'.
      destruct (contains_char "." domain) eqn:Hdot; cbn [negb fst]; [|done].
      intros _. destruct Hshape as [[-> ->]|(t' & -> & ->)].
      * exists local, domain, "". rewrite append_empty_r. repeat split; auto.
      * exists local, domain, (String "@" t'). repeat split; eauto.
    + intros (local & domain & rest & -> & Hlocal & Hdomain & Hdot & Hrest).
      rewrite contains_char_app. cbn [contains_char]. rewrite Ascii.eqb_refl.
      rewrite orb_true_r. cbn [negb orb]. rewrite split_on_app by done.
      destruct Hrest as [->|[r ->]].
      * rewrite append_empty_r, split_on_whole by done. by rewrite Hdot.
      * rewrite split_on_app by done. by rewrite Hdot.
  - destruct (contains_char "@" new_email); cbn [negb]; [|set_solver].
    destruct (split_on "@" new_email) as [|? [|domain ?]]; [set_solver..|].
    destruct (contains_char "." domain); cbn [negb]; set_solver.
Qed.

Example User_set_email_second_at :
  fst (User_set_email sample_user "john@example.com@evil") = Ok ()
  ∧ fst (User_set_email sample_user "john@example@evil.com")
    = Raise (ValueError "Invalid email format")
  ∧ fst (User_set_email sample_user "john.smith@example")
    = Raise (ValueError "Invalid email format").
Proof. repeat split; reflexivity. Qed.

(** ** Payment strategies *)

Lemma String_length_append (s t : string) :
  String.length (s +:+ t) = (String.length s + String.length t)%nat.
Proof.
  induction s as [|c s IH]; [done|].
  change (S (String.length (s +:+ t)) = S (String.length s + String.length t)).
  by rewrite IH.
Qed.

Lemma substring_whole (s : string) : substring 0 (String.length s) s = s.
Proof. induction s as [|c s IH]; [done|]. cbn. by rewrite IH. Qed.

Lemma substring_skip (s t : string) (n : nat) :
  substring (String.length s) n (s +:+ t) = substring 0 n t.
Proof.
  induction s as [|c s IH]; [done|].
  change (substring (String.length s) n (s +:+ t) = substring 0 n t). exact IH.
Qed.

Lemma last4_append (prefix last : string) :
  String.length last = 4%nat → last4 (prefix +:+ last) = last.
Proof.
  intros Hlast. unfold last4. rewrite String_length_append, Hlast.
  replace (String.length prefix + 4 - 4)%nat with (String.length prefix) by lia.
  rewrite substring_skip, <- Hlast. apply substring_whole.
Qed.

(** X10. A credit card keeps the last four characters of its number and
    nothing else of it: two numbers that end in the same four characters
    give the same card. *)
Theorem CreditCard_init_masks (prefix last cardholder_name cvv : string)
  (expiry_month expiry_year : Z) :
  String.length last = 4%nat →
  CreditCard_init (prefix +:+ last) cardholder_name expiry_month expiry_year cvv
  = CreditCard ("**** **** **** " +:+ last) cardholder_name expiry_month expiry_year cvv.
Proof. intros Hlast. unfold CreditCard_init. by rewrite last4_append. Qed.

Lemma CreditCard_init_masks_witness :
  CreditCard_init ("453212345678" +:+ "9012") "John Smith" 12 2025 "123"
  = CreditCard_init ("000000000000" +:+ "9012") "John Smith" 12 2025 "123".
Proof.
  rewrite (CreditCard_init_masks "453212345678" "9012") by reflexivity.
  rewrite (CreditCard_init_masks "000000000000" "9012") by reflexivity.
  reflexivity.
Defined.

(** X11. A credit card validates exactly when its CVV has three or four
    characters and its expiry month is the current month or a later one; a
    card is still good throughout the month it expires in. *)
Theorem CreditCard_valid_through_expiry_month (env : Env) (card_number cardholder_name : string)
  (expiry_month expiry_year : Z) (cvv : string) :
  Payable_validate_payment_info env
    (CreditCard card_number cardholder_name expiry_month expiry_year cvv) = true
  ↔ (Env_year env < expiry_year
     ∨ (expiry_year = Env_year env ∧ Env_month env ≤ expiry_month))
    ∧ (String.length cvv = 3 ∨ String.length cvv = 4)%nat.
Proof.
  cbn [Payable_validate_payment_info].
  destruct (Z.ltb_spec expiry_year (Env_year env)).
  { split; [done | lia]. }
  destruct (Z.eqb_spec expiry_year (Env_year env)),
    (Z.ltb_spec expiry_month (Env_month env)); cbn [andb].
  { split; [done | lia]. }
  all: destruct (Nat.eqb_spec (String.length cvv) 3),
         (Nat.eqb_spec (String.length cvv) 4); cbn; split; try done; try lia.
Qed.

Section PaymentProperties.
Context {num : Type} `{PyNum num}.

Lemma Payable_success_valid (env : Env) (self : Payable) (amount : num) :
  PaymentResult_success (Payable_process_payment env self amount)
  = Payable_validate_payment_info env self.
Proof.
  unfold Payable_process_payment.
  destruct (Payable_validate_payment_info env self); cbn [negb]; [by destruct self | done].
Qed.

Lemma Payable_success_transaction_id (env : Env) (self : Payable) (amount : num) :
  PaymentResult_success (Payable_process_payment env self amount) = true →
  is_Some (PaymentResult_transaction_id (Payable_process_payment env self amount)).
Proof.
  unfold Payable_process_payment.
  destruct (Payable_validate_payment_info env self); cbn [negb]; [|done].
  destruct self; cbn; eauto.
Qed.

(** X12. Both payment strategies fail closed: [process_payment] reports
    success exactly when [validate_payment_info] holds; a failure carries an
    error and neither transaction identifier nor amount, a success carries
    the amount and a transaction identifier. *)
Theorem Payable_process_payment_fail_closed (env : Env) (self : Payable) (amount : num) :
  let result := Payable_process_payment env self amount in
  PaymentResult_success result = Payable_validate_payment_info env self
  ∧ (if PaymentResult_success result
     then is_Some (PaymentResult_transaction_id result)
          ∧ PaymentResult_amount result = Some amount
          ∧ PaymentResult_error result = None
     else PaymentResult_transaction_id result = None
          ∧ PaymentResult_amount result = None
          ∧ is_Some (PaymentResult_error result)).
Proof.
  cbn zeta. unfold Payable_process_payment.
  destruct (Payable_validate_payment_info env self); cbn [negb].
  - destruct self; cbn; eauto.
  - cbn. eauto.
Qed.

(** X13. With a payment method set, [process_payment] on an order pays it
    whatever its status is: when the total can be computed the call returns
    whether the payment information validates, and the status becomes Paid
    (with the transaction identifier of the payment) or Payment Failed (the
    identifier kept as it was); when the total raises, the exception
    propagates and the order is unchanged.  Lines, address and payment
    method are never touched. *)
Theorem Order_process_payment_outcome (env : Env) (h : @Heap num) (self : Order)
  (payment_method : Payable) :
  Order_payment_method self = Some payment_method →
  match Order_total_amount h self with
  | Raise e => Order_process_payment env h self = (Raise e, self)
  | Ok total =>
      let valid := Payable_validate_payment_info env payment_method in
      let after := snd (Order_process_payment env h self) in
      fst (Order_process_payment env h self) = Ok valid
      ∧ Order_status after = (if valid then Paid else PaymentFailed)
      ∧ (if valid then is_Some (Order_transaction_id after)
         else Order_transaction_id after = Order_transaction_id self)
      ∧ Order_items after = Order_items self
      ∧ Order_shipping_address after = Order_shipping_address self
      ∧ Order_payment_method after = Some payment_method
  end.
Proof.
  intros Hmethod. unfold Order_process_payment. rewrite Hmethod.
  destruct (Order_total_amount h self) as [total|e]; [|done].
  pose proof (Payable_success_transaction_id env payment_method (Money_amount total))
    as Hid.
  cbn zeta. rewrite <- (Payable_success_valid env payment_method (Money_amount total)).
  destruct (PaymentResult_success _); cbn; [|done].
  by specialize (Hid eq_refl).
Qed.

End PaymentProperties.

(** X13 on the sample order, delivered already, with the sample card. *)
Lemma Order_process_payment_outcome_witness :
  let delivered :=
    Order_set_status (Order_set_payment_method sample_order sample_card) Delivered in
  fst (Order_process_payment sample_env (@sample_heap Q _) delivered) = Ok true
  ∧ Order_status (snd (Order_process_payment sample_env (@sample_heap Q _) delivered)) = Paid.
Proof.
  pose proof (Order_process_payment_outcome sample_env (@sample_heap Q _)
                (Order_set_status (Order_set_payment_method sample_order sample_card)
                   Delivered)
                sample_card eq_refl) as Hpay.
  replace (Order_total_amount _ _)
    with (Ok {| Money_amount := (lit 149156 2 : Q); Money_currency := "USD" |})
    in Hpay by (vm_compute; reflexivity).
  cbn zeta. destruct Hpay as (Hfst & Hstatus & _). split; [exact Hfst | exact Hstatus].
Defined.

(** ** Order: what the status records *)

Section OrderRecords.
Context {num : Type} `{PyNum num}.

Lemma Order_call_payment_on_record (self : Order) (call : @OrderCall num) :
  Order_payment_on_record self → Order_payment_on_record (Order_call self call).
Proof.
  unfold Order_payment_on_record. intros Hself.
  destruct call as [pm|env h| | |]; cbn [Order_call].
  - cbn. destruct (Order_status self); try done; try (split; [eauto | tauto]); eauto.
  - unfold Order_process_payment.
    destruct (Order_payment_method self) as [pm|] eqn:Hpm;
      [|by cbn [snd]; rewrite Hpm].
    destruct (Order_total_amount h self) as [total|e];
      [|by cbn [snd]; rewrite Hpm].
    pose proof (Payable_success_transaction_id env pm (Money_amount total)) as Hid.
    destruct (PaymentResult_success _); cbn; rewrite Hpm; [|by eauto].
    split; [by eauto | by apply Hid].
  - unfold Order_ship_order. destruct (Order_status self) eqn:Hst; cbn; rewrite ?Hst; done.
  - unfold Order_deliver_order. destruct (Order_status self) eqn:Hst; cbn; rewrite ?Hst; done.
  - unfold Order_cancel_order. destruct (Order_status self) eqn:Hst; cbn; rewrite ?Hst; done.
Qed.

(** X14. Through any sequence of calls on an order made by the constructor
    ([set_payment_method], [process_payment], [ship_order], [deliver_order],
    [cancel_order], raising or not), an order whose status is Paid, Shipped
    or Delivered has a payment method and a transaction identifier, and one
    whose status is Payment Failed has a payment method: nothing is shipped
    or delivered that was not paid. *)
Theorem Order_status_payment_on_record (h : @Heap num) (uuid4 user : string)
  (cart : ShoppingCart) (address : Address) (made : Order) (h1 : @Heap num)
  (calls : list OrderCall) :
  Order_init h uuid4 user cart address = Ok (made, h1) →
  Order_payment_on_record (fold_left Order_call calls made).
Proof.
  intros Hmade.
  assert (Order_payment_on_record made) as Hstart.
  { destruct (Order_init_fresh _ _ _ _ _ _ _ Hmade) as [Hpend _].
    unfold Order_payment_on_record. by rewrite Hpend. }
  clear Hmade. revert made Hstart.
  induction calls as [|call calls IH]; intros made Hstart; [done|].
  cbn [fold_left]. by apply IH, Order_call_payment_on_record.
Qed.

(** X15. Delivered and Cancelled are final for every call but
    [process_payment]: no sequence of [set_payment_method], [ship_order],
    [deliver_order] and [cancel_order] changes such a status, and none takes
    a Shipped order anywhere but to Delivered. *)
Theorem Order_final_statuses (self : Order) (calls : list (@OrderCall num)) :
  forallb (λ call, negb (processes_payment call)) calls = true →
  let after := fold_left Order_call calls self in
  match Order_status self with
  | Delivered => Order_status after = Delivered
  | Cancelled => Order_status after = Cancelled
  | Shipped => Order_status after = Shipped ∨ Order_status after = Delivered
  | _ => True
  end.
Proof.
  revert self. induction calls as [|call calls IH]; intros self Hcalls.
  - cbn. destruct (Order_status self); auto.
  - cbn [forallb] in Hcalls. apply andb_true_iff in Hcalls as [Hcall Hcalls].
    specialize (IH (Order_call self call) Hcalls). cbn [fold_left]. cbn zeta in *.
    destruct call as [pm|env h'| | |]; try discriminate;
      cbn [Order_call] in *; unfold Order_ship_order, Order_deliver_order,
        Order_cancel_order in *;
      destruct (Order_status self) eqn:Hst; cbn in IH; rewrite ?Hst in IH; auto.
Qed.

End OrderRecords.

Lemma Order_status_payment_on_record_witness :
  let calls := [CallSetPaymentMethod sample_card;
                CallProcessPayment sample_env (@sample_heap Q _);
                CallShipOrder; CallCancelOrder; CallDeliverOrder] in
  Order_status (fold_left Order_call calls sample_order) = Delivered
  ∧ Order_payment_on_record (fold_left Order_call calls sample_order).
Proof.
  split; [vm_compute; reflexivity|].
  apply (Order_status_payment_on_record (fst sample_cart) "o-1" "u-1" (snd sample_cart)
           sample_address sample_order sample_heap).
  vm_compute. reflexivity.
Defined.

Lemma Order_final_statuses_witness :
  let calls := [@CallCancelOrder Q; CallSetPaymentMethod sample_card; CallShipOrder] in
  Order_status (fold_left Order_call calls (Order_set_status sample_order Delivered))
  = Delivered.
Proof.
  exact (Order_final_statuses (Order_set_status sample_order Delivered)
           [@CallCancelOrder Q; CallSetPaymentMethod sample_card; CallShipOrder] eq_refl).
Defined.

(** ** Order: the copy of the cart *)

Section OrderCopies.
Context {num : Type} `{PyNum num}.

Lemma CartItem_init_Ok_product (h : @Heap num) (product quantity : Z) (item : CartItem) :
  CartItem_init h product quantity = Ok item →
  ∃ p, Heap_products h !! product = Some p ∧ Product_in_stock p = true.
Proof.
  unfold CartItem_init. destruct (quantity <=? 0); [done|].
  destruct (Heap_products h !! product) as [p|]; [|done].
  destruct (Product_in_stock p) eqn:Hstock; [|done]. eauto.
Qed.

Lemma CartItem_init_orderable (h : @Heap num) (item : CartItem) (p : Product) :
  0 < CartItem_quantity item →
  Heap_products h !! CartItem_product item = Some p →
  Product_in_stock p = true →
  CartItem_init h (CartItem_product item) (CartItem_quantity item) = Ok item.
Proof.
  intros Hq Hp Hstock. unfold CartItem_init.
  replace (CartItem_quantity item <=? 0) with false by (symmetry; apply Z.leb_gt; lia).
  rewrite Hp, Hstock. by destruct item.
Qed.

Lemma new_CartItem_keeps (h : @Heap num) (item : CartItem) (l : loc) :
  is_Some (Heap_cart_items h !! l) →
  Heap_cart_items (snd (new_CartItem h item)) !! l = Heap_cart_items h !! l.
Proof.
  intros [x Hx]. cbn. apply lookup_insert_ne. intros <-.
  apply (is_fresh (dom (Heap_cart_items h))), elem_of_dom. eauto.
Qed.

Lemma copy_lines_content (items : list loc) (h : @Heap num) (copies : list loc) (h' : Heap) :
  Forall (λ l, is_Some (Heap_cart_items h !! l)) items →
  copy_lines h items = Ok (copies, h') →
  lines h' copies = lines h items.
Proof.
  revert h copies h'. induction items as [|l items IH]; intros h copies h' Hitems.
  - cbn. by intros [= <- <-].
  - apply Forall_cons in Hitems as [[item0 Hl] Hitems].
    cbn [copy_lines]. rewrite Hl.
    destruct (CartItem_init h _ _) as [copy|e] eqn:Hcopy; [|done].
    apply CartItem_init_Ok in Hcopy as [_ ->].
    cbn [mbind result_bind].
    destruct (new_CartItem h _) as [l' h1] eqn:Hnew.
    destruct (copy_lines h1 items) as [[ls h'']|e] eqn:Hrest; [|done].
    cbn. intros [= <- <-].
    assert (h1 = snd (new_CartItem h
                        {| CartItem_product := CartItem_product item0;
                           CartItem_quantity := CartItem_quantity item0 |})) as Hh1
      by by rewrite Hnew.
    assert (Forall (λ l0, is_Some (Heap_cart_items h1 !! l0)) items) as Hitems1.
    { eapply Forall_impl; [exact Hitems|]. cbn beta. intros l0 Hl0.
      rewrite Hh1, new_CartItem_keeps; done. }
    destruct (copy_lines_Ok _ _ _ _ Hrest) as (_ & Hkeep & _).
    cbn [lines map]. f_equal.
    + rewrite Hkeep, Hl.
      * injection Hnew as <- <-. cbn. rewrite lookup_insert_eq. by destruct item0.
      * injection Hnew as <- <-. cbn. rewrite lookup_insert_eq. eauto.
    + fold (lines h'' ls). rewrite (IH _ _ _ Hitems1 Hrest).
      unfold lines. apply map_ext_in. intros l0 Hl0%list_elem_of_In.
      rewrite Forall_forall in Hitems. rewrite Hh1. by apply new_CartItem_keeps, Hitems.
Qed.

(** X16. The order made from a cart holds, line for line, the products and
    quantities the cart has at that moment, in objects of its own; making
    it changes neither the lines of the cart nor any product, and the order
    starts Pending with no payment method and no transaction identifier. *)
Theorem Order_init_snapshot (h : @Heap num) (uuid4 user : string)
  (cart : ShoppingCart) (address : Address) (made : Order) (h1 : @Heap num) :
  Forall (λ l, is_Some (Heap_cart_items h !! l)) (ShoppingCart_items cart) →
  Order_init h uuid4 user cart address = Ok (made, h1) →
  lines h1 (Order_items made) = lines h (ShoppingCart_items cart)
  ∧ lines h1 (ShoppingCart_items cart) = lines h (ShoppingCart_items cart)
  ∧ Forall (λ l, l ∉ ShoppingCart_items cart) (Order_items made)
  ∧ Heap_products h1 = Heap_products h
  ∧ Order_status made = Pending
  ∧ Order_payment_method made = None
  ∧ Order_transaction_id made = None
  ∧ Order_shipping_address made = address.
Proof.
  intros Hcart Hmade. unfold Order_init in Hmade.
  destruct (ShoppingCart_items cart) as [|l0 items] eqn:Hitems; [done|].
  rewrite <- Hitems in *.
  destruct (copy_lines h _) as [[copies h']|e] eqn:Hcopy; [|done].
  cbn in Hmade. injection Hmade as <- <-. cbn.
  destruct (copy_lines_Ok _ _ _ _ Hcopy) as (Hprod & Hkeep & Hnew).
  split; [by apply copy_lines_content|]. split; [|split; [|done]].
  - unfold lines. apply map_ext_in. intros l Hl%list_elem_of_In.
    rewrite Forall_forall in Hcart. by apply Hkeep, Hcart.
  - eapply Forall_impl; [exact Hnew|]. cbn beta. intros l [Hnone _] Hl.
    rewrite Forall_forall in Hcart. destruct (Hcart l Hl). congruence.
Qed.

Lemma orderable_new_CartItem (h : @Heap num) (item : CartItem) (l : loc) :
  is_Some (Heap_cart_items h !! l) →
  orderable (snd (new_CartItem h item)) l ↔ orderable h l.
Proof.
  intros Hl. unfold orderable. rewrite new_CartItem_keeps by done. done.
Qed.

Lemma copy_lines_orderable (items : list loc) (h : @Heap num) :
  Forall (λ l, is_Some (Heap_cart_items h !! l)) items →
  (∃ copies h', copy_lines h items = Ok (copies, h')) ↔ Forall (orderable h) items.
Proof.
  revert h. induction items as [|l items IH]; intros h Hitems.
  - cbn. split; [by intros _; apply Forall_nil | eauto].
  - apply Forall_cons in Hitems as [[item Hl] Hitems].
    cbn [copy_lines]. rewrite Hl, Forall_cons.
    set (copy := {| CartItem_product := CartItem_product item;
                    CartItem_quantity := CartItem_quantity item |}).
    assert (Forall (λ l0, is_Some (Heap_cart_items (snd (new_CartItem h copy)) !! l0))
              items) as Hitems1.
    { eapply Forall_impl; [exact Hitems|]. cbn beta. intros l0 Hl0.
      by rewrite new_CartItem_keeps. }
    assert (Forall (orderable (snd (new_CartItem h copy))) items
            ↔ Forall (orderable h) items) as Hsame.
    { rewrite !Forall_forall. rewrite Forall_forall in Hitems.
      split; intros Hall l0 Hl0; specialize (Hall l0 Hl0);
        by apply (orderable_new_CartItem h copy l0 (Hitems l0 Hl0)). }
    specialize (IH _ Hitems1). split.
    + destruct (CartItem_init h _ _) as [copy'|e] eqn:Hcopy; [|by intros (? & ? & ?)].
      destruct (CartItem_init_Ok_product _ _ _ _ Hcopy) as (p & Hp & Hstock).
      apply CartItem_init_Ok in Hcopy as [Hq ->]. fold copy.
      cbn [mbind result_bind].
      destruct (new_CartItem h copy) as [l' h1] eqn:Hnew. cbn [snd] in *.
      destruct (copy_lines h1 items) as [[ls h'']|e] eqn:Hrest; [|by intros (? & ? & ?)].
      intros _. split.
      * exists item, p. done.
      * apply Hsame, IH. eauto.
    + intros [(item' & p & Hl' & Hq & Hp & Hstock) Hrest].
      assert (item' = item) as -> by congruence.
      rewrite (CartItem_init_orderable h item p) by done.
      cbn [mbind result_bind]. replace item with copy by by destruct item.
      destruct (new_CartItem h copy) as [l' h1] eqn:Hnew. cbn [snd] in *.
      apply Hsame, IH in Hrest as (ls & h'' & ->). cbn. eauto.
Qed.

(** X17. The constructor of an order succeeds exactly when the cart is not
    empty and every line has a positive quantity on a product that is in
    stock; on an empty cart it raises [ValueError].  A line left with a
    quantity of zero or less, or a product gone out of stock since it was
    added, makes the cart impossible to order. *)
Theorem Order_init_succeeds (h : @Heap num) (uuid4 user : string)
  (cart : ShoppingCart) (address : Address) :
  Forall (λ l, is_Some (Heap_cart_items h !! l)) (ShoppingCart_items cart) →
  ((∃ made h1, Order_init h uuid4 user cart address = Ok (made, h1))
   ↔ ShoppingCart_items cart ≠ [] ∧ Forall (orderable h) (ShoppingCart_items cart))
  ∧ (ShoppingCart_items cart = [] →
     Order_init h uuid4 user cart address
     = Raise (ValueError "Cannot create order with empty cart")).
Proof.
  intros Hcart. pose proof (copy_lines_orderable _ h Hcart) as Hcopy.
  unfold Order_init. destruct (ShoppingCart_items cart) as [|l0 items] eqn:Hitems.
  - split; [|done]. split; [by intros (? & ? & ?) | by intros [? _]].
  - split; [|done]. rewrite <- Hcopy. split.
    + destruct (copy_lines h (l0 :: items)) as [[copies h']|e]; [|by intros (? & ? & ?)].
      eauto.
    + intros [_ (copies & h' & ->)]. cbn. eauto.
Qed.

End OrderCopies.

Lemma Order_init_snapshot_witness :
  lines (@sample_heap Q _) (Order_items sample_order)
  = lines (fst sample_cart) (ShoppingCart_items (snd sample_cart))
  ∧ Heap_products (@sample_heap Q _) = Heap_products (fst sample_cart).
Proof.
  assert (Forall (λ l, is_Some (Heap_cart_items (fst (@sample_cart Q _)) !! l))
            (ShoppingCart_items (snd (@sample_cart Q _)))) as Hcart.
  { apply Forall_cons. split; [eexists; vm_compute; reflexivity|].
    apply Forall_cons. split; [eexists; vm_compute; reflexivity|].
    by apply Forall_nil. }
  assert (Order_init (fst (@sample_cart Q _)) "o-1" "u-1" (snd sample_cart) sample_address
          = Ok (sample_order, sample_heap)) as Hmade by (vm_compute; reflexivity).
  destruct (Order_init_snapshot _ _ _ _ _ _ _ Hcart Hmade) as (Hlines & _ & _ & Hprod & _).
  split; [exact Hlines | exact Hprod].
Defined.

(** X17 on the sample cart after [add_item(book, -5)]: the line of the books
    has quantity -3 and the cart can no longer be ordered. *)
Lemma Order_init_succeeds_witness :
  let state := ShoppingCart_call (@sample_cart Q _) (CallAddItem sample_book (-5)) in
  ¬ Forall (orderable (fst state)) (ShoppingCart_items (snd state))
  ∧ ¬ ∃ made h1,
        Order_init (fst state) "o-3" "u-1" (snd state) sample_address = Ok (made, h1).
Proof.
  cbn zeta.
  set (state := ShoppingCart_call (@sample_cart Q _) (CallAddItem sample_book (-5))).
  assert (Forall (λ l, is_Some (Heap_cart_items (fst state) !! l))
            (ShoppingCart_items (snd state))) as Hcart.
  { apply Forall_cons. split; [eexists; vm_compute; reflexivity|].
    apply Forall_cons. split; [eexists; vm_compute; reflexivity|].
    by apply Forall_nil. }
  assert (¬ Forall (orderable (fst state)) (ShoppingCart_items (snd state))) as Hnot.
  { intros Hall. apply Forall_cons in Hall as [(item & p & Hitem & Hq & _) _].
    vm_compute in Hitem. injection Hitem as <-. cbn in Hq. lia. }
  split; [exact Hnot|].
  intros Hmade.
  apply (Order_init_succeeds (fst state) "o-3" "u-1" (snd state) sample_address Hcart)
    in Hmade as [_ Hall]. by apply Hnot.
Defined.

(** ** Order and cart: totals and currencies *)

Section TotalsAndCurrencies.
Context {num : Type} `{PyNumLaws num} `{!PyNumOrder num}.

Lemma add_line_total_Raise (h : @Heap num) (items : list (option CartItem)) (e : exn) :
  fold_left (add_line_total h) items (Raise e) = Raise e.
Proof. induction items as [|item items IH]; [done|]. cbn. apply IH. Qed.

(** X18. An order whose first line is on a product priced in another
    currency than USD cannot be totalled: the sum of the line totals starts
    from [Money(0)], which is in USD, and [total_amount] raises the
    currency-mismatch [ValueError] of the first addition. *)
Theorem Order_total_amount_other_currency (h : @Heap num) (self : Order)
  (l : loc) (rest : list loc) (item : CartItem) (p : Product) :
  Order_items self = l :: rest →
  Heap_cart_items h !! l = Some item →
  Heap_products h !! CartItem_product item = Some p →
  0 ≤ CartItem_quantity item →
  ltb (Money_amount (Product_price p)) (of_int 0) = false →
  upper (Money_currency (Product_price p)) ≠ "USD" →
  Order_total_amount h self
  = Raise (ValueError ("Cannot add USD and " +:+ upper (Money_currency (Product_price p)))).
Proof.
  intros Hitems Hl Hp Hq Hprice Hcur.
  unfold Order_total_amount, Order_subtotal. rewrite Hitems. cbn [lines map fold_left].
  rewrite Hl, Money_init_USD by by apply of_int_not_neg.
  unfold add_line_total at 2. cbn [mbind result_bind line_total_price].
  unfold CartItem_total_price. rewrite Hp. unfold Money_mul.
  replace (CartItem_quantity item <? 0) with false by (symmetry; apply Z.ltb_ge; lia).
  rewrite Money_init_accepts by (apply mul_not_neg; [done | by apply of_int_not_neg]).
  cbn [mbind result_bind]. unfold Money_add. cbn [Money_amount Money_currency].
  replace (String.eqb "USD" (upper (Money_currency (Product_price p)))) with false
    by (symmetry; apply String.eqb_neq; congruence).
  cbn [negb]. by rewrite add_line_total_Raise.
Qed.


End TotalsAndCurrencies.

Lemma Order_total_amount_other_currency_witness :
  ShoppingCart_total_amount (fst sample_euro_cart) (snd sample_euro_cart)
  = Ok {| Money_amount := (lit 3000 2 : Q); Money_currency := "EUR" |}
  ∧ Order_init (fst sample_euro_cart) "o-2" "u-2" (snd sample_euro_cart) sample_address
    = Ok (sample_euro_order, @sample_euro_heap Q _)
  ∧ Order_total_amount (@sample_euro_heap Q _) sample_euro_order
    = Raise (ValueError "Cannot add USD and EUR").
Proof.
  split; [vm_compute; reflexivity|]. split; [vm_compute; reflexivity|].
  apply (Order_total_amount_other_currency (@sample_euro_heap Q _) sample_euro_order
           2%positive [] {| CartItem_product := 1; CartItem_quantity := 3 |}
           {| Product_id := 1;
              Product_name := "Le Petit Prince";
              Product_price := {| Money_amount := round2 (lit 1000 2);
                                  Money_currency := "EUR" |};
              Product_description := "By Saint-Exupery";
              Product_in_stock := true;
              Product_kind := Book "Saint-Exupery" "978-2070408504" 96 |});
    try (vm_compute; reflexivity); try done.
Defined.


(** ** ShoppingCart: the container *)

Section CartContainer.
Context {num : Type} `{PyNum num}.

Lemma line_has_product_iff (h : @Heap num) (product : Z) (l : loc) :
  line_has_product h product l = true ↔ product_of h l = Some product.
Proof.
  unfold line_has_product, product_of.
  destruct (Heap_cart_items h !! l) as [item|]; cbn; [|done].
  rewrite Z.eqb_eq. split; congruence.
Qed.

Lemma contains_iff (h : @Heap num) (self : ShoppingCart) (product : Z) :
  ShoppingCart_contains h self product = true
  ↔ Some product ∈ line_products h (ShoppingCart_items self).
Proof.
  unfold ShoppingCart_contains, line_products.
  rewrite existsb_exists, list_elem_of_In, in_map_iff.
  split; intros (l & Hl1 & Hl2); exists l.
  - by apply line_has_product_iff in Hl2.
  - by apply line_has_product_iff in Hl1.
Qed.

Lemma find_line_contains (h : @Heap num) (self : ShoppingCart) (product : Z) :
  match find_line h (ShoppingCart_items self) product with
  | Some l => l ∈ ShoppingCart_items self ∧ product_of h l = Some product
              ∧ ShoppingCart_contains h self product = true
  | None => ShoppingCart_contains h self product = false
  end.
Proof.
  unfold ShoppingCart_contains.
  induction (ShoppingCart_items self) as [|l items IH]; [done|].
  cbn [find_line existsb]. destruct (line_has_product h product l) eqn:Hl.
  - split; [left|]. split; [by apply line_has_product_iff | done].
  - destruct (find_line h items product); [|done].
    destruct IH as (Hin & Hp & Hc). split; [by right | done].
Qed.

Lemma NoDup_line_products_items (h : @Heap num) (items : list loc) :
  NoDup (line_products h items) →
  Forall (λ l, is_Some (Heap_cart_items h !! l)) items →
  NoDup items.
Proof.
  induction items as [|l items IH]; [by constructor|].
  cbn [line_products map]. intros [Hl Hnodup]%NoDup_cons [Hsome Hall]%Forall_cons.
  apply NoDup_cons. split; [|by apply IH].
  intros Hin. apply Hl. apply list_elem_of_In, in_map_iff. exists l.
  split; [done | by apply list_elem_of_In].
Qed.

Lemma line_products_alter (h : @Heap num) (items : list loc) (l0 : loc)
  (f : CartItem → CartItem) :
  (∀ item, CartItem_product (f item) = CartItem_product item) →
  line_products (Heap_set_cart_items h (alter f l0 (Heap_cart_items h))) items
  = line_products h items.
Proof.
  intros Hf. unfold line_products. apply map_ext. intros l. unfold product_of. cbn.
  destruct (decide (l = l0)) as [->|Hne].
  - rewrite lookup_alter_eq. destruct (Heap_cart_items h !! l0); cbn; by rewrite ?Hf.
  - by rewrite lookup_alter_ne.
Qed.

Lemma allocated_alter (h : @Heap num) (items : list loc) (l0 : loc)
  (f : CartItem → CartItem) :
  Forall (λ l, is_Some (Heap_cart_items h !! l)) items →
  Forall (λ l, is_Some (Heap_cart_items
                          (Heap_set_cart_items h (alter f l0 (Heap_cart_items h))) !! l))
    items.
Proof.
  intros Hall. eapply Forall_impl; [exact Hall|]. cbn beta. intros l [item Hl]. cbn.
  destruct (decide (l = l0)) as [->|Hne].
  - rewrite lookup_alter_eq, Hl. by eexists.
  - rewrite lookup_alter_ne by done. eauto.
Qed.

Lemma one_line_per_product_filter (h : @Heap num) (self : ShoppingCart)
  (keep : loc → bool) :
  one_line_per_product h self →
  one_line_per_product h
    (ShoppingCart_set_items self (List.filter keep (ShoppingCart_items self))).
Proof.
  unfold one_line_per_product. cbn. intros [Hnodup Hall]. split.
  - clear Hall. induction (ShoppingCart_items self) as [|l items IH]; [done|].
    cbn [line_products map] in Hnodup. apply NoDup_cons in Hnodup as [Hl Hnodup].
    cbn [List.filter]. destruct (keep l); [|by apply IH].
    cbn [line_products map]. apply NoDup_cons. split; [|by apply IH].
    intros Hin. apply Hl. apply list_elem_of_In, in_map_iff in Hin as (l' & Hl' & Hin).
    apply filter_In in Hin as [Hin _].
    apply list_elem_of_In, in_map_iff. eauto.
  - rewrite !Forall_forall in *. intros l Hl%list_elem_of_In%filter_In.
    apply Hall, list_elem_of_In. tauto.
Qed.

Lemma ShoppingCart_call_one_line_per_product (h : @Heap num) (self : ShoppingCart)
  (call : CartCall) :
  one_line_per_product h self →
  one_line_per_product (fst (ShoppingCart_call (h, self) call))
    (snd (ShoppingCart_call (h, self) call)).
Proof.
  intros Hwf.
  destruct call as [product quantity|product|product new_quantity| |product percentage];
    cbn [ShoppingCart_call fst snd].
  - unfold ShoppingCart_add_item.
    destruct (Heap_products h !! product) as [p|]; [|done].
    destruct (Product_in_stock p); cbn [negb]; [|done].
    pose proof (find_line_contains h self product) as Hfind.
    destruct (find_line h _ product) as [l0|].
    + destruct Hwf as [Hnodup Hall]. cbn. split.
      * by rewrite line_products_alter.
      * by apply allocated_alter.
    + destruct (CartItem_init h product quantity) as [item|e] eqn:Hitem; [|done].
      apply CartItem_init_Ok in Hitem as [_ ->]. destruct Hwf as [Hnodup Hall]. cbn.
      assert (∀ l, is_Some (Heap_cart_items h !! l) →
                   <[fresh (dom (Heap_cart_items h)) :=
                       {| CartItem_product := product; CartItem_quantity := quantity |}]>
                     (Heap_cart_items h) !! l = Heap_cart_items h !! l) as Hkeep.
      { intros l [x Hx]. apply lookup_insert_ne. intros <-.
        apply (is_fresh (dom (Heap_cart_items h))), elem_of_dom. eauto. }
      split.
      * unfold line_products, ShoppingCart_set_items. cbn [ShoppingCart_items].
        rewrite map_app. cbn [map].
        unfold product_of at 2. cbn. rewrite lookup_insert_eq. cbn.
        assert (map (product_of
                       (Heap_set_cart_items h
                          (<[fresh (dom (Heap_cart_items h)) :=
                               {| CartItem_product := product;
                                  CartItem_quantity := quantity |}]>
                             (Heap_cart_items h))))
                  (ShoppingCart_items self)
                = line_products h (ShoppingCart_items self)) as ->.
        { apply map_ext_in. intros l Hl%list_elem_of_In. unfold product_of. cbn.
          rewrite Forall_forall in Hall. by rewrite Hkeep by by apply Hall. }
        apply NoDup_app. split; [done|]. split; [|apply NoDup_singleton].
        intros x Hx ->%list_elem_of_singleton.
        apply contains_iff in Hx. congruence.
      * unfold ShoppingCart_set_items. cbn [ShoppingCart_items].
        apply Forall_app. split.
        -- eapply Forall_impl; [exact Hall|]. cbn beta. intros l Hl. cbn.
           by rewrite Hkeep.
        -- apply Forall_singleton. cbn. rewrite lookup_insert_eq. eauto.
  - by apply one_line_per_product_filter.
  - unfold ShoppingCart_update_quantity. destruct (new_quantity <=? 0).
    + by apply one_line_per_product_filter.
    + destruct (find_line h _ product) as [l0|]; [|done].
      destruct Hwf as [Hnodup Hall]. cbn. split.
      * by rewrite line_products_alter.
      * by apply allocated_alter.
  - split; [constructor | by apply Forall_nil].
  - by destruct (ShoppingCart_apply_discount_to_item_raises h self product percentage)
      as [_ ->].
Qed.

(** X20. A cart never holds two lines on the same product: from the empty
    cart, whatever is called on it and with whatever arguments, every
    product has at most one line, so that [len(cart)] counts products, not
    items. *)
Theorem ShoppingCart_one_line_per_product (h : @Heap num) (user : string)
  (calls : list CartCall) :
  let state := fold_left ShoppingCart_call calls (h, ShoppingCart_init user) in
  one_line_per_product (fst state) (snd state)
  ∧ NoDup (ShoppingCart_items (snd state)).
Proof.
  cbn zeta.
  assert (∀ state : Heap * ShoppingCart,
            one_line_per_product (fst state) (snd state) →
            one_line_per_product (fst (fold_left ShoppingCart_call calls state))
              (snd (fold_left ShoppingCart_call calls state))) as Hcalls.
  { induction calls as [|call calls IH]; intros [h0 c0] Hwf; [done|].
    cbn [fold_left]. apply IH.
    by apply (ShoppingCart_call_one_line_per_product h0 c0 call). }
  assert (one_line_per_product h (ShoppingCart_init user)) as Hstart
    by (split; [constructor | by apply Forall_nil]).
  specialize (Hcalls (h, ShoppingCart_init user) Hstart).
  split; [done|]. destruct Hcalls. by eapply NoDup_line_products_items.
Qed.

End CartContainer.

Section CartCalls.
Context {num : Type} `{PyNum num}.

Lemma quantity_sum_shift (items : list (option CartItem)) (a : Z) :
  fold_left (λ acc item, acc + from_option CartItem_quantity 0 item) items a
  = a + fold_left (λ acc item, acc + from_option CartItem_quantity 0 item) items 0.
Proof.
  revert a. induction items as [|item items IH]; intros a; cbn [fold_left]; [lia|].
  rewrite IH, (IH (0 + _)). lia.
Qed.

Lemma item_count_cons (h : @Heap num) (self : ShoppingCart) (l : loc) (items : list loc) :
  ShoppingCart_item_count h (ShoppingCart_set_items self (l :: items))
  = from_option CartItem_quantity 0 (Heap_cart_items h !! l)
    + ShoppingCart_item_count h (ShoppingCart_set_items self items).
Proof.
  unfold ShoppingCart_item_count, lines. cbn. by rewrite quantity_sum_shift.
Qed.

Lemma item_count_items (h : @Heap num) (self : ShoppingCart) :
  ShoppingCart_item_count h self
  = ShoppingCart_item_count h (ShoppingCart_set_items self (ShoppingCart_items self)).
Proof. done. Qed.

Lemma item_count_same (h h' : @Heap num) (self : ShoppingCart) (items : list loc) :
  (∀ l, l ∈ items → Heap_cart_items h' !! l = Heap_cart_items h !! l) →
  ShoppingCart_item_count h' (ShoppingCart_set_items self items)
  = ShoppingCart_item_count h (ShoppingCart_set_items self items).
Proof.
  induction items as [|l items IH]; intros Hsame; [done|].
  rewrite !item_count_cons, Hsame by left. rewrite IH; [done|].
  intros l' Hl'. apply Hsame. by right.
Qed.

Lemma item_count_alter (h : @Heap num) (self : ShoppingCart) (items : list loc)
  (l0 : loc) (item : CartItem) (f : CartItem → CartItem) :
  NoDup items → l0 ∈ items → Heap_cart_items h !! l0 = Some item →
  ShoppingCart_item_count (Heap_set_cart_items h (alter f l0 (Heap_cart_items h)))
    (ShoppingCart_set_items self items)
  = ShoppingCart_item_count h (ShoppingCart_set_items self items)
    + (CartItem_quantity (f item) - CartItem_quantity item).
Proof.
  intros Hnodup Hin Hitem. induction items as [|l items IH]; [by apply elem_of_nil in Hin|].
  apply NoDup_cons in Hnodup as [Hl Hnodup]. rewrite !item_count_cons.
  destruct (decide (l = l0)) as [->|Hne].
  - cbn [Heap_cart_items Heap_set_cart_items]. rewrite lookup_alter_eq, Hitem.
    cbn [fmap option_fmap option_map from_option].
    rewrite (item_count_same h); [lia|].
    intros l Hin'. cbn. apply lookup_alter_ne. by intros <-.
  - apply elem_of_cons in Hin as [->|Hin]; [done|].
    rewrite IH by done. cbn [Heap_cart_items Heap_set_cart_items].
    rewrite lookup_alter_ne by done. lia.
Qed.

Lemma item_count_snoc (h : @Heap num) (self : ShoppingCart) (items : list loc) (l : loc) :
  ShoppingCart_item_count h (ShoppingCart_set_items self (items ++ [l]))
  = ShoppingCart_item_count h (ShoppingCart_set_items self items)
    + from_option CartItem_quantity 0 (Heap_cart_items h !! l).
Proof.
  induction items as [|l' items IH].
  - cbn [app]. rewrite item_count_cons. unfold ShoppingCart_item_count. cbn. lia.
  - cbn [app]. rewrite !item_count_cons, IH. lia.
Qed.

Lemma contains_same (h h' : @Heap num) (self : ShoppingCart) (product : Z) :
  (∀ l, l ∈ ShoppingCart_items self → product_of h' l = product_of h l) →
  ShoppingCart_contains h' self product = ShoppingCart_contains h self product.
Proof.
  unfold ShoppingCart_contains. induction (ShoppingCart_items self) as [|l items IH];
    intros Hsame; [done|].
  cbn [existsb]. rewrite IH by (intros l' Hl'; apply Hsame; by right). f_equal.
  specialize (Hsame l ltac:(left)). unfold product_of in Hsame. unfold line_has_product.
  destruct (Heap_cart_items h' !! l), (Heap_cart_items h !! l); cbn in *; congruence.
Qed.

Lemma product_of_alter (h : @Heap num) (l l0 : loc) (f : CartItem → CartItem) :
  (∀ item, CartItem_product (f item) = CartItem_product item) →
  product_of (Heap_set_cart_items h (alter f l0 (Heap_cart_items h))) l = product_of h l.
Proof.
  intros Hf. unfold product_of. cbn. destruct (decide (l = l0)) as [->|Hne].
  - rewrite lookup_alter_eq. destruct (Heap_cart_items h !! l0); cbn; by rewrite ?Hf.
  - by rewrite lookup_alter_ne.
Qed.

Lemma line_has_product_apart (h : @Heap num) (product other : Z) (l : loc) :
  other ≠ product → line_has_product h other l = true →
  line_has_product h product l = false.
Proof.
  unfold line_has_product. destruct (Heap_cart_items h !! l); [|done]. lia.
Qed.

Lemma contains_filter_out (h : @Heap num) (items : list loc) (product : Z) :
  existsb (line_has_product h product)
    (List.filter (λ l, negb (line_has_product h product l)) items) = false.
Proof.
  induction items as [|l items IH]; [done|]. cbn [List.filter].
  destruct (line_has_product h product l) eqn:Hl; cbn [negb existsb]; [done|].
  by rewrite Hl.
Qed.

Lemma filter_out_absent (h : @Heap num) (items : list loc) (product : Z) :
  existsb (line_has_product h product) items = false →
  List.filter (λ l, negb (line_has_product h product l)) items = items.
Proof.
  induction items as [|l items IH]; [done|]. cbn [List.filter existsb].
  intros [-> Hrest]%orb_false_elim. cbn [negb]. by rewrite IH.
Qed.

(** X21. [add_item] of a product in stock, on a cart with one line per
    product: if the product is in the cart or the quantity is positive the
    call succeeds, the product is in the cart afterwards, [item_count] has
    grown by the quantity (whatever its sign when the product was there),
    [len] grows by one exactly when the product was not in the cart, and
    membership of every other product is unchanged; otherwise it raises
    ValueError "Quantity must be positive" and nothing changes. *)
Theorem ShoppingCart_add_item_outcome (h : @Heap num) (self : ShoppingCart)
  (product quantity : Z) (p : Product) :
  one_line_per_product h self →
  Heap_products h !! product = Some p →
  Product_in_stock p = true →
  let r := ShoppingCart_add_item h self product quantity in
  let h' := fst (snd r) in
  let after := snd (snd r) in
  if ShoppingCart_contains h self product || (0 <? quantity)
  then fst r = Ok ()
       ∧ ShoppingCart_contains h' after product = true
       ∧ ShoppingCart_item_count h' after = ShoppingCart_item_count h self + quantity
       ∧ ShoppingCart_len after
         = (if ShoppingCart_contains h self product then ShoppingCart_len self
            else S (ShoppingCart_len self))
       ∧ ∀ other, other ≠ product →
           ShoppingCart_contains h' after other = ShoppingCart_contains h self other
  else r = (Raise (ValueError "Quantity must be positive"), (h, self)).
Proof.
  intros [Hnodup Hall] Hp Hstock. cbn zeta. unfold ShoppingCart_add_item.
  rewrite Hp, Hstock. cbn [negb].
  pose proof (find_line_contains h self product) as Hfind.
  destruct (find_line h _ product) as [l0|].
  - destruct Hfind as (Hin & Hprod & ->). cbn [orb fst snd].
    assert (is_Some (Heap_cart_items h !! l0)) as [item Hitem].
    { rewrite Forall_forall in Hall. by apply Hall. }
    split; [done|]. split; [|split; [|split; [done|]]].
    + rewrite (contains_same h).
      * apply contains_iff, list_elem_of_In, in_map_iff. exists l0.
        split; [done | by apply list_elem_of_In].
      * intros l _. by apply product_of_alter.
    + rewrite (item_count_items h), (item_count_items (Heap_set_cart_items _ _)).
      rewrite (item_count_alter h self _ l0 item); [cbn; lia| |done|done].
      by eapply NoDup_line_products_items.
    + intros other _. apply contains_same. intros l _. by apply product_of_alter.
  - rewrite Hfind. cbn [orb]. unfold CartItem_init. rewrite Hp, Hstock. cbn [negb].
    rewrite (Z.leb_antisym 0 quantity), Z.ltb_antisym.
    destruct (quantity <=? 0); cbn [negb]; [done|].
    cbn [new_CartItem fst snd].
    set (l' := fresh (dom (Heap_cart_items h))).
    set (h' := Heap_set_cart_items h _).
    assert (∀ l, l ∈ ShoppingCart_items self →
                 Heap_cart_items h' !! l = Heap_cart_items h !! l) as Hkeep.
    { intros l Hl. apply lookup_insert_ne. intros <-.
      rewrite Forall_forall in Hall.
      apply (is_fresh (dom (Heap_cart_items h))), elem_of_dom. by apply Hall. }
    assert (Heap_cart_items h' !! l'
            = Some {| CartItem_product := product; CartItem_quantity := quantity |})
      as Hnew by apply lookup_insert_eq.
    assert (∀ other, ShoppingCart_contains h'
                       (ShoppingCart_set_items self (ShoppingCart_items self ++ [l'])) other
                     = ShoppingCart_contains h self other || (product =? other))
      as Hcontains.
    { intros other. unfold ShoppingCart_contains at 1. cbn [ShoppingCart_set_items
        ShoppingCart_items]. rewrite existsb_app. cbn [existsb].
      unfold line_has_product at 2. rewrite Hnew. cbn [CartItem_product].
      rewrite orb_false_r. f_equal.
      apply (contains_same h h' self). intros l Hl. unfold product_of.
      by rewrite Hkeep. }
    split; [done|]. split; [|split; [|split]].
    + by rewrite Hcontains, Z.eqb_refl, orb_true_r.
    + rewrite item_count_snoc, Hnew, (item_count_items h). cbn [from_option CartItem_quantity].
      f_equal. by apply item_count_same.
    + unfold ShoppingCart_len. cbn [ShoppingCart_set_items ShoppingCart_items].
      rewrite length_app. cbn [length]. lia.
    + intros other Hother. rewrite Hcontains.
      destruct (Z.eqb_spec product other); [congruence | apply orb_false_r].
Qed.

(** X22. [remove_item] never raises and never touches a line object.
    Afterwards the product is not in the cart and membership of every other
    product is as before; a product that was in the cart leaves it shorter,
    and removing a product that was not there returns normally with the cart
    as it was. *)
Theorem ShoppingCart_remove_item_outcome (h : @Heap num) (self : ShoppingCart) (product : Z) :
  let r := ShoppingCart_remove_item h self product in
  let after := snd (snd r) in
  fst r = Ok () ∧ fst (snd r) = h
  ∧ ShoppingCart_contains h after product = false
  ∧ (∀ other, other ≠ product →
       ShoppingCart_contains h after other = ShoppingCart_contains h self other)
  ∧ if ShoppingCart_contains h self product
    then (ShoppingCart_len after < ShoppingCart_len self)%nat
    else after = self.
Proof.
  cbn zeta. unfold ShoppingCart_remove_item, ShoppingCart_contains, ShoppingCart_len.
  cbn [fst snd ShoppingCart_set_items ShoppingCart_items].
  split; [done|]. split; [done|]. destruct self as [user items]. cbn [ShoppingCart_items].
  split; [|split].
  - apply contains_filter_out.
  - intros other Hother. induction items as [|l items IH]; [done|]. cbn [List.filter existsb].
    destruct (line_has_product h product l) eqn:Hl; cbn [negb existsb].
    + rewrite IH. destruct (line_has_product h other l) eqn:Hl'; [|done].
      apply (line_has_product_apart h product) in Hl'; congruence.
    + by rewrite IH.
  - destruct (existsb (line_has_product h product) items) eqn:Hin.
    + clear -Hin. induction items as [|l items IH]; [done|]. cbn [List.filter existsb] in *.
      pose proof (filter_length_le (λ l, negb (line_has_product h product l)) items).
      destruct (line_has_product h product l); cbn [negb orb length] in *; [lia|].
      specialize (IH Hin). lia.
    + by rewrite filter_out_absent.
Qed.

(** X23. [update_quantity] with a positive quantity sets the quantity of the
    product's line and leaves the list of lines as it is, and raises
    ValueError "Product not in cart" with nothing changed when the product
    has no line.  With a quantity of zero or less it behaves as
    [remove_item]: the product is not in the cart afterwards, and a product
    that was not in the cart is accepted without an error. *)
Theorem ShoppingCart_update_quantity_outcome (h : @Heap num) (self : ShoppingCart)
  (product new_quantity : Z) :
  let r := ShoppingCart_update_quantity h self product new_quantity in
  let h' := fst (snd r) in
  let after := snd (snd r) in
  if 0 <? new_quantity
  then if ShoppingCart_contains h self product
       then fst r = Ok () ∧ after = self
            ∧ ∃ l, l ∈ ShoppingCart_items after
                   ∧ Heap_cart_items h' !! l
                     = Some {| CartItem_product := product;
                               CartItem_quantity := new_quantity |}
       else r = (Raise (ValueError "Product not in cart"), (h, self))
  else fst r = Ok () ∧ h' = h ∧ ShoppingCart_contains h after product = false
       ∧ (ShoppingCart_contains h self product = false → after = self).
Proof.
  cbn zeta. unfold ShoppingCart_update_quantity.
  rewrite (Z.leb_antisym 0 new_quantity), Z.ltb_antisym.
  destruct (new_quantity <=? 0); cbn [negb].
  - unfold ShoppingCart_remove_item, ShoppingCart_contains.
    cbn [fst snd ShoppingCart_set_items ShoppingCart_items].
    split; [done|]. split; [done|]. split; [apply contains_filter_out|].
    intros Habsent. rewrite filter_out_absent by done. by destruct self.
  - pose proof (find_line_contains h self product) as Hfind.
    destruct (find_line h _ product) as [l0|].
    + destruct Hfind as (Hin & Hprod & ->). cbn [fst snd].
      split; [done|]. split; [done|]. exists l0. split; [done|].
      cbn. rewrite lookup_alter_eq. unfold product_of in Hprod.
      destruct (Heap_cart_items h !! l0) as [item|]; [|done]. cbn in *.
      unfold CartItem_set_quantity. congruence.
    + by rewrite Hfind.
Qed.

End CartCalls.

Lemma ShoppingCart_add_item_outcome_witness :
  ShoppingCart_item_count
    (fst (snd (ShoppingCart_add_item (fst (@sample_cart Q _)) (snd sample_cart)
                 sample_book 3)))
    (snd (snd (ShoppingCart_add_item (fst (@sample_cart Q _)) (snd sample_cart)
                 sample_book 3)))
  = ShoppingCart_item_count (fst (@sample_cart Q _)) (snd sample_cart) + 3
  ∧ ShoppingCart_len
      (snd (snd (ShoppingCart_add_item (fst (@sample_cart Q _)) (snd sample_cart)
                   sample_book 3)))
    = ShoppingCart_len (snd (@sample_cart Q _)).
Proof.
  assert (one_line_per_product (fst (@sample_cart Q _)) (snd sample_cart)) as Hlines.
  { split.
    - apply (bool_decide_unpack _). vm_compute. reflexivity.
    - apply (bool_decide_unpack _). vm_compute. reflexivity. }
  assert (∃ p, Heap_products (fst (@sample_cart Q _)) !! sample_book = Some p
               ∧ Product_in_stock p = true) as (p & Hp & Hstock).
  { eexists. split; vm_compute; reflexivity. }
  pose proof (ShoppingCart_add_item_outcome (fst (@sample_cart Q _)) (snd sample_cart)
                sample_book 3 p Hlines Hp Hstock) as Hout.
  cbv zeta in Hout.
  assert (ShoppingCart_contains (fst (@sample_cart Q _)) (snd sample_cart) sample_book
          = true) as Hin by (vm_compute; reflexivity).
  rewrite Hin in Hout. cbn [orb] in Hout.
  destruct Hout as (_ & _ & Hcount & Hlen & _). by split.
Defined.

(** ** BankAccount: the lock, the balance and the PIN *)

Section BankAccountCalls.
Context {num : Type} `{PyNum num}.

(** X24. A locked account stays as it is: whatever sequence of [set_pin],
    [deposit], [withdraw] and [lock_account] is called on it, with whatever
    arguments, it remains locked with the same balance and the same PIN,
    and [get_balance] answers with the lock message for every PIN.  No
    method unlocks an account. *)
Theorem BankAccount_locked_stays_locked (self : @BankAccount num) (calls : list BankCall) :
  BankAccount_is_locked self = true →
  let after := fold_left BankAccount_call calls self in
  BankAccount_is_locked after = true
  ∧ BankAccount_balance after = BankAccount_balance self
  ∧ BankAccount_pin after = BankAccount_pin self
  ∧ ∀ pin, BankAccount_get_balance after pin
           = "Account is locked. Please contact customer service.".
Proof.
  cbn zeta. revert self. induction calls as [|call calls IH]; intros self Hlocked.
  - cbn [fold_left]. unfold BankAccount_get_balance. by rewrite Hlocked.
  - cbn [fold_left].
    assert (BankAccount_is_locked (BankAccount_call self call) = true
            ∧ BankAccount_balance (BankAccount_call self call) = BankAccount_balance self
            ∧ BankAccount_pin (BankAccount_call self call) = BankAccount_pin self)
      as (Hlocked' & Hbalance & Hpin).
    { destruct call; cbn [BankAccount_call];
        unfold BankAccount_set_pin, BankAccount_deposit, BankAccount_withdraw,
          BankAccount_lock_account; rewrite ?Hlocked; done. }
    destruct (IH _ Hlocked') as (? & ? & ? & ?). repeat split; congruence.
Qed.

(** X25. Every change of an account is on its record: a call either leaves
    the account exactly as it was or appends one transaction to its history,
    keeping all earlier ones; the owner and the account number never
    change. *)
Theorem BankAccount_call_recorded (self : @BankAccount num) (call : BankCall) :
  let after := BankAccount_call self call in
  (after = self
   ∨ ∃ transaction,
       BankAccount_transaction_history after
       = (BankAccount_transaction_history self ++ [transaction])%list)
  ∧ BankAccount_owner_name after = BankAccount_owner_name self
  ∧ BankAccount_account_number after = BankAccount_account_number self.
Proof.
  cbn zeta. destruct call as [new_pin|amount pin|amount pin|]; cbn [BankAccount_call];
    unfold BankAccount_set_pin, BankAccount_deposit, BankAccount_withdraw,
      BankAccount_lock_account.
  - destruct (BankAccount_is_locked self); [by split; [left|]|].
    destruct new_pin as [p|]; [|by split; [left|]].
    destruct (negb _ || negb _); [by split; [left|]|].
    split; [right; by eexists | done].
  - destruct (BankAccount_is_locked self); [by split; [left|]|].
    destruct (leb amount (of_int 0)); [by split; [left|]|].
    destruct (ltb (of_int 10000) amount && _); [by split; [left|]|].
    split; [right; by eexists | done].
  - destruct (BankAccount_is_locked self); [by split; [left|]|].
    destruct (negb _); [by split; [left|]|].
    destruct (leb amount (of_int 0)); [by split; [left|]|].
    destruct (ltb _ amount); [by split; [left|]|].
    split; [right; by eexists | done].
  - split; [right; by eexists | done].
Qed.

Section Balance.
Context {laws : PyNumLaws num} {order : PyNumOrder num}.

Lemma BankAccount_call_balance (self : @BankAccount num) (call : BankCall) :
  ltb (BankAccount_balance self) (of_int 0) = false →
  ltb (BankAccount_balance (BankAccount_call self call)) (of_int 0) = false.
Proof.
  intros Hbalance.
  destruct call as [new_pin|amount pin|amount pin|]; cbn [BankAccount_call];
    unfold BankAccount_set_pin, BankAccount_deposit, BankAccount_withdraw,
      BankAccount_lock_account.
  - destruct (BankAccount_is_locked self); [done|].
    destruct new_pin as [p|]; [|done]. by destruct (negb _ || negb _).
  - destruct (BankAccount_is_locked self); [done|].
    destruct (leb amount (of_int 0)) eqn:Hamount; [done|].
    destruct (ltb (of_int 10000) amount && _); [done|].
    cbn. apply add_not_neg; [done|].
    rewrite leb_ltb in Hamount. apply negb_false_iff in Hamount.
    by apply ltb_asym.
  - destruct (BankAccount_is_locked self); [done|].
    destruct (negb _); [done|].
    destruct (leb amount (of_int 0)); [done|].
    destruct (ltb _ amount) eqn:Hover; [done|].
    cbn. by rewrite sub_ltb.
  - done.
Qed.

(** X26. The balance of an account is never negative: an account that
    [BankAccount.__init__] accepted does not have a balance below zero after
    any sequence of calls, whatever the amounts and PINs.  (For any
    arithmetic with the order laws; the exact decimals have them.) *)
Theorem BankAccount_balance_never_negative (next next' : Z) (owner_name : string)
  (initial_balance : num) (self : @BankAccount num) (calls : list BankCall) :
  BankAccount_init next owner_name initial_balance = Ok (self, next') →
  ltb (BankAccount_balance (fold_left BankAccount_call calls self)) (of_int 0) = false.
Proof.
  unfold BankAccount_init.
  destruct (ltb initial_balance (of_int 0)) eqn:Hinitial; [done|].
  intros [= <- _].
  match goal with |- context [fold_left _ _ ?a] =>
    assert (ltb (BankAccount_balance a) (of_int 0) = false) as Hstart by done;
    generalize dependent a end.
  induction calls as [|call calls IH]; intros self Hself; [done|].
  cbn [fold_left]. apply IH. by apply BankAccount_call_balance.
Qed.

End Balance.

Lemma String_eqb_decide (s t : string) : String.eqb s t = bool_decide (s = t).
Proof.
  destruct (String.eqb_spec s t) as [->|Hne].
  - by rewrite bool_decide_eq_true_2.
  - by rewrite bool_decide_eq_false_2.
Qed.

(** X27. [set_pin] and [verify_pin]: on an account that is not locked, a
    string of four digits is accepted, and afterwards [verify_pin] answers
    True for that string and False for every other argument, the former PIN
    included; any other argument, or a locked account, leaves the account
    unchanged, its PIN with it. *)
Theorem BankAccount_pin_round_trip (self : @BankAccount num) (new_pin : option string) :
  let r := BankAccount_set_pin self new_pin in
  if negb (BankAccount_is_locked self) && four_digits new_pin
  then fst r = Ok "PIN set successfully."
       ∧ ∀ entered, BankAccount_verify_pin (snd r) entered = bool_decide (entered = new_pin)
  else snd r = self ∧ fst r ≠ Ok "PIN set successfully.".
Proof.
  cbn zeta. unfold BankAccount_set_pin, four_digits.
  destruct (BankAccount_is_locked self); cbn [negb andb]; [done|].
  destruct new_pin as [p|]; [|done].
  rewrite <- negb_andb. destruct ((String.length p =? 4)%nat && isdigit p); cbn [negb]; [|done].
  split; [done|]. intros [e|]; cbn; [|done].
  rewrite String_eqb_decide. apply bool_decide_ext. split; congruence.
Qed.

(** X28. An account has no PIN until [set_pin] succeeds, and without a PIN
    nothing is paid out or shown: on a new account [verify_pin] is False
    for every argument, None included, [withdraw] and [get_balance] answer
    "Invalid PIN" whatever amount and PIN they are given, a deposit above
    10000 is refused, and the account is unchanged. *)
Theorem BankAccount_new_account_has_no_pin (next next' : Z) (owner_name : string)
  (initial_balance : num) (self : @BankAccount num) :
  BankAccount_init next owner_name initial_balance = Ok (self, next') →
  ∀ amount pin,
    BankAccount_verify_pin self pin = false
    ∧ BankAccount_withdraw self amount pin = (Ok "Invalid PIN. Withdrawal denied.", self)
    ∧ BankAccount_get_balance self pin = "Invalid PIN. Access denied."
    ∧ (ltb (of_int 10000) amount = true → snd (BankAccount_deposit self amount pin) = self).
Proof.
  unfold BankAccount_init. destruct (ltb initial_balance (of_int 0)); [done|].
  intros [= <- _] amount pin.
  unfold BankAccount_withdraw, BankAccount_get_balance, BankAccount_deposit,
    BankAccount_verify_pin. cbn.
  repeat split. intros ->. by destruct (leb amount (of_int 0)).
Qed.

End BankAccountCalls.

(** ** SecureBankAccount: the security question *)

Section SecurityQuestion.
Context {num : Type} `{PyNum num}.

Lemma truthy_Some (s : string) : truthy (Some s) = true ↔ s ≠ "".
Proof.
  cbn. destruct (String.eqb_spec s ""); cbn; split; congruence.
Qed.

Lemma lower_empty (s : string) : lower s = "" ↔ s = "".
Proof. destruct s; cbn; split; congruence. Qed.

Lemma SecureBankAccount_wrong_answer (self : @SecureBankAccount num)
  (new_pin : option string) (given stored : string) :
  SecureBankAccount_failed_attempts self < SecureBankAccount_max_attempts self →
  truthy (SecureBankAccount_security_question self) = true →
  SecureBankAccount_security_answer self = Some stored → stored ≠ "" →
  lower given ≠ stored →
  snd (SecureBankAccount_reset_pin_with_security self new_pin given)
  = SecureBankAccount_set_failed_attempts self (SecureBankAccount_failed_attempts self + 1).
Proof.
  intros Hfailed Hquestion Hanswer Hstored Hgiven.
  unfold SecureBankAccount_reset_pin_with_security.
  destruct (Z.leb_spec (SecureBankAccount_max_attempts self)
              (SecureBankAccount_failed_attempts self)); [lia|].
  rewrite Hquestion, Hanswer. apply truthy_Some in Hstored. rewrite Hstored. cbn [negb orb].
  rewrite bool_decide_eq_false_2 by congruence. done.
Qed.

(** X29. Guessing the security answer locks the account.  On an account
    with a security question, once the calls of [reset_pin_with_security]
    with a wrong answer have used up the attempts that were left, every
    further call, with whatever PIN and answer, the right answer included,
    answers "Too many failed attempts. Account locked." and leaves the
    account locked; through all of it the PIN is the one the account had. *)
Theorem SecureBankAccount_lockout (self : @SecureBankAccount num) (stored : string)
  (tries : list (option string * string)) :
  truthy (SecureBankAccount_security_question self) = true →
  SecureBankAccount_security_answer self = Some stored → stored ≠ "" →
  Forall (λ try, lower (snd try) ≠ stored) tries →
  SecureBankAccount_max_attempts self - SecureBankAccount_failed_attempts self
  ≤ Z.of_nat (length tries) →
  let after := fold_left SecureBankAccount_reset_call tries self in
  ∀ new_pin given,
    let r := SecureBankAccount_reset_pin_with_security after new_pin given in
    fst r = "Too many failed attempts. Account locked."
    ∧ BankAccount_is_locked (SecureBankAccount_account (snd r)) = true
    ∧ BankAccount_pin (SecureBankAccount_account (snd r))
      = BankAccount_pin (SecureBankAccount_account self).
Proof.
  cbn zeta. intros Hquestion Hanswer Hstored Htries Hleft.
  assert (SecureBankAccount_max_attempts (fold_left SecureBankAccount_reset_call tries self)
          ≤ SecureBankAccount_failed_attempts
              (fold_left SecureBankAccount_reset_call tries self)
          ∧ BankAccount_pin (SecureBankAccount_account
                               (fold_left SecureBankAccount_reset_call tries self))
            = BankAccount_pin (SecureBankAccount_account self)) as [Hmax Hpin].
  { revert self Hquestion Hanswer Hleft.
    induction Htries as [|try tries Htry Htries IH]; intros self Hquestion Hanswer Hleft.
    - cbn in *. split; [lia | done].
    - cbn [fold_left length] in *.
      destruct (Z.leb_spec (SecureBankAccount_max_attempts self)
                  (SecureBankAccount_failed_attempts self)) as [Hover|Hunder].
      + assert (SecureBankAccount_reset_call self try
                = SecureBankAccount_set_account self
                    (snd (BankAccount_lock_account (SecureBankAccount_account self))))
          as Hstep.
        { unfold SecureBankAccount_reset_call, SecureBankAccount_reset_pin_with_security.
          apply Z.leb_le in Hover. by rewrite Hover. }
        rewrite Hstep. destruct (IH (SecureBankAccount_set_account self
                      (snd (BankAccount_lock_account (SecureBankAccount_account self)))))
          as [Hmax Hpin]; [done | done | |split; [exact Hmax | exact Hpin]].
        cbn [SecureBankAccount_max_attempts SecureBankAccount_failed_attempts
               SecureBankAccount_set_account]. lia.
      + assert (SecureBankAccount_reset_call self try
                = SecureBankAccount_set_failed_attempts self
                    (SecureBankAccount_failed_attempts self + 1)) as Hstep
          by by apply (SecureBankAccount_wrong_answer self (fst try) (snd try) stored).
        rewrite Hstep.
        destruct (IH (SecureBankAccount_set_failed_attempts self
                        (SecureBankAccount_failed_attempts self + 1)))
          as [Hmax Hpin]; [done | done | |split; [exact Hmax | exact Hpin]].
        cbn [SecureBankAccount_max_attempts SecureBankAccount_failed_attempts
               SecureBankAccount_set_failed_attempts]. lia. }
  intros new_pin given. unfold SecureBankAccount_reset_pin_with_security.
  apply Z.leb_le in Hmax. rewrite Hmax. cbn. done.
Qed.

(** X30. The answer to the security question resets the PIN.  After
    [set_security_question] with the account's PIN, a question and an
    answer, a call of [reset_pin_with_security] with a four-digit PIN and
    an answer that differs from the registered one in letter case at most
    succeeds, on an account that is not locked and has attempts left:
    [verify_pin] is then True for the new PIN and False for everything
    else, and the count of failed attempts is zero. *)
Theorem SecureBankAccount_reset_round_trip (self : @SecureBankAccount num)
  (question answer given : string) (pin new_pin : option string) :
  BankAccount_verify_pin (SecureBankAccount_account self) pin = true →
  BankAccount_is_locked (SecureBankAccount_account self) = false →
  SecureBankAccount_failed_attempts self < SecureBankAccount_max_attempts self →
  question ≠ "" → answer ≠ "" →
  four_digits new_pin = true →
  lower given = lower answer →
  let registered :=
    snd (SecureBankAccount_set_security_question self (Some question) (Some answer) pin) in
  let r := SecureBankAccount_reset_pin_with_security registered new_pin given in
  fst r = "PIN reset successfully using security question."
  ∧ (∀ entered, BankAccount_verify_pin (SecureBankAccount_account (snd r)) entered
                = bool_decide (entered = new_pin))
  ∧ SecureBankAccount_failed_attempts (snd r) = 0.
Proof.
  intros Hpin Hlocked Hfailed Hquestion Hanswer Hdigits Hgiven. cbn zeta.
  unfold SecureBankAccount_set_security_question. rewrite Hpin.
  pose proof Hquestion as Hq%truthy_Some. pose proof Hanswer as Ha%truthy_Some.
  rewrite Hq, Ha. cbn [negb orb snd].
  unfold SecureBankAccount_reset_pin_with_security.
  cbn [SecureBankAccount_max_attempts SecureBankAccount_failed_attempts
         SecureBankAccount_security_question SecureBankAccount_security_answer
         fmap option_fmap option_map].
  destruct (Z.leb_spec (SecureBankAccount_max_attempts self)
              (SecureBankAccount_failed_attempts self)); [lia|].
  rewrite Hq. assert (truthy (Some (lower answer)) = true) as ->.
  { apply truthy_Some. by rewrite lower_empty. }
  cbn [negb orb]. rewrite bool_decide_eq_true_2 by congruence. cbn [negb].
  destruct new_pin as [p|]; [|done]. cbn [four_digits] in Hdigits.
  rewrite <- negb_andb, Hdigits. cbn [negb].
  unfold BankAccount_set_pin.
  cbn [SecureBankAccount_set_failed_attempts SecureBankAccount_account].
  rewrite Hlocked, <- negb_andb, Hdigits. cbn [negb].
  split; [done|]. split; [|done].
  intros [e|]; cbn; [|done].
  rewrite String_eqb_decide. apply bool_decide_ext. split; congruence.
Qed.

End SecurityQuestion.

(** ** The account properties on sample accounts *)

Lemma BankAccount_locked_stays_locked_witness :
  BankAccount_is_locked
    (fold_left BankAccount_call
       [CallDeposit (of_int 50) None; CallSetPin (Some "0000");
        CallWithdraw (of_int 10) (Some "1234"); CallLockAccount]
       sample_locked_account) = true
  ∧ BankAccount_balance
      (fold_left BankAccount_call
         [CallDeposit (of_int 50) None; CallSetPin (Some "0000");
          CallWithdraw (of_int 10) (Some "1234"); CallLockAccount]
         sample_locked_account)
    = BankAccount_balance sample_locked_account.
Proof.
  destruct (BankAccount_locked_stays_locked sample_locked_account
              [CallDeposit (of_int 50) None; CallSetPin (Some "0000");
               CallWithdraw (of_int 10) (Some "1234"); CallLockAccount] eq_refl)
    as (Hlocked & Hbalance & _).
  by split.
Defined.

Lemma BankAccount_balance_never_negative_witness :
  ltb (BankAccount_balance
         (fold_left BankAccount_call
            [CallSetPin (Some "1234"); CallDeposit (of_int 50) None;
             CallWithdraw (of_int 500) (Some "1234");
             CallWithdraw (of_int 150) (Some "1234")]
            {| BankAccount_owner_name := "Alice";
               BankAccount_account_number := 1000;
               BankAccount_balance := (of_int 100 : Q);
               BankAccount_pin := None;
               BankAccount_is_locked := false;
               BankAccount_transaction_history := [] |}))
    (of_int 0) = false.
Proof.
  apply (BankAccount_balance_never_negative 1000 1001 "Alice" (of_int 100 : Q)).
  reflexivity.
Defined.

Lemma BankAccount_new_account_has_no_pin_witness :
  BankAccount_withdraw
    {| BankAccount_owner_name := "Alice";
       BankAccount_account_number := 1000;
       BankAccount_balance := (of_int 100 : Q);
       BankAccount_pin := None;
       BankAccount_is_locked := false;
       BankAccount_transaction_history := [] |}
    (of_int 10) None
  = (Ok "Invalid PIN. Withdrawal denied.",
     {| BankAccount_owner_name := "Alice";
        BankAccount_account_number := 1000;
        BankAccount_balance := (of_int 100 : Q);
        BankAccount_pin := None;
        BankAccount_is_locked := false;
        BankAccount_transaction_history := [] |}).
Proof.
  assert (BankAccount_init 1000 "Alice" (of_int 100 : Q)
          = Ok ({| BankAccount_owner_name := "Alice";
                   BankAccount_account_number := 1000;
                   BankAccount_balance := (of_int 100 : Q);
                   BankAccount_pin := None;
                   BankAccount_is_locked := false;
                   BankAccount_transaction_history := [] |}, 1001)) as Hinit
    by reflexivity.
  destruct (BankAccount_new_account_has_no_pin _ _ _ _ _ Hinit (of_int 10) None)
    as (_ & Hwithdraw & _).
  exact Hwithdraw.
Defined.

Lemma SecureBankAccount_lockout_witness :
  fst (SecureBankAccount_reset_pin_with_security
         (fold_left SecureBankAccount_reset_call
            [(None, "cat"); (Some "1111", "Dog"); (None, "")] sample_secure_account)
         (Some "9999") "Rex")
  = "Too many failed attempts. Account locked."
  ∧ BankAccount_is_locked
      (SecureBankAccount_account
         (snd (SecureBankAccount_reset_pin_with_security
                 (fold_left SecureBankAccount_reset_call
                    [(None, "cat"); (Some "1111", "Dog"); (None, "")]
                    sample_secure_account)
                 (Some "9999") "Rex"))) = true.
Proof.
  assert (Forall (λ try : option string * string, lower (snd try) ≠ "rex")
            [(None, "cat"); (Some "1111", "Dog"); (None, "")]) as Htries.
  { repeat (apply Forall_cons; split; [cbv; congruence|]). by apply Forall_nil. }
  assert ("rex" ≠ "") as Hstored by congruence.
  assert (SecureBankAccount_max_attempts sample_secure_account
          - SecureBankAccount_failed_attempts sample_secure_account
          ≤ Z.of_nat (length [(@None string, "cat"); (Some "1111", "Dog"); (None, "")]))
    as Hleft by (cbn; lia).
  destruct (SecureBankAccount_lockout sample_secure_account "rex"
              [(None, "cat"); (Some "1111", "Dog"); (None, "")]
              eq_refl eq_refl Hstored Htries Hleft (Some "9999") "Rex")
    as (Hmessage & Hlocked & _).
  by split.
Defined.

Lemma SecureBankAccount_reset_round_trip_witness :
  fst (SecureBankAccount_reset_pin_with_security
         (snd (SecureBankAccount_set_security_question
                 (SecureBankAccount_set_account sample_secure_account sample_account)
                 (Some "Pet?") (Some "Rex") (Some "1234")))
         (Some "4321") "REX")
  = "PIN reset successfully using security question."
  ∧ BankAccount_verify_pin
      (SecureBankAccount_account
         (snd (SecureBankAccount_reset_pin_with_security
                 (snd (SecureBankAccount_set_security_question
                         (SecureBankAccount_set_account sample_secure_account sample_account)
                         (Some "Pet?") (Some "Rex") (Some "1234")))
                 (Some "4321") "REX")))
      (Some "1234") = false.
Proof.
  assert ("Pet?" ≠ "") as Hquestion by congruence.
  assert ("Rex" ≠ "") as Hanswer by congruence.
  assert (SecureBankAccount_failed_attempts
            (SecureBankAccount_set_account sample_secure_account sample_account)
          < SecureBankAccount_max_attempts
              (SecureBankAccount_set_account sample_secure_account sample_account))
    as Hfailed by (cbn; lia).
  destruct (SecureBankAccount_reset_round_trip
              (SecureBankAccount_set_account sample_secure_account sample_account)
              "Pet?" "Rex" "REX" (Some "1234") (Some "4321")
              eq_refl eq_refl Hfailed Hquestion Hanswer eq_refl eq_refl)
    as (Hmessage & Hverify & _).
  split; [exact Hmessage|]. rewrite Hverify. reflexivity.
Defined.
